(** * Convenient effects: resolution, toggle/add/remove transitions,
      exhaustion arithmetic

    A shallow embedding of [scripts/effect-interface.js] (class
    [EffectInterface], the issuer side) and of
    [scripts/effects/effect-handler.js] (class [EffectHandler], the
    privileged side), followed by the properties of the written
    specification stated over that embedding.

    The operations are asynchronous in the source and suspend at the round
    trips of the relay and at the selection dialog only; here an operation
    runs to its end before the next one starts, and passes the state
    along. *)

From Stdlib Require Import ZArith Lia Ascii String DecimalString.
From stdpp Require Import base option list gmap.

Set Warnings "-register-all".

Local Open Scope Z_scope.

(** ** JavaScript strings

    A JavaScript string is a sequence of UTF-16 code units. *)

Definition jsstring : Type := list N.

(** Literals of the source, written as Rocq strings of ASCII characters. *)
Definition js (s : string) : jsstring :=
  map N_of_ascii (list_ascii_of_string s).

(** [a == b] and [a === b] on two strings. *)
Definition str_eq (a b : jsstring) : bool := bool_decide (a = b).

(** [a === b] where either side may be [undefined]. *)
Definition opt_eq (a b : option jsstring) : bool := bool_decide (a = b).

(** ** The regular expression of [isStatusEffect]

    [/^(\w+)(?:\s*([+-]?\d+))?$/], no flags. *)

Module Regex.

Definition between (lo hi c : N) : bool := ((lo <=? c) && (c <=? hi))%N.

(** [\d]: [0-9]. *)
Definition is_digit (c : N) : bool := between 48 57 c.

(** [\w]: [A-Za-z0-9_]. *)
Definition is_word (c : N) : bool :=
  between 65 90 c || between 97 122 c || is_digit c || (c =? 95)%N.

(** [\s]: the ECMAScript WhiteSpace and LineTerminator code units. *)
Definition is_space (c : N) : bool :=
  between 9 13 c || (c =? 32)%N || (c =? 160)%N || (c =? 5760)%N
  || between 8192 8202 c || (c =? 8232)%N || (c =? 8233)%N
  || (c =? 8239)%N || (c =? 8287)%N || (c =? 12288)%N || (c =? 65279)%N.

(** [[+-]]. *)
Definition is_sign (c : N) : bool := (c =? 43)%N || (c =? 45)%N.

(** [\d+$]. *)
Definition digits_to_end (r : jsstring) : bool :=
  match r with
  | [] => false
  | _ => forallb is_digit r
  end.

(** [([+-]?\d+)$]: the optional sign is tried first, then skipped; the
    capture is the whole remainder. *)
Definition number_to_end (r : jsstring) : option jsstring :=
  match r with
  | c :: r' =>
      if is_sign c && digits_to_end r' then Some r
      else if digits_to_end r then Some r else None
  | [] => None
  end.

(** [\s*([+-]?\d+)$]: the star is greedy, and gives a character back when
    what follows fails. *)
Fixpoint suffix_to_end (r : jsstring) : option jsstring :=
  match r with
  | c :: r' =>
      if is_space c then
        match suffix_to_end r' with
        | Some g => Some g
        | None => number_to_end r
        end
      else number_to_end r
  | [] => number_to_end r
  end.

(** [(?:\s*([+-]?\d+))?$] after the word [w]: the group is tried first,
    then skipped. *)
Definition rest_to_end (w r : jsstring)
  : option (jsstring * option jsstring) :=
  match suffix_to_end r with
  | Some g => Some (w, Some g)
  | None => match r with [] => Some (w, None) | _ => None end
  end.

(** [(\w+)...] with [w] already consumed: the plus is greedy, and gives a
    character back when what follows fails. *)
Fixpoint word_then_rest (w s : jsstring)
  : option (jsstring * option jsstring) :=
  match s with
  | c :: s' =>
      if is_word c then
        match word_then_rest (w ++ [c]) s' with
        | Some m => Some m
        | None => rest_to_end (w ++ [c]) s'
        end
      else None
  | [] => None
  end.

(** [effectName.match(regex)]: the two captures, or [None] for [null]. *)
Definition match_ (effectName : jsstring)
  : option (jsstring * option jsstring) :=
  word_then_rest [] effectName.

End Regex.

(** ** [Number(s)] and the numbers of the exhaustion arithmetic

    The numbers met here are integers or [NaN]; [None] stands for [NaN],
    and an integer is kept exact whatever its size. [Number] is applied in
    the source to the second capture of the regular expression only, a
    decimal literal with an optional sign. *)

Definition digit_value (c : N) : Z := Z.of_N c - 48.

Definition decimal_value (ds : jsstring) : Z :=
  fold_left (fun acc c => 10 * acc + digit_value c) ds 0.

Definition Number (s : jsstring) : option Z :=
  match s with
  | c :: r =>
      if Regex.is_sign c then
        if Regex.digits_to_end r then
          Some (if (c =? 45)%N then - decimal_value r else decimal_value r)
        else None
      else if Regex.digits_to_end s then Some (decimal_value s) else None
  | [] => Some 0
  end.

(** [Math.min(a, b)] and Foundry's
    [Math.clamped(v, lo, hi) = Math.min(hi, Math.max(v, lo))]. *)
Definition Math_min (a b : option Z) : option Z :=
  match a, b with Some x, Some y => Some (Z.min x y) | _, _ => None end.

Definition Math_max (a b : option Z) : option Z :=
  match a, b with Some x, Some y => Some (Z.max x y) | _, _ => None end.

Definition Math_clamped (v lo hi : option Z) : option Z :=
  Math_min hi (Math_max v lo).

Definition num_add (a b : option Z) : option Z :=
  match a, b with Some x, Some y => Some (x + y) | _, _ => None end.

(** [!n] on a number: [0] and [NaN] are falsy. *)
Definition num_falsy (n : option Z) : bool :=
  match n with Some 0 => true | Some _ => false | None => true end.

(** [s.includes(sign)] for a one-character [sign]. *)
Definition includes (s : jsstring) (c : N) : bool := existsb (N.eqb c) s.

(** Lines 250-255 of [EffectInterface.addEffect]: the new exhaustion level
    from the actor's current level, the parsed suffix of the effect name
    ([None] for [null]) and the number of levels of the system. A string is
    falsy only when empty. *)
Definition newExhaustionLevel
    (currentExhaustionlevel : Z) (targetExhaustionLevel : option jsstring)
    (systemExhaustionLevels : option Z) : option Z :=
  match targetExhaustionLevel with
  | None | Some [] =>
      Math_min (Some (currentExhaustionlevel + 1)) systemExhaustionLevels
  | Some t =>
      if includes t 43 || includes t 45 then
        Math_clamped (num_add (Some currentExhaustionlevel) (Number t))
                     (Some 0) systemExhaustionLevels
      else Math_clamped (Number t) (Some 0) systemExhaustionLevels
  end.

(** ** Data model *)

(** An entry of the change list of an effect. *)
Record Change : Type := {
  ch_key : jsstring;
  ch_mode : Z;
  ch_value : jsstring;
}.

(** Effect data: a catalog definition, the data of a sub-effect, or an
    instance applied to an actor. [e__id] is the field [_id], the identity
    token; [None] stands for [undefined] and [null]. The fields [f_...] are
    entries of the flag bag: [flags.<module>.isConvenient],
    [flags.<module>.isDynamic], [flags.core.overlay],
    [flags.<module>.nestedEffects], [flags.<module>.subEffects],
    [flags.dnd5e.exhaustionLevel] and [flags.dnd5e.originalExhaustion]. *)
Inductive Effect : Type := mkEffect {
  e__id : option jsstring;
  e_name : jsstring;
  e_active : bool;
  e_origin : option jsstring;
  e_changes : list Change;
  e_statuses : gset jsstring;
  f_isConvenient : bool;
  f_isDynamic : bool;
  f_overlay : option bool;
  f_nestedEffects : option (list jsstring);
  f_subEffects : option (list Effect);
  f_exhaustionLevel : option Z;
  f_originalExhaustion : option Z;
}.

(** An entry of [CONFIG.statusEffects], the status vocabulary of the
    platform: [id], the static [_id] where the system gives one, the
    displayed [name], and [levels] (given on the exhaustion entry). *)
Record StatusEntry : Type := {
  se_id : jsstring;
  se__id : option jsstring;
  se_name : jsstring;
  se_levels : option Z;
}.

(** The field [isExhaustion] of a status descriptor: [false], [null], or the
    suffix of the effect name. *)
Inductive IsExhaustion : Type :=
| IsFalse
| IsNull
| IsDelta (numberEffectName : jsstring).

(** The object returned by [isStatusEffect]: [{ id, staticID, isExhaustion }].
    [sd__id] is the field [_id] that [EffectHandler.toggleEffect] reads from
    the object it is given. *)
Record StatusDescriptor : Type := {
  sd_id : jsstring;
  sd_staticID : option jsstring;
  sd_isExhaustion : IsExhaustion;
  sd__id : option jsstring;
}.

(** An actor: [actor.effects] in insertion order,
    [actor.system.attributes.exhaustion], [actor.token] with the
    [hasActiveHUD] of its [object] ([Some None]: a token document whose
    [object] is [null]), and the [hasActiveHUD] of each of
    [actor.getActiveTokens()]. *)
Record Actor : Type := {
  a_effects : list Effect;
  a_exhaustion : option Z;
  a_token : option (option bool);
  a_activeTokens : list bool;
}.

(** A command sent through [socket.executeAsGM]. *)
Inductive Command : Type :=
| CToggleEffect (effectName : jsstring) (overlay : option bool)
    (uuids : list jsstring) (isStatusEffect : option StatusDescriptor)
| CAddEffect (effect : Effect) (uuid : jsstring) (origin : option jsstring)
    (overlay : option bool) (isStatusEffect : option StatusDescriptor)
| CRemoveEffect (effectID : option jsstring) (uuid : jsstring)
    (origin : option jsstring).

(** The mutable state: the actors by UUID, the messages given to
    [ui.notifications.error], the commands sent through the relay, and the
    number of identity tokens drawn so far by the store. *)
Record World : Type := {
  actors : gmap jsstring Actor;
  notifications : list jsstring;
  relayed : list Command;
  created : nat;
}.

(** What an operation reads and does not change: the setting
    [modifyStatusEffects], [CONFIG.statusEffects], the custom and the
    built-in catalog, and the collaborators that are not part of the two
    classes. *)
Record Env : Type := {
  modifyStatusEffects : jsstring;
  statusEffects : list StatusEntry;
  getCustomEffects : list Effect;
  effects_all : list Effect;
  getId : jsstring -> jsstring;
  addDynamicEffects : Effect -> Actor -> Effect;
  promptChoice : Effect -> list Effect -> option jsstring;
  randomID : nat -> jsstring;
  getActorUuids : list jsstring;
}.

(** ** Outcomes

    An operation returns, lets an exception escape (a [TypeError] on a
    property of [undefined], or an error of the platform), or, in the model
    only, runs out of the fuel that bounds the expansion of sub-effects. *)
Inductive Outcome (A : Type) : Type :=
| Returned (a : A) (w : World)
| Threw (w : World)
| OutOfFuel.

Arguments Returned {A} a w.
Arguments Threw {A} w.
Arguments OutOfFuel {A}.

Definition M (A : Type) : Type := World -> Outcome A.

Definition ret {A : Type} (a : A) : M A := fun w => Returned a w.

Definition throw {A : Type} : M A := fun w => Threw w.

Definition bind {A B : Type} (c : M A) (k : A -> M B) : M B :=
  fun w =>
    match c w with
    | Returned a w' => k a w'
    | Threw w' => Threw w'
    | OutOfFuel => OutOfFuel
    end.

Notation "'do' x <- c ; k" := (bind c (fun x => k))
  (at level 10, x name, c at level 100, k at level 200).
Notation "c ;; k" := (bind c (fun _ => k))
  (at level 100, k at level 200, right associativity).

Definition get_world : M World := fun w => Returned w w.

(** [for (const x of l) { body }]. *)
Fixpoint for_of {A : Type} (l : list A) (body : A -> M unit) : M unit :=
  match l with
  | [] => ret tt
  | x :: l' => body x ;; for_of l' body
  end.

(** The final state of an outcome. *)
Definition final {A : Type} (o : Outcome A) : option World :=
  match o with
  | Returned _ w => Some w
  | Threw w => Some w
  | OutOfFuel => None
  end.

Definition returns {A : Type} (o : Outcome A) : bool :=
  match o with Returned _ _ => true | _ => false end.

(** An exception raised by a computation that does not touch the state. *)
Inductive Result (A : Type) : Type :=
| Ok (a : A)
| Raised.

Arguments Ok {A} a.
Arguments Raised {A}.

Definition lift {A : Type} (r : Result A) : M A :=
  fun w => match r with Ok a => Returned a w | Raised => Threw w end.

(** ** Truthiness *)

(** A string that may be [undefined]: truthy when defined and not empty. *)
Definition truthy_str (o : option jsstring) : bool :=
  match o with Some (_ :: _) => true | _ => false end.

(** A boolean that may be [undefined]. *)
Definition truthy (o : option bool) : bool :=
  match o with Some true => true | _ => false end.

(** ** Field updates *)

Definition with_id (i : option jsstring) (e : Effect) : Effect :=
  mkEffect i (e_name e) (e_active e) (e_origin e) (e_changes e)
    (e_statuses e) (f_isConvenient e) (f_isDynamic e) (f_overlay e)
    (f_nestedEffects e) (f_subEffects e) (f_exhaustionLevel e)
    (f_originalExhaustion e).

Definition with_name (n : jsstring) (e : Effect) : Effect :=
  mkEffect (e__id e) n (e_active e) (e_origin e) (e_changes e)
    (e_statuses e) (f_isConvenient e) (f_isDynamic e) (f_overlay e)
    (f_nestedEffects e) (f_subEffects e) (f_exhaustionLevel e)
    (f_originalExhaustion e).

Definition with_origin (o : option jsstring) (e : Effect) : Effect :=
  mkEffect (e__id e) (e_name e) (e_active e) o (e_changes e)
    (e_statuses e) (f_isConvenient e) (f_isDynamic e) (f_overlay e)
    (f_nestedEffects e) (f_subEffects e) (f_exhaustionLevel e)
    (f_originalExhaustion e).

Definition with_changes (c : list Change) (e : Effect) : Effect :=
  mkEffect (e__id e) (e_name e) (e_active e) (e_origin e) c
    (e_statuses e) (f_isConvenient e) (f_isDynamic e) (f_overlay e)
    (f_nestedEffects e) (f_subEffects e) (f_exhaustionLevel e)
    (f_originalExhaustion e).

Definition with_statuses (s : gset jsstring) (e : Effect) : Effect :=
  mkEffect (e__id e) (e_name e) (e_active e) (e_origin e) (e_changes e)
    s (f_isConvenient e) (f_isDynamic e) (f_overlay e)
    (f_nestedEffects e) (f_subEffects e) (f_exhaustionLevel e)
    (f_originalExhaustion e).

Definition with_isConvenient (b : bool) (e : Effect) : Effect :=
  mkEffect (e__id e) (e_name e) (e_active e) (e_origin e) (e_changes e)
    (e_statuses e) b (f_isDynamic e) (f_overlay e)
    (f_nestedEffects e) (f_subEffects e) (f_exhaustionLevel e)
    (f_originalExhaustion e).

Definition with_overlay (o : option bool) (e : Effect) : Effect :=
  mkEffect (e__id e) (e_name e) (e_active e) (e_origin e) (e_changes e)
    (e_statuses e) (f_isConvenient e) (f_isDynamic e) o
    (f_nestedEffects e) (f_subEffects e) (f_exhaustionLevel e)
    (f_originalExhaustion e).

Definition with_exhaustion (level original : option Z) (e : Effect) : Effect :=
  mkEffect (e__id e) (e_name e) (e_active e) (e_origin e) (e_changes e)
    (e_statuses e) (f_isConvenient e) (f_isDynamic e) (f_overlay e)
    (f_nestedEffects e) (f_subEffects e) level original.

Definition with_effects (l : list Effect) (a : Actor) : Actor :=
  {| a_effects := l; a_exhaustion := a_exhaustion a; a_token := a_token a;
     a_activeTokens := a_activeTokens a |}.

(** ** The collaborators of the two classes *)

(** Modelled from the spec: [FoundryHelpers.getActorByUuid], the store's
    [getByUuid(uuid) -> Actor|null]. *)
Definition getActorByUuid (w : World) (uuid : jsstring) : option Actor :=
  actors w !! uuid.

(** Modelled from the spec: [Actor.appliedEffects], the effects of the actor
    "filtered to currently-active". Each comes with its position in
    [actor.effects], which stands for the identity of the document. *)
Definition appliedEffects (actor : Actor) : list (nat * Effect) :=
  List.filter (fun d => e_active d.2) (imap pair (a_effects actor)).

(** Modelled from the spec: [EffectHelpers.isConvenient], the test of the
    "is-convenient" marker flag of an effect. *)
Definition isConvenient (activeEffect : Effect) : bool :=
  f_isConvenient activeEffect.

(** Modelled from the spec: [EffectHelpers.createActiveEffect] on
    [{...effectData, origin}]: an effect built from the data, carrying the
    marker flag as every effect this module creates, with the given
    origin. *)
Definition createActiveEffect (effectData : Effect) (origin : option jsstring)
  : Effect :=
  with_isConvenient true (with_origin origin effectData).

(** [ui.notifications.error(message)]. *)
Definition notify (message : jsstring) : M unit :=
  fun w =>
    Returned tt
      {| actors := actors w; notifications := notifications w ++ [message];
         relayed := relayed w; created := created w |}.

(** [socket.executeAsGM(name, ...)]: the command is recorded, and the
    handler registered under that name runs on the privileged peer, which
    is taken to be connected and to see the same actors. *)
Definition executeAsGM (c : Command) (handler : M unit) : M unit :=
  fun w =>
    handler
      {| actors := actors w; notifications := notifications w;
         relayed := relayed w ++ [c]; created := created w |}.

Definition set_effects (uuid : jsstring) (f : list Effect -> list Effect)
  : M unit :=
  fun w =>
    Returned tt
      {| actors := alter (fun a => with_effects (f (a_effects a)) a) uuid
                     (actors w);
         notifications := notifications w; relayed := relayed w;
         created := created w |}.

(** Modelled from the spec: [effect.delete()] on the effect at position [i]
    of the actor's effects. *)
Definition delete_document (uuid : jsstring) (i : nat) : M unit :=
  set_effects uuid (fun l => delete i l).

(** Modelled from the spec: [actor.deleteEmbeddedDocuments('ActiveEffect',
    ids)]: the effects with one of these identity tokens leave the actor. *)
Definition deleteEmbeddedDocuments (uuid : jsstring)
    (ids : list (option jsstring)) : M unit :=
  set_effects uuid
    (fun l => List.filter (fun e => negb (existsb (opt_eq (e__id e)) ids)) l).

Section Operations.

Variable env : Env.

(** Modelled from the spec: the store's [createEffects(actor, [definitions])]
    as called through [actor.createEmbeddedDocuments('ActiveEffect', [effect])]:
    the effect joins the actor's effects under an identity token drawn by the
    store. *)
Definition createEmbeddedDocuments (uuid : jsstring) (effect : Effect)
  : M unit :=
  fun w =>
    Returned tt
      {| actors :=
           alter (fun a =>
                    with_effects
                      (a_effects a
                         ++ [with_id (Some (randomID env (created w))) effect])
                      a)
                 uuid (actors w);
         notifications := notifications w; relayed := relayed w;
         created := S (created w) |}.

(** Modelled from the spec: the store's [createEffects] as called through
    [ActiveEffect.implementation.create(effect, { parent: actor, keepId: true })]:
    the effect joins the actor's effects under its own identity token when
    it has one. *)
Definition create_keepId (uuid : jsstring) (effect : Effect) : M unit :=
  match e__id effect with
  | Some _ => set_effects uuid (fun l => l ++ [effect])
  | None => createEmbeddedDocuments uuid effect
  end.

(** Modelled from the spec: the status-effect factory
    [ActiveEffect.implementation.fromStatusEffect(id)], "a new unsaved effect
    instance pre-populated from the platform's built-in status catalog entry
    matching id"; an unknown id is an error of the platform. *)
Definition fromStatusEffect (statusId : jsstring) : Result Effect :=
  match find (fun s => str_eq (se_id s) statusId) (statusEffects env) with
  | None => Raised
  | Some status =>
      Ok (mkEffect (se__id status) (se_name status) true None []
            {[ statusId ]} false false None None None None None)
  end.

(** ** [EffectInterface]: catalogs and classification *)

Definition findCustomEffectByName (effectName : jsstring) : option Effect :=
  find (fun effect => str_eq (e_name effect) effectName) (getCustomEffects env).

Definition findEffectByName (effectName : jsstring) : option Effect :=
  match findCustomEffectByName effectName with
  | Some effect => Some effect
  | None =>
      find (fun effect => str_eq (e_name effect) effectName) (effects_all env)
  end.

(** [isStatusEffect(effectName)]: [Ok None] for [false]. The entry with id
    ['exhaustion'] is dereferenced once a status name has matched. *)
Definition isStatusEffect (effectName : jsstring)
  : Result (option StatusDescriptor) :=
  if negb (str_eq (modifyStatusEffects env) (js "none")) then Ok None
  else
    let m := Regex.match_ effectName in
    let stringEffectName := fst <$> m in
    let numberEffectName := m ≫= snd in
    match find (fun effect => opt_eq (Some (se_name effect)) stringEffectName)
               (statusEffects env) with
    | None => Ok None
    | Some checkTranslationsName =>
        match find (fun effect => str_eq (se_id effect) (js "exhaustion"))
                   (statusEffects env) with
        | None => Raised
        | Some exhaustion =>
            let isExhaustion :=
              if opt_eq (se__id checkTranslationsName) (se__id exhaustion)
              then match numberEffectName with
                   | Some d => IsDelta d
                   | None => IsNull
                   end
              else IsFalse in
            Ok (Some {| sd_id := se_id checkTranslationsName;
                        sd_staticID := se__id checkTranslationsName;
                        sd_isExhaustion := isExhaustion;
                        sd__id := None |})
        end
    end.

Definition hasNestedEffects (effect : Effect) : bool :=
  match default [] (f_nestedEffects effect) with
  | [] => false
  | _ => true
  end.

(** [_getNestedEffectSelection(effect)]: the catalog effects named in the
    nested list are offered, and the one whose name is the user's choice is
    returned; [None] when the dialog is closed. *)
Definition _getNestedEffectSelection (effect : Effect) : option Effect :=
  let nestedEffectNames := default [] (f_nestedEffects effect) in
  let nestedEffects := omap findEffectByName nestedEffectNames in
  let choice := promptChoice env effect nestedEffects in
  find (fun nestedEffect => opt_eq (Some (e_name nestedEffect)) choice)
       nestedEffects.

(** ** [EffectHandler]: the privileged side *)

Definition EffectHandler_hasEffectApplied (effectName uuid : jsstring)
    (w : World) : option bool :=
  match getActorByUuid w uuid with
  | None => None
  | Some actor =>
      Some (existsb
              (fun activeEffect =>
                 isConvenient activeEffect.2
                 && str_eq (e_name activeEffect.2) effectName)
              (appliedEffects actor))
  end.

(** [[activeEffect?._id, activeEffect?.name].some((eID) => eID === effectID)]. *)
Definition matches_effectID (effectID : option jsstring)
    (activeEffect : Effect) : bool :=
  opt_eq (e__id activeEffect) effectID
  || opt_eq (Some (e_name activeEffect)) effectID.

(** [removeEffect({ effectID, uuid, origin })]. *)
Definition EffectHandler_removeEffect (effectID : option jsstring)
    (uuid : jsstring) (origin : option jsstring) : M unit :=
  do w <- get_world;
  match getActorByUuid w uuid with
  | None => throw
  | Some actor =>
      let effectToRemove :=
        if truthy_str origin then
          find (fun activeEffect =>
                  isConvenient activeEffect.2
                  && matches_effectID effectID activeEffect.2
                  && opt_eq (e_origin activeEffect.2) origin)
               (appliedEffects actor)
        else
          find (fun activeEffect =>
                  isConvenient activeEffect.2
                  && matches_effectID effectID activeEffect.2)
               (appliedEffects actor) in
      match effectToRemove with
      | None => ret tt
      | Some d => delete_document uuid d.1
      end
  end.

(** [actor.token?.object.hasActiveHUD || actor.getActiveTokens()[0].hasActiveHUD]:
    the value decides a refresh of the display only; the evaluation raises a
    [TypeError] on a token document without [object], and on an actor
    without active token. *)
Definition hasActiveHUD (actor : Actor) : Result bool :=
  let second :=
    match a_activeTokens actor with
    | [] => Raised
    | t :: _ => Ok t
    end in
  match a_token actor with
  | None => second
  | Some None => Raised
  | Some (Some true) => Ok true
  | Some (Some false) => second
  end.

(** The type of the handler registered under ['addEffect']. *)
Definition AddEffect : Type :=
  Effect -> jsstring -> option jsstring -> option bool ->
  option StatusDescriptor -> M unit.

(** [updateSource(effectData)] on an effect of the factory: the fields of the
    data replace those of the effect; an absent [_id] and an empty set of
    statuses leave those of the factory in place. *)
Definition updateSource (effect effectData : Effect) : Effect :=
  with_id (match e__id effectData with
           | Some i => Some i
           | None => e__id effect
           end)
    (with_statuses (if bool_decide (e_statuses effectData = ∅)
                    then e_statuses effect else e_statuses effectData)
       effectData).

(** [EffectInterface.addEffectWith({ effectData, uuid, origin, overlay })],
    over the handler that the relay reaches under ['addEffect'].
    [effectData = None] stands for data on which [foundry.utils.isEmpty]
    holds. *)
Definition addEffectWith_over (relay_addEffect : AddEffect)
    (effectData : option Effect) (uuid : jsstring) (origin : option jsstring)
    (overlay : option bool) : M unit :=
  match effectData with
  | None => notify (js "No effectData were provided!")
  | Some effectData =>
      let effectName := e_name effectData in
      do isStatusEffect <-
        lift (match effectName with
              | [] => Ok None
              | _ => isStatusEffect effectName
              end);
      do effect <-
        match isStatusEffect with
        | Some sd =>
            do effect <- lift (fromStatusEffect (sd_id sd));
            ret (Some (updateSource effect
                         (with_isConvenient true effectData)))
        | None =>
            let effect := createActiveEffect effectData origin in
            if hasNestedEffects effect
            then ret (_getNestedEffectSelection effect)
            else ret (Some effect)
        end;
      match effect with
      | None => ret tt
      | Some effect =>
          do w <- get_world;
          match getActorByUuid w uuid with
          | None =>
              notify (js "Actor " ++ uuid ++ js " could not be found")
          | Some _ =>
              executeAsGM
                (CAddEffect effect uuid origin overlay isStatusEffect)
                (relay_addEffect effect uuid origin overlay isStatusEffect)
          end
      end
  end.

(** [addEffect({ effect, uuid, origin, overlay, isStatusEffect })]. The
    options [origin] and [overlay] given to [create] in the status branch
    are not data of the effect. [fuel] bounds the depth of the expansion of
    sub-effects, which re-enters [EffectInterface.addEffectWith]. *)
Fixpoint EffectHandler_addEffect (fuel : nat) (effect : Effect)
    (uuid : jsstring) (origin : option jsstring) (overlay : option bool)
    (isStatusEffect : option StatusDescriptor) : M unit :=
  do w <- get_world;
  match getActorByUuid w uuid with
  | None => throw
  | Some actor =>
      match isStatusEffect with
      | Some _ =>
          let existing :=
            find (fun eff => opt_eq (e__id eff.2) (e__id effect))
                 (appliedEffects actor) in
          match existing with
          | Some eff => EffectHandler_removeEffect (e__id eff.2) uuid None
          | None => ret tt
          end ;;
          do _ <- lift (hasActiveHUD actor);
          create_keepId uuid effect
      | None =>
          let effect := with_overlay overlay effect in
          let effect :=
            if f_isDynamic effect then addDynamicEffects env effect actor
            else effect in
          createEmbeddedDocuments uuid effect ;;
          match f_subEffects effect with
          | None => ret tt
          | Some subEffects =>
              for_of subEffects
                (fun subEffect =>
                   match fuel with
                   | O => fun _ => OutOfFuel
                   | S fuel' =>
                       addEffectWith_over (EffectHandler_addEffect fuel')
                         (Some subEffect) uuid
                         (Some (getId env (e_name effect))) None
                   end)
          end
      end
  end.

(** [toggleEffect(effectName, { overlay, uuids, isStatusEffect, active })]. *)
Definition EffectHandler_toggleEffect (fuel : nat) (effectName : jsstring)
    (overlay : option bool) (uuids : list jsstring)
    (isStatusEffect : option StatusDescriptor) (active : option bool)
  : M unit :=
  for_of uuids
    (fun uuid =>
       match isStatusEffect with
       | None =>
           do w <- get_world;
           if default false (EffectHandler_hasEffectApplied effectName uuid w)
           then
             (* removeEffect({ effectName, uuid }): there is no [effectID]
                among the properties given *)
             EffectHandler_removeEffect None uuid None
           else
             match findEffectByName effectName with
             | None => throw
             | Some effect =>
                 EffectHandler_addEffect fuel effect uuid None overlay None
             end
       | Some sd =>
           do w <- get_world;
           match getActorByUuid w uuid with
           | None => ret tt
           | Some actor =>
               let statusId := sd_id sd in
               let existing :=
                 if truthy_str (sd__id sd) then
                   match find (fun e => opt_eq (e__id e) (sd__id sd))
                              (a_effects actor) with
                   | Some effect => [e__id effect]
                   | None => []
                   end
                 else
                   map e__id
                     (List.filter
                        (fun effect =>
                           bool_decide (size (e_statuses effect) = 1%nat)
                           && bool_decide (statusId ∈ e_statuses effect))
                        (a_effects actor)) in
               match existing with
               | _ :: _ =>
                   if truthy active then ret tt
                   else deleteEmbeddedDocuments uuid existing
               | [] =>
                   match active with
                   | Some false => ret tt
                   | _ =>
                       do effect <- lift (fromStatusEffect statusId);
                       let effect :=
                         if truthy overlay
                         then with_overlay (Some true) effect else effect in
                       create_keepId uuid effect
                   end
               end
           end
       end).

(** ** [EffectInterface]: the issuer side *)

(** The text of a number inside a template literal. *)
Definition number_text (n : Z) : jsstring :=
  js (NilZero.string_of_int (Z.to_int n)).

(** [toggleEffect(effectName, { overlay, uuids })]. *)
Definition EffectInterface_toggleEffect (fuel : nat) (effectName : jsstring)
    (overlay : option bool) (uuids : list jsstring) : M unit :=
  let uuids :=
    match uuids with
    | [] => getActorUuids env
    | _ => uuids
    end in
  match uuids with
  | [] =>
      notify (js "Please select or target a token to toggle " ++ effectName)
  | _ =>
      do isStatusEffect <- lift (isStatusEffect effectName);
      let relay (name : jsstring) :=
        executeAsGM (CToggleEffect name overlay uuids isStatusEffect)
          (EffectHandler_toggleEffect fuel name overlay uuids isStatusEffect
             None) in
      match isStatusEffect with
      | Some _ => relay effectName
      | None =>
          match findEffectByName effectName with
          | None =>
              notify (js "Effect " ++ effectName ++ js " was not found")
          | Some effect =>
              if hasNestedEffects effect then
                match _getNestedEffectSelection effect with
                | None => ret tt
                | Some effect => relay (e_name effect)
                end
              else relay (e_name effect)
          end
      end
  end.

Definition EffectInterface_hasEffectApplied (effectName uuid : jsstring)
    (w : World) : option bool :=
  EffectHandler_hasEffectApplied effectName uuid w.

(** [removeEffect({ effectName, uuid, origin })]. *)
Definition EffectInterface_removeEffect (effectName uuid : jsstring)
    (origin : option jsstring) : M unit :=
  do isStatusEffect <- lift (isStatusEffect effectName);
  let relay (effectID : option jsstring) :=
    do w <- get_world;
    match getActorByUuid w uuid with
    | None => notify (js "Actor " ++ uuid ++ js " could not be found")
    | Some _ =>
        executeAsGM (CRemoveEffect effectID uuid origin)
          (EffectHandler_removeEffect effectID uuid origin)
    end in
  match isStatusEffect with
  | Some sd => relay (sd_staticID sd)
  | None =>
      match findEffectByName effectName with
      | None =>
          notify (js "Effect " ++ effectName ++ js " could not be found")
      | Some effect =>
          if hasNestedEffects effect then
            match _getNestedEffectSelection effect with
            | None => ret tt
            | Some effect => relay (Some (e_name effect))
            end
          else relay (Some (e_name effect))
      end
  end.

(** [addEffect({ effectName, uuid, origin, overlay, metadata })]. The actor
    is dereferenced on line 219, before the test of line 221. *)
Definition EffectInterface_addEffect (fuel : nat) (effectName uuid : jsstring)
    (origin : option jsstring) (overlay : option bool) : M unit :=
  do w <- get_world;
  match getActorByUuid w uuid with
  | None => throw
  | Some actor =>
      do isStatusEffect <- lift (isStatusEffect effectName);
      let relay_remove (effectID : option jsstring) :=
        executeAsGM (CRemoveEffect effectID uuid None)
          (EffectHandler_removeEffect effectID uuid None) in
      let relay_add (effect : Effect) :=
        executeAsGM (CAddEffect effect uuid origin overlay isStatusEffect)
          (EffectHandler_addEffect fuel effect uuid origin overlay
             isStatusEffect) in
      match isStatusEffect with
      | Some sd =>
          let effect :=
            find (fun effect => opt_eq (e__id effect.2) (sd_staticID sd))
                 (appliedEffects actor) in
          match sd_isExhaustion sd with
          | IsFalse =>
              match effect with
              | Some effect => relay_remove (e__id effect.2)
              | None => ret tt
              end ;;
              do effect <- lift (fromStatusEffect (sd_id sd));
              let changes :=
                match findEffectByName effectName with
                | Some found => e_changes found
                | None => []
                end in
              let effect := with_isConvenient true effect in
              let effect :=
                match changes with
                | [] => effect
                | _ => with_changes changes effect
                end in
              relay_add effect
          | isExhaustion =>
              let targetExhaustionLevel :=
                match isExhaustion with
                | IsDelta d => Some d
                | _ => None
                end in
              do exhaustion <-
                lift (match find (fun e => str_eq (se_id e) (js "exhaustion"))
                                 (statusEffects env) with
                      | Some exhaustion => Ok exhaustion
                      | None => Raised
                      end);
              let systemExhaustionLevels := se_levels exhaustion in
              let currentExhaustionlevel := default 0 (a_exhaustion actor) in
              let newExhaustionLevel :=
                newExhaustionLevel currentExhaustionlevel
                  targetExhaustionLevel systemExhaustionLevels in
              if num_falsy newExhaustionLevel then
                relay_remove (effect ≫= fun effect => e__id effect.2)
              else
                let name :=
                  se_name exhaustion ++ js " "
                  ++ number_text (default 0 newExhaustionLevel) in
                let changes :=
                  match findEffectByName name with
                  | Some found => e_changes found
                  | None => []
                  end in
                match effect with
                | Some effect => relay_remove (e__id effect.2)
                | None => ret tt
                end ;;
                do effect <- lift (fromStatusEffect (sd_id sd));
                relay_add
                  (with_name name
                     (with_changes changes
                        (with_exhaustion newExhaustionLevel
                           (Some currentExhaustionlevel)
                           (with_isConvenient true effect))))
          end
      | None =>
          match findEffectByName effectName with
          | None =>
              notify (js "Effect " ++ effectName ++ js " could not be found")
          | Some effect =>
              if hasNestedEffects effect then
                match _getNestedEffectSelection effect with
                | None => ret tt
                | Some effect => relay_add effect
                end
              else relay_add effect
          end
      end
  end.

(** [addEffectWith({ effectData, uuid, origin, overlay })]. *)
Definition EffectInterface_addEffectWith (fuel : nat)
    (effectData : option Effect) (uuid : jsstring) (origin : option jsstring)
    (overlay : option bool) : M unit :=
  addEffectWith_over (EffectHandler_addEffect fuel) effectData uuid origin
    overlay.

End Operations.

(** ** [EffectHandler]: the functions that nothing calls *)

(** [_getProneEffect()]. *)
Definition EffectHandler__getProneEffect (env : Env) : option Effect :=
  findEffectByName env (js "Prone").

(** [_removeAllExhaustionEffects(uuid)]: five calls
    [removeEffect({ effectName: 'Exhaustion n', uuid })], for [n] from 1 to
    5; [removeEffect] reads [effectID], which none of them gives. *)
Definition EffectHandler__removeAllExhaustionEffects (uuid : jsstring)
  : M unit :=
  EffectHandler_removeEffect None uuid None ;;
  EffectHandler_removeEffect None uuid None ;;
  EffectHandler_removeEffect None uuid None ;;
  EffectHandler_removeEffect None uuid None ;;
  EffectHandler_removeEffect None uuid None.

(** ** The grammar of status names, as the specification words it *)

Definition word_token (b : jsstring) : Prop :=
  b <> [] /\ forallb Regex.is_word b = true.

Definition whitespace (ws : jsstring) : Prop :=
  forallb Regex.is_space ws = true.

Definition integer (n : jsstring) : Prop :=
  exists sign digits,
    n = sign ++ digits
    /\ (sign = [] \/ sign = js "+" \/ sign = js "-")
    /\ digits <> [] /\ forallb Regex.is_digit digits = true.

(** "<word-token><optional whitespace><optional signed-or-unsigned integer>",
    each part read on its own. *)
Definition parses_as (effectName base : jsstring) (suffix : option jsstring)
  : Prop :=
  exists ws,
    effectName = base ++ ws ++ default [] suffix
    /\ word_token base /\ whitespace ws
    /\ match suffix with Some n => integer n | None => True end.

(** The same grammar with the word token taken as long as it can be: white
    space is read only in front of an integer, and an integer that follows
    the word token at once starts with its sign. *)
Definition parses_greedily (effectName base : jsstring)
    (suffix : option jsstring) : Prop :=
  exists ws,
    effectName = base ++ ws ++ default [] suffix
    /\ word_token base /\ whitespace ws
    /\ match suffix with
       | Some n =>
           integer n
           /\ (ws = [] -> exists c n', n = c :: n' /\ Regex.is_sign c = true)
       | None => ws = []
       end.

(** The remainder does not start with a word character. *)
Definition word_ends (r : jsstring) : Prop :=
  match r with
  | c :: _ => Regex.is_word c = false
  | [] => True
  end.

(** The longest run of word characters at the start, and what follows. *)
Fixpoint word_run (s : jsstring) : jsstring * jsstring :=
  match s with
  | c :: s' =>
      if Regex.is_word c then (c :: (word_run s').1, (word_run s').2)
      else ([], s)
  | [] => ([], [])
  end.

(** The descriptor built from the entry found by name, when [exhaustion] is
    the entry with id ['exhaustion']: the suffix becomes the level or delta
    of exhaustion, [null] without suffix, [false] for the other statuses. *)
Definition descriptor_of (entry : StatusEntry) (suffix : option jsstring)
  : StatusDescriptor :=
  {| sd_id := se_id entry;
     sd_staticID := se__id entry;
     sd_isExhaustion :=
       if str_eq (se_id entry) (js "exhaustion")
       then match suffix with Some d => IsDelta d | None => IsNull end
       else IsFalse;
     sd__id := None |}.

(** The status vocabulary has an entry with id ['exhaustion'], and the static
    identity token of that entry is the token of no other status. *)
Definition exhaustion_registered (env : Env) : Prop :=
  exists exhaustion,
    find (fun e => str_eq (se_id e) (js "exhaustion")) (statusEffects env)
    = Some exhaustion
    /\ forall e, In e (statusEffects env) ->
         (se__id e = se__id exhaustion <-> se_id e = js "exhaustion").

(** [a `clamp` between lo and hi], as the specification uses it. *)
Definition clamp (v lo hi : Z) : Z := Z.max lo (Z.min v hi).

(** ** Removal, as the specification words it *)

(** The state in which the effects of the actor [uuid] are [l]. *)
Definition replace_effects (uuid : jsstring) (l : list Effect) (w : World)
  : World :=
  {| actors := alter (with_effects l) uuid (actors w);
     notifications := notifications w; relayed := relayed w;
     created := created w |}.

(** What [removeEffect] looks for: an effect that is currently active,
    carries the marker flag, has the identifier as identity token or as
    name, and, when an origin that is not empty is supplied, has that
    origin. *)
Definition candidate (effectID origin : option jsstring) (e : Effect) : bool :=
  e_active e && isConvenient e && matches_effectID effectID e
  && (if truthy_str origin then opt_eq (e_origin e) origin else true).

(** The search of the specification: "the actor's convenient-marked effects
    for one whose identity token OR name matches", with the origin supplied. *)
Definition worded_match (effectID origin : jsstring) (e : Effect) : bool :=
  isConvenient e && matches_effectID (Some effectID) e
  && opt_eq (e_origin e) (Some origin).

(** [l] without its first element on which [p] holds. *)
Fixpoint remove_first (p : Effect -> bool) (l : list Effect) : list Effect :=
  match l with
  | [] => []
  | e :: l' => if p e then l' else e :: remove_first p l'
  end.

(** Removal as the specification words it, at one input: nothing changes
    when no convenient effect on the actor matches, and the first match
    leaves the actor otherwise. *)
Definition removeEffect_as_worded (w : World) (uuid effectID origin : jsstring)
  : Prop :=
  forall actor,
    getActorByUuid w uuid = Some actor ->
    EffectHandler_removeEffect (Some effectID) uuid (Some origin) w
    = Returned tt
        (if existsb (worded_match effectID origin) (a_effects actor)
         then replace_effects uuid
                (remove_first (worded_match effectID origin) (a_effects actor))
                w
         else w).

(** The suffix carried by the descriptor of an exhaustion name: [None] for
    [null]. *)
Definition delta_of (isExhaustion : IsExhaustion) : option jsstring :=
  match isExhaustion with
  | IsDelta d => Some d
  | _ => None
  end.

(** ** Targets *)

(** The UUID resolves to an actor. *)
Definition resolves (w : World) (uuid : jsstring) : bool :=
  match getActorByUuid w uuid with
  | Some _ => true
  | None => false
  end.

(** Two states with the same notifications, the same commands relayed, and
    the same UUIDs that resolve. *)
Definition same_channels (w w' : World) : Prop :=
  notifications w' = notifications w
  /\ relayed w' = relayed w
  /\ forall uuid, resolves w' uuid = resolves w uuid.

(** ** Composite effects *)

(** The definition as [addEffect] creates it: with the overlay flag merged
    in, and run through the dynamic-effect expansion when flagged dynamic. *)
Definition prepared (env : Env) (overlay : option bool) (actor : Actor)
    (effect : Effect) : Effect :=
  let effect := with_overlay overlay effect in
  if f_isDynamic effect then addDynamicEffects env effect actor else effect.

(** The dynamic-effect expansion leaves the name, the origin, the activity,
    the marker flag and the sub-effect list of an effect as they are. *)
Definition expansion_keeps (env : Env) : Prop :=
  forall effect actor,
    let expanded := addDynamicEffects env effect actor in
    e_name expanded = e_name effect
    /\ e_origin expanded = e_origin effect
    /\ e_active expanded = e_active effect
    /\ f_isConvenient expanded = f_isConvenient effect
    /\ f_subEffects expanded = f_subEffects effect.

(** A sub-effect that goes through the pipeline as one effect: its name is
    not the name of a status under the current setting, it has no nested
    alternatives, and no sub-effects of its own. *)
Definition plain_sub (env : Env) (subEffect : Effect) : Prop :=
  (e_name subEffect = [] \/ isStatusEffect env (e_name subEffect) = Ok None)
  /\ hasNestedEffects subEffect = false
  /\ (f_subEffects subEffect = None \/ f_subEffects subEffect = Some []).

(** The three instances can be told apart by [removeEffect]: the parent is
    marked convenient, the three definitions are active and have three
    names, no effect already on the actor answers to one of these names,
    and none of the names is an identity token drawn for the instances. *)
Definition distinguishable (env : Env) (w : World) (actor : Actor)
    (effect s1 s2 : Effect) : Prop :=
  isConvenient effect = true
  /\ e_active effect = true /\ e_active s1 = true /\ e_active s2 = true
  /\ e_name effect <> e_name s1 /\ e_name effect <> e_name s2
  /\ e_name s1 <> e_name s2
  /\ forall name,
       In name [e_name effect; e_name s1; e_name s2] ->
       existsb (candidate (Some name) None) (a_effects actor) = false
       /\ forall k, randomID env (k + created w) <> name.

(** The composite effect as the specification words it, at one input: the
    add returns, the actor has three instances more, the parent and the two
    sub-effects, and the sub-effects have the parent's derived identifier
    as origin. *)
Definition composite_as_worded (env : Env) (w : World) (uuid : jsstring)
    (effect : Effect) : Prop :=
  forall actor s1 s2,
    getActorByUuid w uuid = Some actor ->
    f_subEffects effect = Some [s1; s2] ->
    exists fuel w' p i1 i2,
      EffectHandler_addEffect env fuel effect uuid None None None w
      = Returned tt w'
      /\ getActorByUuid w' uuid
         = Some (with_effects (a_effects actor ++ [p; i1; i2]) actor)
      /\ e_origin i1 = Some (getId env (e_name p))
      /\ e_origin i2 = Some (getId env (e_name p)).

(** ** Frames *)

(** Two states that differ at most in the effects of the actor [uuid] and in
    the number of identity tokens drawn: the other actors, the UUIDs that
    resolve, the rest of the actor and the two channels are the same. *)
Definition only_effects_of (uuid : jsstring) (w w' : World) : Prop :=
  (forall u, u <> uuid -> getActorByUuid w' u = getActorByUuid w u)
  /\ (forall u, resolves w' u = resolves w u)
  /\ (forall actor', getActorByUuid w' uuid = Some actor' ->
        exists actor,
          getActorByUuid w uuid = Some actor
          /\ actor' = with_effects (a_effects actor') actor)
  /\ notifications w' = notifications w
  /\ relayed w' = relayed w.

(** The effects of [l] that [removeEffect] never looks at: those without
    marker flag, and those that are not active. *)
Definition out_of_reach (l : list Effect) : list Effect :=
  List.filter (fun e => negb (e_active e && isConvenient e)) l.

(** ** The two channels *)

(** The state after [ui.notifications.error(message)]. *)
Definition notified (message : jsstring) (w : World) : World :=
  {| actors := actors w; notifications := notifications w ++ [message];
     relayed := relayed w; created := created w |}.

(** The state in which the command [c] has been sent through the relay. *)
Definition logged (c : Command) (w : World) : World :=
  {| actors := actors w; notifications := notifications w;
     relayed := relayed w ++ [c]; created := created w |}.

(** The targets of the issuer's [toggleEffect]: the UUIDs given or, without
    any, those of [getActorUuids()]. *)
Definition targets_of (env : Env) (uuids : list jsstring) : list jsstring :=
  match uuids with
  | [] => getActorUuids env
  | _ => uuids
  end.

(** ** Effects of the catalogs that are added as one instance *)

(** The name resolves, under the current setting, to a catalog effect that
    is added as it is: no status name, no nested alternatives, no
    sub-effects. *)
Definition single_effect (env : Env) (effectName : jsstring) (effect : Effect)
  : Prop :=
  isStatusEffect env effectName = Ok None
  /\ findEffectByName env effectName = Some effect
  /\ hasNestedEffects effect = false
  /\ (f_subEffects effect = None \/ f_subEffects effect = Some []).

(** ** Effects that a removal has left *)

(** [kept] is what is left of [l] after at most [n] calls of [removeEffect]:
    no effect has joined, at most [n] have left, and the effects without
    marker flag and those that are not active are all there, in their
    order. *)
Definition left_after (n : nat) (l kept : list Effect) : Prop :=
  out_of_reach kept = out_of_reach l
  /\ (length kept <= length l <= length kept + n)%nat.

(** ** Statuses carried alone *)

(** What the privileged [toggleEffect] looks for when the descriptor has no
    [_id]: an effect whose statuses are this status and no other. *)
Definition single_status (statusId : jsstring) (effect : Effect) : bool :=
  bool_decide (size (e_statuses effect) = 1%nat)
  && bool_decide (statusId ∈ e_statuses effect).

(** ** Operations and their targets *)

(** Two states with the same actors, each with the same data apart from its
    effects, and with the same effects too when it is none of the targets. *)
Definition touches_only (uuids : list jsstring) (w w' : World) : Prop :=
  forall u,
    match getActorByUuid w u, getActorByUuid w' u with
    | Some actor, Some actor' =>
        actor' = with_effects (a_effects actor') actor
        /\ (~ In u uuids -> actor' = actor)
    | None, None => True
    | _, _ => False
    end.

(** An operation that, from every state and whether it returns or throws,
    ends in a state that [R] relates to the one it started from. *)
Definition keeps {A : Type} (R : World -> World -> Prop) (m : M A) : Prop :=
  forall w,
    match final (m w) with
    | Some w' => R w w'
    | None => True
    end.

(** ** The identifier of a removal by static identity token *)

(** What [applied.find((effect) => effect._id === staticID)?._id] is: the
    static identity token when an applied effect of the actor has it, and
    [undefined] otherwise. *)
Definition applied_token (staticID : option jsstring) (actor : Actor)
  : option jsstring :=
  if existsb (fun e => e_active e && opt_eq (e__id e) staticID)
       (a_effects actor)
  then staticID else None.

(** ** The status branch of the toggle, as the specification words it *)





(** ** The identifier of a removal by name *)

(** The identifier under which the issuer's [removeEffect] asks for the
    removal, [effect?.name ?? isStatusEffect.staticID]: the static identity
    token of the status for a status name; otherwise the name of the catalog
    effect, or of the nested effect chosen. *)
Definition removal_identifier (env : Env) (effectName : jsstring)
    (effectID : option jsstring) : Prop :=
  match isStatusEffect env effectName with
  | Ok (Some sd) => effectID = sd_staticID sd
  | Ok None =>
      exists effect chosen,
        findEffectByName env effectName = Some effect
        /\ (if hasNestedEffects effect
            then _getNestedEffectSelection env effect
            else Some effect) = Some chosen
        /\ effectID = Some (e_name chosen)
  | Raised => False
  end.

(** ** A game system and a scene, for the examples *)

Definition prone : StatusEntry :=
  {| se_id := js "prone"; se__id := Some (js "dnd5eprone000000");
     se_name := js "Prone"; se_levels := None |}.

Definition exhaustion : StatusEntry :=
  {| se_id := js "exhaustion"; se__id := Some (js "dnd5eexhaustion0");
     se_name := js "Exhaustion"; se_levels := Some 6 |}.

(** A catalog definition with no sub-effect: marked convenient, active. *)
Definition definition (name : string) (subEffects : option (list Effect))
  : Effect :=
  mkEffect None (js name) true None [] ∅ true false None None subEffects
    None None.

Definition dnd5e : Env :=
  {| modifyStatusEffects := js "none";
     statusEffects := [prone; exhaustion];
     getCustomEffects := [];
     effects_all :=
       [definition "Bless" None;
        definition "Heroism"
          (Some [definition "Courage" None; definition "Vigor" None]);
        definition "Rallying Cry"
          (Some [definition "Heroism"
                   (Some [definition "Courage" None]);
                 definition "Vigor" None])];
     getId := fun name => js "Convenient Effect: " ++ name;
     addDynamicEffects := fun effect _ => effect;
     promptChoice := fun _ _ => None;
     randomID := fun n => js "id" ++ number_text (Z.of_nat n);
     getActorUuids := [] |}.

(** The same system with status effects replaced by convenient effects. *)
Definition dnd5e_replacing : Env :=
  {| modifyStatusEffects := js "replace";
     statusEffects := statusEffects dnd5e;
     getCustomEffects := getCustomEffects dnd5e;
     effects_all := effects_all dnd5e;
     getId := getId dnd5e;
     addDynamicEffects := addDynamicEffects dnd5e;
     promptChoice := promptChoice dnd5e;
     randomID := randomID dnd5e;
     getActorUuids := getActorUuids dnd5e |}.

Definition hero_uuid : jsstring := js "Actor.hero".

Definition hero (effects : list Effect) : Actor :=
  {| a_effects := effects; a_exhaustion := Some 3; a_token := None;
     a_activeTokens := [false] |}.

Definition scene (effects : list Effect) : World :=
  {| actors := {[ hero_uuid := hero effects ]}; notifications := [];
     relayed := []; created := 0 |}.

(** The effects of the hero in a state. *)
Definition hero_effects (w : World) : list Effect :=
  match getActorByUuid w hero_uuid with
  | Some actor => a_effects actor
  | None => []
  end.

(** An effect instance on an actor. *)
Definition instance (id name : string) (active convenient : bool)
    (origin : option jsstring) (statuses : gset jsstring) : Effect :=
  mkEffect (Some (js id)) (js name) active origin [] statuses convenient
    false None None None None None.

(** A system whose catalog has a nested effect, and a user who chooses
    "Reduce" in every dialog. *)
Definition dnd5e_choosing : Env :=
  {| modifyStatusEffects := js "none";
     statusEffects := statusEffects dnd5e;
     getCustomEffects := [];
     effects_all :=
       [definition "Enlarge" None; definition "Reduce" None;
        mkEffect None (js "Enlarge/Reduce") true None [] ∅ true false None
          (Some [js "Enlarge"; js "Reduce"]) None None None];
     getId := getId dnd5e;
     addDynamicEffects := addDynamicEffects dnd5e;
     promptChoice := fun _ _ => Some (js "Reduce");
     randomID := randomID dnd5e;
     getActorUuids := [] |}.

(** A system whose status vocabulary has no exhaustion. *)
Definition no_exhaustion : Env :=
  {| modifyStatusEffects := js "none";
     statusEffects := [prone];
     getCustomEffects := [];
     effects_all := effects_all dnd5e;
     getId := getId dnd5e;
     addDynamicEffects := addDynamicEffects dnd5e;
     promptChoice := promptChoice dnd5e;
     randomID := randomID dnd5e;
     getActorUuids := [] |}.

(** An actor that has no token on the scene. *)
Definition offstage (effects : list Effect) : Actor :=
  {| a_effects := effects; a_exhaustion := None; a_token := None;
     a_activeTokens := [] |}.

(** The scene of the hero, with such an actor beside. *)
Definition scene_with_offstage (effects : list Effect) : World :=
  {| actors := {[ hero_uuid := hero effects;
                  js "Actor.offstage" := offstage effects ]};
     notifications := []; relayed := []; created := 0 |}.


(** * Properties *)

(** ** The regular expression *)

Ltac classes :=
  unfold Regex.is_word, Regex.is_space, Regex.is_sign, Regex.is_digit,
    Regex.between in *;
  repeat rewrite ?orb_true_iff, ?andb_true_iff, ?orb_false_iff,
    ?andb_false_iff, ?N.leb_le, ?N.leb_gt, ?N.eqb_eq, ?N.eqb_neq in *;
  lia.

Lemma space_not_word c : Regex.is_space c = true -> Regex.is_word c = false.
Proof. classes. Qed.

Lemma sign_not_word c : Regex.is_sign c = true -> Regex.is_word c = false.
Proof. classes. Qed.

Lemma sign_not_space c : Regex.is_sign c = true -> Regex.is_space c = false.
Proof. classes. Qed.

Lemma sign_not_digit c : Regex.is_sign c = true -> Regex.is_digit c = false.
Proof. classes. Qed.

Lemma digit_is_word c : Regex.is_digit c = true -> Regex.is_word c = true.
Proof. classes. Qed.

Lemma digit_not_space c : Regex.is_digit c = true -> Regex.is_space c = false.
Proof. classes. Qed.

Lemma sign_cases c : Regex.is_sign c = true <-> c = 43%N \/ c = 45%N.
Proof. classes. Qed.

Lemma digits_are_word r :
  forallb Regex.is_digit r = true -> forallb Regex.is_word r = true.
Proof.
  induction r as [|c r IH]; simpl; [reflexivity|].
  intros [Hc Hr]%andb_true_iff. rewrite (digit_is_word _ Hc). auto.
Qed.

Lemma digits_to_end_spec r :
  Regex.digits_to_end r = true <-> r <> [] /\ forallb Regex.is_digit r = true.
Proof.
  destruct r as [|c r]; simpl.
  - split; [discriminate | intros [H _]; congruence].
  - split; [intros H; split; [discriminate | exact H] | intros [_ H]; exact H].
Qed.

(** An integer is a sign followed by digits, or digits alone. *)
Lemma integer_cases n :
  integer n
  <-> (exists c r, n = c :: r /\ Regex.is_sign c = true
                   /\ Regex.digits_to_end r = true)
      \/ Regex.digits_to_end n = true.
Proof.
  split.
  - intros (sign & digits & -> & Hs & Hne & Hd).
    assert (Regex.digits_to_end digits = true) by (apply digits_to_end_spec; auto).
    destruct Hs as [-> | [-> | ->]]; [right; assumption | left | left];
      eexists _, digits; repeat split; auto.
  - intros [(c & r & -> & Hc & Hr) | Hn].
    + apply digits_to_end_spec in Hr as [? ?].
      apply sign_cases in Hc as [-> | ->].
      * exists (js "+"), r. auto.
      * exists (js "-"), r. auto 6.
    + apply digits_to_end_spec in Hn as [? ?]. exists [], n. auto.
Qed.

Lemma integer_head n :
  integer n ->
  exists c n', n = c :: n'
    /\ (Regex.is_sign c = true \/ Regex.is_digit c = true).
Proof.
  intros [(c & r & -> & Hc & _) | Hn]%integer_cases.
  - eauto.
  - destruct n as [|c r]; [discriminate|]. simpl in Hn.
    apply andb_true_iff in Hn as [? _]. eauto.
Qed.

Lemma number_to_end_spec r g :
  Regex.number_to_end r = Some g <-> g = r /\ integer r.
Proof.
  rewrite integer_cases. unfold Regex.number_to_end.
  destruct r as [|c r].
  - split; [discriminate|].
    intros [_ [(? & ? & ? & _) | ?]]; discriminate.
  - destruct (Regex.is_sign c && Regex.digits_to_end r) eqn:H1.
    + apply andb_true_iff in H1 as [? ?]. split.
      * intros [= <-]. split; [reflexivity|]. left. eauto.
      * intros [-> _]. reflexivity.
    + destruct (Regex.digits_to_end (c :: r)) eqn:H2.
      * split; [intros [= <-]; auto | intros [-> _]; reflexivity].
      * split; [discriminate|].
        intros [_ [(c' & r' & [= <- <-] & Hc & Hr) | ?]]; [|discriminate].
        rewrite Hc, Hr in H1. discriminate.
Qed.

Lemma suffix_to_end_cons c r :
  Regex.suffix_to_end (c :: r) =
  if Regex.is_space c then
    match Regex.suffix_to_end r with
    | Some g => Some g
    | None => Regex.number_to_end (c :: r)
    end
  else Regex.number_to_end (c :: r).
Proof. reflexivity. Qed.

Lemma suffix_to_end_spec r g :
  Regex.suffix_to_end r = Some g
  <-> exists ws, r = ws ++ g /\ whitespace ws /\ integer g.
Proof.
  split.
  - revert g. induction r as [|c r IH]; intros g.
    + discriminate.
    + rewrite suffix_to_end_cons. destruct (Regex.is_space c) eqn:Hc.
      * destruct (Regex.suffix_to_end r) as [g'|] eqn:Hr.
        -- intros [= <-]. destruct (IH g' eq_refl) as (ws & -> & Hws & Hi).
           exists (c :: ws). repeat split; auto.
           unfold whitespace in *. simpl. rewrite Hc. exact Hws.
        -- intros H. apply number_to_end_spec in H as [-> ?].
           exists []. repeat split; auto.
      * intros H. apply number_to_end_spec in H as [-> ?].
        exists []. repeat split; auto.
  - intros (ws & -> & Hws & Hi). induction ws as [|c ws IH].
    + destruct (integer_head _ Hi) as (c & n' & -> & Hc).
      change (([] : jsstring) ++ c :: n') with (c :: n').
      rewrite suffix_to_end_cons.
      assert (Regex.is_space c = false) as ->
        by (destruct Hc; [apply sign_not_space | apply digit_not_space]; auto).
      apply number_to_end_spec. auto.
    + unfold whitespace in Hws. simpl in Hws.
      apply andb_true_iff in Hws as [Hc Hws].
      change ((c :: ws) ++ g) with (c :: (ws ++ g)).
      rewrite suffix_to_end_cons, Hc, (IH Hws). reflexivity.
Qed.

Lemma word_run_app s :
  s = (word_run s).1 ++ (word_run s).2
  /\ forallb Regex.is_word (word_run s).1 = true
  /\ word_ends (word_run s).2.
Proof.
  induction s as [|c s (IH1 & IH2 & IH3)]; simpl; [auto|].
  destruct (Regex.is_word c) eqn:Hc; simpl.
  - rewrite Hc. repeat split; auto. f_equal. exact IH1.
  - auto.
Qed.

Lemma word_run_unique u r :
  forallb Regex.is_word u = true -> word_ends r -> word_run (u ++ r) = (u, r).
Proof.
  intros Hu Hr. induction u as [|c u IH]; simpl in *.
  - destruct r as [|d r]; [reflexivity|]. simpl in *. rewrite Hr. reflexivity.
  - apply andb_true_iff in Hu as [Hc Hu]. rewrite Hc, (IH Hu). reflexivity.
Qed.

Lemma rest_to_end_word_head w d r :
  Regex.is_word d = true ->
  Regex.rest_to_end w (d :: r) <> None ->
  forallb Regex.is_word (d :: r) = true.
Proof.
  intros Hd. unfold Regex.rest_to_end.
  destruct (Regex.suffix_to_end (d :: r)) as [g|] eqn:Hs; [|congruence].
  intros _. apply suffix_to_end_spec in Hs as (ws & Heq & Hws & Hi).
  destruct ws as [|c ws].
  - simpl in Heq. subst g.
    apply integer_cases in Hi as [(c' & r' & [= <- <-] & Hc & _) | Hn].
    + rewrite sign_not_word in Hd by auto. discriminate.
    + apply digits_to_end_spec in Hn as [_ Hn]. apply digits_are_word, Hn.
  - simpl in Heq. injection Heq as <- _.
    unfold whitespace in Hws. simpl in Hws. apply andb_true_iff in Hws as [Hc _].
    rewrite space_not_word in Hd by auto. discriminate.
Qed.

Lemma rest_to_end_nil w : Regex.rest_to_end w [] = Some (w, None).
Proof. reflexivity. Qed.

Lemma word_then_rest_run s : forall w,
  Regex.word_then_rest w s =
  match (word_run s).1 with
  | [] => None
  | u => Regex.rest_to_end (w ++ u) (word_run s).2
  end.
Proof.
  induction s as [|c s IH]; intros w; simpl; [reflexivity|].
  destruct (Regex.is_word c) eqn:Hc; [|reflexivity]. simpl.
  rewrite IH. destruct (word_run_app s) as (Hs & Hu & Hr).
  destruct (word_run s) as [u r]. simpl in *.
  destruct u as [|d u].
  - simpl in Hs. subst r. reflexivity.
  - rewrite <- app_assoc. simpl.
    destruct (Regex.rest_to_end (w ++ c :: d :: u) r) eqn:Hrest; [reflexivity|].
    destruct (Regex.rest_to_end (w ++ [c]) s) eqn:Hback; [|reflexivity].
    exfalso. subst s. simpl in Hu. apply andb_true_iff in Hu as [Hd Hu].
    assert (Hall : forallb Regex.is_word (d :: u ++ r) = true).
    { apply (rest_to_end_word_head (w ++ [c])); [exact Hd|].
      simpl in Hback. rewrite Hback. discriminate. }
    assert (r = []) as ->.
    { destruct r as [|x r]; [reflexivity|]. simpl in Hr.
      simpl in Hall. apply andb_true_iff in Hall as [_ Hall].
      rewrite forallb_app in Hall. apply andb_true_iff in Hall as [_ Hall].
      simpl in Hall. rewrite Hr in Hall. discriminate. }
    rewrite rest_to_end_nil in Hrest. discriminate.
Qed.

(** What the regular expression matches, and what it captures. *)
Lemma match_spec effectName base suffix :
  Regex.match_ effectName = Some (base, suffix)
  <-> parses_greedily effectName base suffix.
Proof.
  unfold Regex.match_. rewrite word_then_rest_run.
  destruct (word_run_app effectName) as (Hs & Hu & Hr).
  split.
  - destruct (word_run effectName) as [u r]. simpl in *.
    destruct u as [|d u]; [discriminate|].
    unfold Regex.rest_to_end.
    destruct (Regex.suffix_to_end r) as [g|] eqn:Hg.
    + intros [= <- <-]. apply suffix_to_end_spec in Hg as (ws & -> & Hws & Hi).
      exists ws. split; [exact Hs|]. split; [split; [discriminate | exact Hu]|].
      split; [exact Hws|]. split; [exact Hi|].
      intros ->. destruct (integer_head _ Hi) as (c & n' & -> & [Hc | Hc]).
      * eauto.
      * simpl in Hr. rewrite digit_is_word in Hr by auto. discriminate.
    + destruct r as [|x r]; [|discriminate].
      intros [= <- <-]. exists []. split; [exact Hs|].
      split; [split; [discriminate | exact Hu]|]. split; reflexivity.
  - intros (ws & -> & [Hne Hw] & Hws & Hsuf).
    assert (Hends : word_ends (ws ++ default [] suffix)).
    { destruct ws as [|c ws].
      - destruct suffix as [n|]; simpl; [|exact I].
        destruct Hsuf as [_ Hsig]. destruct (Hsig eq_refl) as (c & n' & -> & Hc).
        simpl. apply sign_not_word, Hc.
      - unfold whitespace in Hws. simpl in Hws.
        apply andb_true_iff in Hws as [Hc _]. simpl. apply space_not_word, Hc. }
    rewrite (word_run_unique _ _ Hw Hends). simpl.
    destruct base as [|b0 base]; [congruence|].
    unfold Regex.rest_to_end.
    destruct suffix as [n|].
    + destruct Hsuf as [Hi _].
      assert (Hn : Regex.suffix_to_end (ws ++ n) = Some n)
        by (apply suffix_to_end_spec; eauto).
      change (default [] (Some n)) with n. rewrite Hn. reflexivity.
    + subst ws. reflexivity.
Qed.

(** ** Classification of status names *)

Lemma str_eq_true a b : str_eq a b = true <-> a = b.
Proof. unfold str_eq. apply bool_decide_eq_true. Qed.

Lemma opt_eq_Some a b : opt_eq (Some a) (Some b) = str_eq a b.
Proof. apply bool_decide_ext. split; congruence. Qed.

Lemma find_ext {A} (p q : A -> bool) l :
  (forall x, p x = q x) -> find p l = find q l.
Proof.
  intros H. induction l as [|x l IH]; simpl; [reflexivity|].
  rewrite H, IH. reflexivity.
Qed.

Lemma find_never {A} (p : A -> bool) l :
  (forall x, p x = false) -> find p l = None.
Proof.
  intros H. induction l as [|x l IH]; simpl; [reflexivity|].
  rewrite H. exact IH.
Qed.

Lemma parses_greedily_unique n b s b' s' :
  parses_greedily n b s -> parses_greedily n b' s' -> b = b' /\ s = s'.
Proof.
  intros H1%match_spec H2%match_spec. rewrite H1 in H2. injection H2. auto.
Qed.

Lemma isStatusEffect_found env effectName base suffix entry exh :
  modifyStatusEffects env = js "none" ->
  Regex.match_ effectName = Some (base, suffix) ->
  find (fun e => str_eq (se_name e) base) (statusEffects env) = Some entry ->
  find (fun e => str_eq (se_id e) (js "exhaustion")) (statusEffects env)
  = Some exh ->
  (se__id entry = se__id exh <-> se_id entry = js "exhaustion") ->
  isStatusEffect env effectName = Ok (Some (descriptor_of entry suffix)).
Proof.
  intros Hset Hm Hfind Hexh Hid. unfold isStatusEffect.
  rewrite Hset, Hm. simpl.
  rewrite (find_ext _ (fun e => str_eq (se_name e) base))
    by (intros; apply opt_eq_Some).
  rewrite Hfind, Hexh. unfold descriptor_of. do 3 f_equal.
  assert (opt_eq (se__id entry) (se__id exh)
          = str_eq (se_id entry) (js "exhaustion")) as ->
    by (apply bool_decide_ext; exact Hid).
  reflexivity.
Qed.

(** C5, as amended. Under a setting other than "none" the classification
    yields [false] for every name. Under "none", in a vocabulary with an
    exhaustion entry whose token is its own, it never throws and returns a
    descriptor exactly when the name parses as a word token, then, in front
    of an integer only, optional white space, then an optional integer,
    with the word token as long as it can be (an integer that follows it at
    once starts with its sign), and the word token is the name of a
    registered status; the descriptor is the one of the first entry with
    that name, the suffix being the level or delta for exhaustion, [null]
    without suffix, [false] for the other statuses. *)
Theorem isStatusEffect_classifies (env : Env) (effectName : jsstring) :
  (modifyStatusEffects env <> js "none" ->
   isStatusEffect env effectName = Ok None)
  /\ (modifyStatusEffects env = js "none" -> exhaustion_registered env ->
      isStatusEffect env effectName <> Raised
      /\ forall d,
           isStatusEffect env effectName = Ok (Some d)
           <-> exists base suffix entry,
                 parses_greedily effectName base suffix
                 /\ find (fun e => str_eq (se_name e) base) (statusEffects env)
                    = Some entry
                 /\ d = descriptor_of entry suffix).
Proof.
  split.
  - intros Hset. unfold isStatusEffect.
    assert (str_eq (modifyStatusEffects env) (js "none") = false) as ->
      by (apply bool_decide_eq_false; exact Hset).
    reflexivity.
  - intros Hset (exh & Hexh & Hids).
    destruct (Regex.match_ effectName) as [[base suffix]|] eqn:Hm.
    + destruct (find (fun e => str_eq (se_name e) base) (statusEffects env))
        as [entry|] eqn:Hfind.
      * assert (Hd : isStatusEffect env effectName
                     = Ok (Some (descriptor_of entry suffix))).
        { apply (isStatusEffect_found env effectName base suffix entry exh); auto.
          apply Hids. apply find_some in Hfind. tauto. }
        rewrite Hd. split; [discriminate|]. intros d. split.
        -- intros [= <-]. exists base, suffix, entry.
           split; [apply match_spec, Hm | auto].
        -- intros (b & s & e & Hp & Hf & ->).
           destruct (parses_greedily_unique _ _ _ _ _ Hp (proj1 (match_spec _ _ _) Hm))
             as [-> ->].
           congruence.
      * assert (Hd : isStatusEffect env effectName = Ok None).
        { unfold isStatusEffect. rewrite Hset, Hm. simpl.
          rewrite (find_ext _ (fun e => str_eq (se_name e) base))
            by (intros; apply opt_eq_Some).
          rewrite Hfind. reflexivity. }
        rewrite Hd. split; [discriminate|]. intros d. split; [discriminate|].
        intros (b & s & e & Hp & Hf & _).
        destruct (parses_greedily_unique _ _ _ _ _ Hp (proj1 (match_spec _ _ _) Hm))
          as [-> ->].
        congruence.
    + assert (Hd : isStatusEffect env effectName = Ok None).
      { unfold isStatusEffect. rewrite Hset, Hm. simpl.
        rewrite find_never; [reflexivity|].
        intros x. apply bool_decide_eq_false. discriminate. }
      rewrite Hd. split; [discriminate|]. intros d. split; [discriminate|].
      intros (b & s & e & Hp%match_spec & _). congruence.
Qed.

Lemma dnd5e_exhaustion_registered : exhaustion_registered dnd5e.
Proof.
  exists exhaustion. split; [reflexivity|].
  intros e [<- | [<- | []]]; split; intros H; vm_compute in H; try discriminate; reflexivity.
Qed.

Lemma isStatusEffect_classifies_witness :
  isStatusEffect dnd5e_replacing (js "Prone") = Ok None
  /\ isStatusEffect dnd5e (js "Exhaustion +2") <> Raised.
Proof.
  split.
  - apply (isStatusEffect_classifies dnd5e_replacing (js "Prone")).
    discriminate.
  - apply (isStatusEffect_classifies dnd5e (js "Exhaustion +2"));
      [reflexivity | exact dnd5e_exhaustion_registered].
Defined.

(** C5, as worded, fails: the grammar read part by part accepts
    "Exhaustion3" with the registered base name "Exhaustion" and the
    integer "3"; the code takes the whole name as the word token and
    classifies it as no status. *)
Lemma isStatusEffect_attached_number :
  ~ (forall effectName,
       (exists d, isStatusEffect dnd5e effectName = Ok (Some d))
       <-> (modifyStatusEffects dnd5e = js "none"
            /\ exists base suffix entry,
                 parses_as effectName base suffix
                 /\ find (fun e => str_eq (se_name e) base)
                         (statusEffects dnd5e) = Some entry)).
Proof.
  intros H. destruct (proj2 (H (js "Exhaustion3"))) as [d Hd].
  - split; [reflexivity|].
    exists (js "Exhaustion"), (Some (js "3")), exhaustion.
    split; [|reflexivity].
    exists []. split; [reflexivity|]. split; [split; [discriminate | reflexivity]|].
    split; [reflexivity|].
    exists [], (js "3"). split; [reflexivity|]. split; [auto|].
    split; [discriminate | reflexivity].
  - vm_compute in Hd. discriminate.
Qed.

(** ** The store *)

Lemma set_effects_replace uuid f w actor :
  getActorByUuid w uuid = Some actor ->
  set_effects uuid f w
  = Returned tt (replace_effects uuid (f (a_effects actor)) w).
Proof.
  intros Ha. unfold set_effects, replace_effects. do 2 f_equal.
  apply alter_ext. intros a Hx. unfold getActorByUuid in Ha.
  rewrite Ha in Hx. injection Hx as <-. reflexivity.
Qed.

Lemma getActorByUuid_replace uuid l w actor :
  getActorByUuid w uuid = Some actor ->
  getActorByUuid (replace_effects uuid l w) uuid = Some (with_effects l actor).
Proof.
  unfold getActorByUuid, replace_effects. simpl. intros Ha.
  rewrite lookup_alter_eq, Ha. reflexivity.
Qed.

(** [appliedEffects(actor).find(p)] returns the first effect of the actor
    that is active and on which [p] holds, with its position. *)
Lemma find_applied_None (p : Effect -> bool) l : forall g : nat -> nat,
  find (fun d => p d.2)
       (List.filter (fun d => e_active d.2) (imap (fun i e => (g i, e)) l))
  = None
  <-> existsb (fun e => e_active e && p e) l = false.
Proof.
  induction l as [|e l IH]; intros g; simpl; [tauto|].
  destruct (e_active e) eqn:Ha; simpl.
  - destruct (p e); simpl; [split; discriminate|]. apply (IH (g ∘ S)).
  - apply (IH (g ∘ S)).
Qed.

Lemma find_applied_Some (p : Effect -> bool) l : forall (g : nat -> nat) d,
  find (fun d => p d.2)
       (List.filter (fun d => e_active d.2) (imap (fun i e => (g i, e)) l))
  = Some d ->
  exists i before after,
    d.1 = g i /\ l = before ++ d.2 :: after /\ length before = i
    /\ e_active d.2 && p d.2 = true
    /\ existsb (fun e => e_active e && p e) before = false.
Proof.
  induction l as [|e l IH]; intros g d; simpl; [discriminate|].
  destruct (e_active e) eqn:Ha; simpl.
  - destruct (p e) eqn:Hp; simpl.
    + intros [= <-]. exists 0%nat, [], l. simpl. rewrite Ha, Hp. auto.
    + intros H. apply (IH (g ∘ S)) in H as (i & before & after & ? & -> & ? & ? & ?).
      exists (S i), (e :: before), after. simpl. rewrite Ha, Hp. simpl.
      repeat split; auto.
  - intros H. apply (IH (g ∘ S)) in H as (i & before & after & ? & -> & ? & ? & ?).
    exists (S i), (e :: before), after. simpl. rewrite Ha. simpl.
    repeat split; auto.
Qed.

Lemma delete_middle {A} (before : list A) x after :
  delete (length before) (before ++ x :: after) = before ++ after.
Proof. induction before as [|y b IH]; simpl; [reflexivity|]. f_equal. exact IH. Qed.

Lemma candidate_unfold effectID origin e :
  candidate effectID origin e
  = e_active e
    && (if truthy_str origin
        then isConvenient e && matches_effectID effectID e
             && opt_eq (e_origin e) origin
        else isConvenient e && matches_effectID effectID e).
Proof.
  unfold candidate. destruct (truthy_str origin); [|rewrite andb_true_r];
    rewrite <- ?andb_assoc; reflexivity.
Qed.

(** What [removeEffect] does on an actor that exists. *)
Lemma removeEffect_outcome w uuid actor effectID origin :
  getActorByUuid w uuid = Some actor ->
  (existsb (candidate effectID origin) (a_effects actor) = false
   /\ EffectHandler_removeEffect effectID uuid origin w = Returned tt w)
  \/ (exists before e after,
        a_effects actor = before ++ e :: after
        /\ candidate effectID origin e = true
        /\ existsb (candidate effectID origin) before = false
        /\ EffectHandler_removeEffect effectID uuid origin w
           = Returned tt (replace_effects uuid (before ++ after) w)).
Proof.
  intros Ha. unfold EffectHandler_removeEffect, bind, get_world. rewrite Ha.
  unfold appliedEffects.
  set (p := fun e : Effect =>
              if truthy_str origin
              then isConvenient e && matches_effectID effectID e
                   && opt_eq (e_origin e) origin
              else isConvenient e && matches_effectID effectID e).
  assert (Hcand : forall e, candidate effectID origin e = e_active e && p e)
    by (intros; apply candidate_unfold).
  assert (Hc : forall l, existsb (candidate effectID origin) l
                         = existsb (fun e => e_active e && p e) l).
  { intros l. induction l as [|x l IH]; simpl; [reflexivity|].
    rewrite IH, Hcand. reflexivity. }
  assert (Hfind :
    (if truthy_str origin
     then find (fun activeEffect : nat * Effect =>
                  isConvenient activeEffect.2
                  && matches_effectID effectID activeEffect.2
                  && opt_eq (e_origin activeEffect.2) origin)
            (List.filter (fun d => e_active d.2) (imap pair (a_effects actor)))
     else find (fun activeEffect : nat * Effect =>
                  isConvenient activeEffect.2
                  && matches_effectID effectID activeEffect.2)
            (List.filter (fun d => e_active d.2) (imap pair (a_effects actor))))
    = find (fun d => p d.2)
        (List.filter (fun d => e_active d.2)
           (imap (fun i e => (id i, e)) (a_effects actor)))).
  { unfold p. destruct (truthy_str origin); reflexivity. }
  rewrite Hfind. clear Hfind.
  destruct (find _ _) as [d|] eqn:Hd.
  - right. apply find_applied_Some in Hd
      as (i & before & after & Hi & Hl & Hlen & Hp & Hb).
    exists before, d.2, after. rewrite !Hc, Hb, Hcand, Hp.
    repeat split; auto.
    unfold delete_document. rewrite (set_effects_replace _ _ _ actor Ha).
    rewrite Hi, <- Hlen, Hl. unfold id. rewrite delete_middle. reflexivity.
  - left. apply find_applied_None in Hd. rewrite Hc, Hd. auto.
Qed.

(** ** Removal of an effect *)

(** C9, as amended. For every actor, effect identifier and origin, the
    candidates being the effects of the actor that are currently active,
    carry the marker flag, have the identifier as identity token or as
    name and, when the origin supplied is not empty, have that origin:
    without candidate [removeEffect] returns and the state is unchanged;
    with a candidate it returns and exactly the first candidate has left
    the actor. *)
Theorem removeEffect_first_applied_match (w : World) (uuid : jsstring)
    (actor : Actor) (effectID origin : option jsstring) :
  getActorByUuid w uuid = Some actor ->
  (existsb (candidate effectID origin) (a_effects actor) = false ->
   EffectHandler_removeEffect effectID uuid origin w = Returned tt w)
  /\ (existsb (candidate effectID origin) (a_effects actor) = true ->
      exists before e after,
        a_effects actor = before ++ e :: after
        /\ candidate effectID origin e = true
        /\ existsb (candidate effectID origin) before = false
        /\ EffectHandler_removeEffect effectID uuid origin w
           = Returned tt (replace_effects uuid (before ++ after) w)).
Proof.
  intros Ha.
  destruct (removeEffect_outcome w uuid actor effectID origin Ha)
    as [[Hnone Hsame] | (before & e & after & Hl & He & Hb & Hrun)].
  - split; [auto | congruence].
  - split; [|eauto 8].
    rewrite Hl, existsb_app. simpl. rewrite He, orb_true_r. discriminate.
Qed.

Lemma removeEffect_first_applied_match_witness :
  EffectHandler_removeEffect (Some (js "Bless")) hero_uuid
    (Some (js "Item.scroll")) (scene [instance "a1" "Bless" true true None ∅])
  = Returned tt (scene [instance "a1" "Bless" true true None ∅])
  /\ exists before e after,
       [instance "a1" "Bless" true true None ∅] = before ++ e :: after
       /\ candidate (Some (js "Bless")) None e = true
       /\ existsb (candidate (Some (js "Bless")) None) before = false
       /\ EffectHandler_removeEffect (Some (js "Bless")) hero_uuid None
            (scene [instance "a1" "Bless" true true None ∅])
          = Returned tt
              (replace_effects hero_uuid (before ++ after)
                 (scene [instance "a1" "Bless" true true None ∅])).
Proof.
  split.
  - apply (removeEffect_first_applied_match
             (scene [instance "a1" "Bless" true true None ∅]) hero_uuid
             (hero [instance "a1" "Bless" true true None ∅])
             (Some (js "Bless")) (Some (js "Item.scroll")));
      reflexivity.
  - apply (removeEffect_first_applied_match
             (scene [instance "a1" "Bless" true true None ∅]) hero_uuid
             (hero [instance "a1" "Bless" true true None ∅])
             (Some (js "Bless")) None);
      reflexivity.
Defined.

(** C9, as worded, fails: a convenient effect that is on the actor, matches
    the identifier and the origin, and is not active, stays on the actor. *)
Lemma removeEffect_inactive_match_stays :
  ~ removeEffect_as_worded
      (scene [instance "a1" "Bless" false true (Some (js "Item.scroll")) ∅])
      hero_uuid (js "Bless") (js "Item.scroll").
Proof.
  intros H. specialize (H _ eq_refl).
  apply (f_equal (fun o => hero_effects <$> final o)) in H.
  vm_compute in H. discriminate.
Qed.

(** ** Exhaustion arithmetic *)

Lemma includes_digits ds c :
  Regex.is_sign c = true -> forallb Regex.is_digit ds = true ->
  includes ds c = false.
Proof.
  intros Hc. induction ds as [|d ds IH]; simpl; [reflexivity|].
  intros [Hd Hds]%andb_true_iff. rewrite (IH Hds), orb_false_r.
  apply N.eqb_neq. intros <-. rewrite sign_not_digit in Hd by exact Hc.
  discriminate.
Qed.

Lemma Number_digits ds :
  ds <> [] -> forallb Regex.is_digit ds = true ->
  Number ds = Some (decimal_value ds).
Proof.
  intros Hne Hd. destruct ds as [|c r]; [congruence|].
  unfold Number.
  assert (Regex.is_sign c = false) as ->.
  { simpl in Hd. apply andb_true_iff in Hd as [Hc _].
    destruct (Regex.is_sign c) eqn:Hs; [|reflexivity].
    rewrite sign_not_digit in Hc by exact Hs. discriminate. }
  assert (Regex.digits_to_end (c :: r) = true) as ->
    by (apply digits_to_end_spec; auto).
  reflexivity.
Qed.

Lemma Number_plus ds :
  ds <> [] -> forallb Regex.is_digit ds = true ->
  Number (js "+" ++ ds) = Some (decimal_value ds).
Proof.
  intros Hne Hd. change (js "+" ++ ds) with (43%N :: ds). unfold Number.
  change (Regex.is_sign 43) with true. cbv iota.
  assert (Regex.digits_to_end ds = true) as ->
    by (apply digits_to_end_spec; auto).
  reflexivity.
Qed.

Lemma Number_minus ds :
  ds <> [] -> forallb Regex.is_digit ds = true ->
  Number (js "-" ++ ds) = Some (- decimal_value ds).
Proof.
  intros Hne Hd. change (js "-" ++ ds) with (45%N :: ds). unfold Number.
  change (Regex.is_sign 45) with true. cbv iota.
  assert (Regex.digits_to_end ds = true) as ->
    by (apply digits_to_end_spec; auto).
  reflexivity.
Qed.

Lemma Math_clamped_clamp v hi :
  0 <= hi -> Math_clamped (Some v) (Some 0) (Some hi) = Some (clamp v 0 hi).
Proof. intros H. unfold Math_clamped, clamp. simpl. f_equal. lia. Qed.

Lemma newExhaustionLevel_bare current levels :
  newExhaustionLevel current None (Some levels)
  = Some (Z.min (current + 1) levels).
Proof. reflexivity. Qed.

Lemma newExhaustionLevel_plus current levels ds :
  0 <= levels -> ds <> [] -> forallb Regex.is_digit ds = true ->
  newExhaustionLevel current (Some (js "+" ++ ds)) (Some levels)
  = Some (clamp (current + decimal_value ds) 0 levels).
Proof.
  intros Hl Hne Hd. unfold newExhaustionLevel.
  rewrite (Number_plus ds Hne Hd).
  change (js "+" ++ ds) with (43%N :: ds).
  change (includes (43%N :: ds) 43) with (true || includes ds 43).
  cbv beta iota. simpl orb. cbv iota.
  apply Math_clamped_clamp, Hl.
Qed.

Lemma newExhaustionLevel_minus current levels ds :
  0 <= levels -> ds <> [] -> forallb Regex.is_digit ds = true ->
  newExhaustionLevel current (Some (js "-" ++ ds)) (Some levels)
  = Some (clamp (current - decimal_value ds) 0 levels).
Proof.
  intros Hl Hne Hd. unfold newExhaustionLevel.
  rewrite (Number_minus ds Hne Hd).
  change (js "-" ++ ds) with (45%N :: ds).
  change (includes (45%N :: ds) 45) with (true || includes ds 45).
  rewrite orb_true_l, orb_true_r.
  apply Math_clamped_clamp, Hl.
Qed.

Lemma newExhaustionLevel_unsigned current levels ds :
  0 <= levels -> ds <> [] -> forallb Regex.is_digit ds = true ->
  newExhaustionLevel current (Some ds) (Some levels)
  = Some (clamp (decimal_value ds) 0 levels).
Proof.
  intros Hl Hne Hd. unfold newExhaustionLevel.
  rewrite (Number_digits ds Hne Hd), !includes_digits by (auto; reflexivity).
  destruct ds; [congruence|]. simpl orb. cbv iota.
  apply Math_clamped_clamp, Hl.
Qed.

(** "Exhaustion -5" on an actor at level 3: one removal command, and no
    effect created. *)
Example exhaustion_minus_five_removes :
  exists w,
    EffectInterface_addEffect dnd5e 0 (js "Exhaustion -5") hero_uuid None None
      (scene []) = Returned tt w
    /\ relayed w = [CRemoveEffect None hero_uuid None]
    /\ hero_effects w = [].
Proof. eexists. split; [vm_compute; reflexivity|]. split; reflexivity. Qed.

(** ** Toggling an effect of the catalogs *)

(** [removeEffect] without [effectID] finds nothing on an actor whose
    effects all have an identity token. *)
Lemma removeEffect_without_effectID w uuid actor origin :
  getActorByUuid w uuid = Some actor ->
  (forall e, In e (a_effects actor) -> e__id e <> None) ->
  EffectHandler_removeEffect None uuid origin w = Returned tt w.
Proof.
  intros Ha Hids.
  destruct (removeEffect_outcome w uuid actor None origin Ha)
    as [[_ Hrun] | (before & e & after & Hl & He & _)]; [exact Hrun|].
  exfalso. unfold candidate, matches_effectID in He.
  assert (Hin : In e (a_effects actor))
    by (rewrite Hl; apply in_or_app; right; left; reflexivity).
  assert (H1 : opt_eq (e__id e) None = false)
    by (apply bool_decide_eq_false, Hids, Hin).
  assert (H2 : opt_eq (Some (e_name e)) None = false)
    by (apply bool_decide_eq_false; discriminate).
  rewrite H1, H2, !andb_false_r in He. discriminate.
Qed.

(** Toggling an effect that is applied changes nothing. *)
Lemma toggle_applied_changes_nothing env fuel effectName overlay uuid w actor :
  getActorByUuid w uuid = Some actor ->
  (forall e, In e (a_effects actor) -> e__id e <> None) ->
  EffectHandler_hasEffectApplied effectName uuid w = Some true ->
  EffectHandler_toggleEffect env fuel effectName overlay [uuid] None None w
  = Returned tt w.
Proof.
  intros Ha Hids Happlied.
  unfold EffectHandler_toggleEffect, for_of, bind, get_world.
  rewrite Happlied. simpl.
  rewrite (removeEffect_without_effectID w uuid actor None Ha Hids).
  reflexivity.
Qed.

(** C1. Toggling a non-status effect of the catalogs twice on the privileged
    side returns the actor to its original state. On the code: "Bless" is
    absent from the actor, a first toggle adds it, and the second toggle
    calls [removeEffect({ effectName, uuid })], which reads [effectID] and
    finds nothing to remove: the effect is still applied. *)
Theorem toggle_twice_leaves_effect_applied :
  exists w1 w2,
    EffectHandler_toggleEffect dnd5e 0 (js "Bless") None [hero_uuid] None None
      (scene []) = Returned tt w1
    /\ EffectHandler_toggleEffect dnd5e 0 (js "Bless") None [hero_uuid] None
         None w1 = Returned tt w2
    /\ EffectHandler_hasEffectApplied (js "Bless") hero_uuid (scene [])
       = Some false
    /\ EffectHandler_hasEffectApplied (js "Bless") hero_uuid w1 = Some true
    /\ EffectHandler_hasEffectApplied (js "Bless") hero_uuid w2 = Some true
    /\ w2 = w1.
Proof.
  eexists; eexists.
  split; [vm_compute; reflexivity|].
  split; [vm_compute; reflexivity|].
  repeat split; vm_compute; reflexivity.
Qed.

(** ** The marker flag *)

(** C2. Every effect instance created by an operation carries the marker
    flag. On the code: toggling the status "Prone" on an actor without it
    creates, on the privileged side, the instance of the status factory as
    it is, without the flag that [addEffect] and [addEffectWith] stamp; the
    search by name among convenient effects does not see it. *)
Theorem toggle_status_creates_unmarked_effect :
  exists w effect,
    EffectInterface_toggleEffect dnd5e 0 (js "Prone") None [hero_uuid]
      (scene []) = Returned tt w
    /\ hero_effects w = [effect]
    /\ e__id effect = Some (js "dnd5eprone000000")
    /\ isConvenient effect = false
    /\ EffectHandler_hasEffectApplied (js "Prone") hero_uuid w = Some false.
Proof.
  eexists; eexists.
  split; [vm_compute; reflexivity|].
  repeat split; vm_compute; reflexivity.
Qed.

(** The sibling path: [addEffect] stamps the flag on the same status. *)
Example addEffect_status_marks_effect :
  exists w effect,
    EffectInterface_addEffect dnd5e 0 (js "Prone") hero_uuid None None
      (scene []) = Returned tt w
    /\ hero_effects w = [effect]
    /\ isConvenient effect = true.
Proof.
  eexists; eexists.
  split; [vm_compute; reflexivity|].
  repeat split; vm_compute; reflexivity.
Qed.

(** The other sibling path: [addEffectWith] stamps the flag as well. *)
Example addEffectWith_status_marks_effect :
  exists w effect,
    EffectInterface_addEffectWith dnd5e 0
      (Some (mkEffect None (js "Prone") true None [] ∅ false false None None
               None None None))
      hero_uuid None None (scene []) = Returned tt w
    /\ hero_effects w = [effect]
    /\ isConvenient effect = true.
Proof.
  eexists; eexists.
  split; [vm_compute; reflexivity|].
  split; vm_compute; reflexivity.
Qed.

(** ** Conditions reported by the issuer *)

Lemma addEffect_without_actor env fuel effectName uuid origin overlay w :
  getActorByUuid w uuid = None ->
  EffectInterface_addEffect env fuel effectName uuid origin overlay w
  = Threw w.
Proof.
  intros Ha. unfold EffectInterface_addEffect, bind, get_world.
  rewrite Ha. reflexivity.
Qed.

(** C3. Every issuer-side operation reports a missing target, effect or
    actor through the notification channel and never throws. On the code:
    [addEffect] with a UUID that resolves to no actor reads [actor.token]
    before it tests [!actor]; a [TypeError] escapes and nothing is
    notified. *)
Theorem addEffect_unknown_actor_throws :
  EffectInterface_addEffect dnd5e 0 (js "Bless") (js "Actor.nobody") None None
    (scene []) = Threw (scene [])
  /\ notifications (scene []) = [].
Proof. split; [apply addEffect_without_actor|]; reflexivity. Qed.

(** The sibling path: [removeEffect] notifies on the same input. *)
Example removeEffect_unknown_actor_notifies :
  exists w,
    EffectInterface_removeEffect dnd5e (js "Bless") (js "Actor.nobody") None
      (scene []) = Returned tt w
    /\ notifications w = [js "Actor Actor.nobody could not be found"]
    /\ relayed w = [].
Proof. eexists. split; [vm_compute; reflexivity|]. split; reflexivity. Qed.

(** A toggle on the same target is relayed as it is, and the exception
    escapes on the privileged side. *)
Example toggleEffect_unknown_actor_throws :
  exists w,
    EffectInterface_toggleEffect dnd5e 0 (js "Bless") None
      [js "Actor.nobody"] (scene []) = Threw w
    /\ notifications w = [].
Proof. eexists. split; [vm_compute; reflexivity | reflexivity]. Qed.

(** ** Toggling a status *)

(** The descriptor built by [isStatusEffect] has its token under
    [staticID], and nothing under [_id]. *)
Lemma isStatusEffect_no__id env effectName sd :
  isStatusEffect env effectName = Ok (Some sd) -> sd__id sd = None.
Proof.
  unfold isStatusEffect.
  destruct (negb _); [discriminate|].
  destruct (find _ _); [|discriminate].
  destruct (find _ _); [|discriminate].
  intros [= <-]. reflexivity.
Qed.

(** C6. For a status descriptor carrying a fixed identity token, the
    privileged [toggleEffect] looks the instance up by that token. On the
    code: the descriptor of "Prone" carries its token under [staticID], the
    handler reads [_id], finds none, and searches by status instead. An
    effect of another source with the single status [prone] and another
    token is deleted, and nothing is created; an instance with the token
    that has two statuses is not found, and a second instance with the same
    token is created. *)
Theorem toggle_status_ignores_identity_token :
  exists sd w w',
    isStatusEffect dnd5e (js "Prone") = Ok (Some sd)
    /\ sd_staticID sd = Some (js "dnd5eprone000000")
    /\ sd__id sd = None
    /\ EffectInterface_toggleEffect dnd5e 0 (js "Prone") None [hero_uuid]
         (scene [instance "kZ4tqWbVmYc81xPd" "Knocked down" true false None
                   {[js "prone"]}])
       = Returned tt w
    /\ hero_effects w = []
    /\ EffectInterface_toggleEffect dnd5e 0 (js "Prone") None [hero_uuid]
         (scene [instance "dnd5eprone000000" "Prone" true true None
                   {[js "prone"; js "incapacitated"]}])
       = Returned tt w'
    /\ map e__id (hero_effects w')
       = [Some (js "dnd5eprone000000"); Some (js "dnd5eprone000000")].
Proof.
  eexists; eexists; eexists.
  split; [vm_compute; reflexivity|].
  split; [reflexivity|]. split; [reflexivity|].
  split; [vm_compute; reflexivity|].
  split; [vm_compute; reflexivity|].
  split; [vm_compute; reflexivity|].
  vm_compute; reflexivity.
Qed.

(** ** One instance for each identity token *)

(** C7. After an add of a status with a fixed identity token the actor
    carries exactly one instance with that token. On the code: the instance
    that a toggle of "Prone" has created is without marker flag; the add of
    "Prone" finds it by token, both on the issuer and on the privileged
    side, and asks [removeEffect] to remove it, which looks among
    convenient effects only; the new instance is created beside it. *)
Theorem addEffect_status_keeps_unmarked_instance :
  exists w1 w2,
    EffectInterface_toggleEffect dnd5e 0 (js "Prone") None [hero_uuid]
      (scene []) = Returned tt w1
    /\ EffectInterface_addEffect dnd5e 0 (js "Prone") hero_uuid None None w1
       = Returned tt w2
    /\ map e__id (hero_effects w1) = [Some (js "dnd5eprone000000")]
    /\ map e__id (hero_effects w2)
       = [Some (js "dnd5eprone000000"); Some (js "dnd5eprone000000")]
    /\ map isConvenient (hero_effects w2) = [false; true].
Proof.
  eexists; eexists.
  split; [vm_compute; reflexivity|].
  split; [vm_compute; reflexivity|].
  repeat split; vm_compute; reflexivity.
Qed.

(** Where the instance on the actor carries the marker flag, a second add
    of the status replaces it: one instance. *)
Example addEffect_status_twice_keeps_one :
  exists w1 w2,
    EffectInterface_addEffect dnd5e 0 (js "Prone") hero_uuid None None
      (scene []) = Returned tt w1
    /\ EffectInterface_addEffect dnd5e 0 (js "Prone") hero_uuid None None w1
       = Returned tt w2
    /\ map e__id (hero_effects w2) = [Some (js "dnd5eprone000000")].
Proof.
  eexists; eexists.
  split; [vm_compute; reflexivity|].
  split; vm_compute; reflexivity.
Qed.

(** ** Targets that resolve to no actor *)

Lemma same_channels_refl w : same_channels w w.
Proof. repeat split. Qed.

Lemma same_channels_trans w1 w2 w3 :
  same_channels w1 w2 -> same_channels w2 w3 -> same_channels w1 w3.
Proof.
  intros (? & ? & H1) (? & ? & H2).
  split; [congruence|]. split; [congruence|].
  intros u. rewrite H2. apply H1.
Qed.

Lemma resolves_alter f uuid w n r c u :
  resolves {| actors := alter f uuid (actors w); notifications := n;
              relayed := r; created := c |} u
  = resolves w u.
Proof.
  unfold resolves, getActorByUuid. simpl.
  destruct (actors w !! u) eqn:Hu.
  - destruct (decide (uuid = u)) as [->|Hne].
    + rewrite lookup_alter_eq, Hu. reflexivity.
    + rewrite lookup_alter_ne, Hu by exact Hne. reflexivity.
  - assert (alter f uuid (actors w) !! u = None) as ->
      by (apply lookup_alter_None; exact Hu).
    reflexivity.
Qed.

Lemma set_effects_channels uuid f w :
  exists w', set_effects uuid f w = Returned tt w' /\ same_channels w w'.
Proof.
  eexists. split; [reflexivity|]. repeat split. intros u. apply resolves_alter.
Qed.

Lemma createEmbeddedDocuments_channels env uuid effect w :
  exists w',
    createEmbeddedDocuments env uuid effect w = Returned tt w'
    /\ same_channels w w'.
Proof.
  eexists. split; [reflexivity|]. repeat split. intros u. apply resolves_alter.
Qed.

Lemma create_keepId_channels env uuid effect w :
  exists w',
    create_keepId env uuid effect w = Returned tt w' /\ same_channels w w'.
Proof.
  unfold create_keepId. destruct (e__id effect).
  - apply set_effects_channels.
  - apply createEmbeddedDocuments_channels.
Qed.

Lemma toggle_cons env fuel effectName overlay uuid uuids isStatusEffect active w :
  EffectHandler_toggleEffect env fuel effectName overlay (uuid :: uuids)
    isStatusEffect active w
  = match EffectHandler_toggleEffect env fuel effectName overlay [uuid]
            isStatusEffect active w with
    | Returned _ w' =>
        EffectHandler_toggleEffect env fuel effectName overlay uuids
          isStatusEffect active w'
    | Threw w' => Threw w'
    | OutOfFuel => OutOfFuel
    end.
Proof.
  unfold EffectHandler_toggleEffect. simpl. unfold bind.
  match goal with |- context [match ?o with _ => _ end] => destruct o end;
    reflexivity.
Qed.

(** One target of the status branch. *)
Lemma toggle_status_one env fuel effectName overlay uuid sd active w :
  (getActorByUuid w uuid = None ->
   EffectHandler_toggleEffect env fuel effectName overlay [uuid] (Some sd)
     active w = Returned tt w)
  /\ ((exists w',
         EffectHandler_toggleEffect env fuel effectName overlay [uuid]
           (Some sd) active w = Returned tt w'
         /\ same_channels w w')
      \/ (EffectHandler_toggleEffect env fuel effectName overlay [uuid]
            (Some sd) active w = Threw w
          /\ fromStatusEffect env (sd_id sd) = Raised)).
Proof.
  unfold EffectHandler_toggleEffect, for_of, bind, get_world.
  destruct (getActorByUuid w uuid) as [actor|] eqn:Ha.
  2:{ split; [reflexivity|]. left. exists w. split; [reflexivity|].
      apply same_channels_refl. }
  split; [discriminate|].
  match goal with
  | |- context [match ?l with [] => _ | _ :: _ => _ end] => destruct l
  end.
  - destruct active as [[|]|].
    + destruct (fromStatusEffect env (sd_id sd)) as [effect|] eqn:Hf.
      * left. simpl.
        match goal with
        | |- context [create_keepId env uuid ?e w] =>
            destruct (create_keepId_channels env uuid e w) as (w' & -> & Hw)
        end.
        eauto.
      * right. auto.
    + left. exists w. split; [reflexivity | apply same_channels_refl].
    + destruct (fromStatusEffect env (sd_id sd)) as [effect|] eqn:Hf.
      * left. simpl.
        match goal with
        | |- context [create_keepId env uuid ?e w] =>
            destruct (create_keepId_channels env uuid e w) as (w' & -> & Hw)
        end.
        eauto.
      * right. auto.
  - destruct (truthy active).
    + left. exists w. split; [reflexivity | apply same_channels_refl].
    + left. unfold deleteEmbeddedDocuments.
      match goal with
      | |- context [set_effects uuid ?f w] =>
          destruct (set_effects_channels uuid f w) as (w' & -> & Hw)
      end.
      eauto.
Qed.

(** A target that resolves to no actor in front of one that does: the first
    is passed over, the second receives the status. *)
Example toggle_status_passes_over_unknown_actor :
  exists w,
    EffectHandler_toggleEffect dnd5e 0 (js "Prone") None
      [js "Actor.nobody"; hero_uuid] (Some (descriptor_of prone None)) None
      (scene []) = Returned tt w
    /\ map e_name (hero_effects w) = [js "Prone"]
    /\ notifications w = [].
Proof. eexists. split; [vm_compute; reflexivity|]. split; reflexivity. Qed.

(** ** Composite effects *)

(** C8, as worded, fails: a composite effect of two sub-effects, the first
    of which has a sub-effect of its own, leaves four instances on the
    actor, whatever the fuel that lets the add return. *)
Lemma composite_of_composite_adds_four :
  ~ composite_as_worded dnd5e (scene []) hero_uuid
      (definition "Rallying Cry"
         (Some [definition "Heroism" (Some [definition "Courage" None]);
                definition "Vigor" None])).
Proof.
  intros H.
  destruct (H _ _ _ eq_refl eq_refl)
    as (fuel & w' & p & i1 & i2 & Hrun & Hactor & _).
  assert (Hfour : length (a_effects (default (hero []) (getActorByUuid w' hero_uuid)))
                  = 3%nat) by (rewrite Hactor; reflexivity).
  destruct fuel as [|[|[|fuel]]]; vm_compute in Hrun;
    try discriminate; injection Hrun as <-; vm_compute in Hfour;
    discriminate.
Qed.

Lemma prepared_fields env overlay actor effect :
  expansion_keeps env ->
  e_name (prepared env overlay actor effect) = e_name effect
  /\ e_origin (prepared env overlay actor effect) = e_origin effect
  /\ e_active (prepared env overlay actor effect) = e_active effect
  /\ f_isConvenient (prepared env overlay actor effect)
     = f_isConvenient effect
  /\ f_subEffects (prepared env overlay actor effect) = f_subEffects effect.
Proof.
  intros Hk. unfold prepared.
  destruct (f_isDynamic (with_overlay overlay effect)).
  - apply (Hk (with_overlay overlay effect) actor).
  - repeat split.
Qed.

Lemma addEffect_catalog env fuel effect uuid origin overlay w actor :
  getActorByUuid w uuid = Some actor ->
  EffectHandler_addEffect env fuel effect uuid origin overlay None w
  = (createEmbeddedDocuments env uuid (prepared env overlay actor effect) ;;
     match f_subEffects (prepared env overlay actor effect) with
     | None => ret tt
     | Some subEffects =>
         for_of subEffects
           (fun subEffect =>
              match fuel with
              | O => fun _ => OutOfFuel
              | S fuel' =>
                  addEffectWith_over env (EffectHandler_addEffect env fuel')
                    (Some subEffect) uuid
                    (Some (getId env
                             (e_name (prepared env overlay actor effect))))
                    None
              end)
     end) w.
Proof.
  intros Ha. destruct fuel; simpl; unfold bind, get_world; rewrite Ha;
    reflexivity.
Qed.

Lemma createEmbeddedDocuments_run env uuid effect w actor :
  getActorByUuid w uuid = Some actor ->
  exists w',
    createEmbeddedDocuments env uuid effect w = Returned tt w'
    /\ getActorByUuid w' uuid
       = Some (with_effects
                 (a_effects actor
                    ++ [with_id (Some (randomID env (created w))) effect])
                 actor)
    /\ created w' = S (created w)
    /\ notifications w' = notifications w
    /\ relayed w' = relayed w.
Proof.
  intros Ha. eexists. split; [reflexivity|]. repeat split.
  unfold getActorByUuid in *. simpl. rewrite lookup_alter_eq, Ha. reflexivity.
Qed.

(** The add of a definition without sub-effects: one instance more. *)
Lemma addEffect_leaf env fuel effect uuid origin overlay w actor :
  getActorByUuid w uuid = Some actor ->
  (f_subEffects (prepared env overlay actor effect) = None
   \/ f_subEffects (prepared env overlay actor effect) = Some []) ->
  exists w',
    EffectHandler_addEffect env fuel effect uuid origin overlay None w
    = Returned tt w'
    /\ getActorByUuid w' uuid
       = Some (with_effects
                 (a_effects actor
                    ++ [with_id (Some (randomID env (created w)))
                          (prepared env overlay actor effect)])
                 actor)
    /\ created w' = S (created w)
    /\ notifications w' = notifications w
    /\ relayed w' = relayed w.
Proof.
  intros Ha Hsub. rewrite (addEffect_catalog env fuel _ _ _ _ _ actor Ha).
  destruct (createEmbeddedDocuments_run env uuid
              (prepared env overlay actor effect) w actor Ha)
    as (w' & Hrun & Hrest).
  exists w'. split; [|exact Hrest].
  unfold bind. rewrite Hrun. destruct Hsub as [-> | ->]; reflexivity.
Qed.

(** A plain sub-effect reaches the privileged [addEffect] as one effect
    with the marker flag and the origin given. *)
Lemma addEffectWith_plain env relay subEffect uuid origin w actor :
  plain_sub env subEffect ->
  getActorByUuid w uuid = Some actor ->
  addEffectWith_over env relay (Some subEffect) uuid origin None w
  = executeAsGM
      (CAddEffect (createActiveEffect subEffect origin) uuid origin None None)
      (relay (createActiveEffect subEffect origin) uuid origin None None) w.
Proof.
  intros (Hname & Hnested & _) Ha. unfold addEffectWith_over, bind, lift.
  assert (Hstatus : match e_name subEffect with
                    | [] => Ok None
                    | _ :: _ => isStatusEffect env (e_name subEffect)
                    end = Ok None).
  { destruct Hname as [-> | Hs]; [reflexivity|].
    destruct (e_name subEffect); [reflexivity | exact Hs]. }
  rewrite Hstatus.
  assert (hasNestedEffects (createActiveEffect subEffect origin) = false) as ->
    by exact Hnested.
  unfold ret, get_world. rewrite Ha. reflexivity.
Qed.

Lemma remove_first_split p before e after :
  p e = true -> existsb p before = false ->
  remove_first p (before ++ e :: after) = before ++ after.
Proof.
  intros He. induction before as [|x before IH]; simpl.
  - rewrite He. reflexivity.
  - intros [-> Hb]%orb_false_iff. rewrite (IH Hb). reflexivity.
Qed.

Lemma removeEffect_removes_first w uuid actor effectID origin :
  getActorByUuid w uuid = Some actor ->
  existsb (candidate effectID origin) (a_effects actor) = true ->
  EffectHandler_removeEffect effectID uuid origin w
  = Returned tt
      (replace_effects uuid
         (remove_first (candidate effectID origin) (a_effects actor)) w).
Proof.
  intros Ha Hex.
  destruct (removeEffect_outcome w uuid actor effectID origin Ha)
    as [[Hnone _] | (before & e & after & Hl & He & Hb & Hrun)];
    [congruence|].
  rewrite Hrun, Hl, (remove_first_split _ _ _ _ He Hb). reflexivity.
Qed.

Lemma candidate_by_name name e :
  candidate (Some name) None e
  = e_active e && isConvenient e
    && (opt_eq (e__id e) (Some name) || str_eq (e_name e) name).
Proof.
  unfold candidate, matches_effectID. simpl. rewrite andb_true_r, opt_eq_Some.
  reflexivity.
Qed.

(** An instance answers to its own name, and to no other name that is not
    its identity token. *)
Lemma candidate_instance name k env e :
  e_active e = true -> isConvenient e = true ->
  randomID env k <> name ->
  candidate (Some name) None (with_id (Some (randomID env k)) e)
  = str_eq (e_name e) name.
Proof.
  intros Ha Hc Hid. rewrite candidate_by_name. simpl.
  unfold isConvenient in *. simpl. rewrite Ha, Hc. simpl.
  assert (opt_eq (Some (randomID env k)) (Some name) = false) as ->
    by (apply bool_decide_eq_false; congruence).
  reflexivity.
Qed.

Lemma str_eq_refl a : str_eq a a = true.
Proof. apply str_eq_true. reflexivity. Qed.

Lemma str_eq_ne a b : a <> b -> str_eq a b = false.
Proof. intros H. apply bool_decide_eq_false, H. Qed.

Lemma remove_first_app p before l :
  existsb p before = false ->
  remove_first p (before ++ l) = before ++ remove_first p l.
Proof.
  induction before as [|x before IH]; simpl; [reflexivity|].
  intros [-> Hb]%orb_false_iff. rewrite (IH Hb). reflexivity.
Qed.

Lemma for_of_two {A : Type} (x y : A) (body : A -> M unit) w :
  for_of [x; y] body w
  = match body x w with
    | Returned _ w1 =>
        match body y w1 with
        | Returned _ w2 => Returned tt w2
        | Threw w' => Threw w'
        | OutOfFuel => OutOfFuel
        end
    | Threw w' => Threw w'
    | OutOfFuel => OutOfFuel
    end.
Proof.
  cbn [for_of]. unfold bind, ret.
  destruct (body x w) as [? w1| |]; [|reflexivity..].
  destruct (body y w1); reflexivity.
Qed.

(** C8, as amended. A composite effect whose two sub-effects are plain
    (not named as a status under the current setting, without nested
    alternatives, without sub-effects of their own), added on the
    privileged side to an actor that exists, gives the actor exactly three
    instances more: the parent, then the two sub-effects; each sub-effect
    instance carries the marker flag and has the parent's derived
    identifier as origin; and where the three can be told apart, removing
    one by its name leaves the two others. *)
Theorem composite_adds_parent_and_sub_effects (env : Env) (fuel : nat)
    (w : World) (uuid : jsstring) (actor : Actor) (effect s1 s2 : Effect)
    (origin : option jsstring) (overlay : option bool) :
  getActorByUuid w uuid = Some actor ->
  expansion_keeps env ->
  f_subEffects effect = Some [s1; s2] ->
  plain_sub env s1 -> plain_sub env s2 ->
  exists w' p i1 i2,
    EffectHandler_addEffect env (S fuel) effect uuid origin overlay None w
    = Returned tt w'
    /\ getActorByUuid w' uuid
       = Some (with_effects (a_effects actor ++ [p; i1; i2]) actor)
    /\ (e_name p = e_name effect /\ e_name i1 = e_name s1
        /\ e_name i2 = e_name s2)
    /\ (e_origin i1 = Some (getId env (e_name p))
        /\ e_origin i2 = Some (getId env (e_name p)))
    /\ (isConvenient i1 = true /\ isConvenient i2 = true)
    /\ (distinguishable env w actor effect s1 s2 ->
        EffectHandler_removeEffect (Some (e_name p)) uuid None w'
        = Returned tt (replace_effects uuid (a_effects actor ++ [i1; i2]) w')
        /\ EffectHandler_removeEffect (Some (e_name i1)) uuid None w'
           = Returned tt
               (replace_effects uuid (a_effects actor ++ [p; i2]) w')
        /\ EffectHandler_removeEffect (Some (e_name i2)) uuid None w'
           = Returned tt
               (replace_effects uuid (a_effects actor ++ [p; i1]) w')).
Proof.
  intros Ha Hk Hsubs Hs1 Hs2.
  rewrite (addEffect_catalog env (S fuel) _ _ _ _ _ actor Ha).
  destruct (prepared_fields env overlay actor effect Hk)
    as (Hpn & Hpo & Hpa & Hpc & Hps).
  set (parent := prepared env overlay actor effect) in *.
  set (o := Some (getId env (e_name parent))).
  destruct (createEmbeddedDocuments_run env uuid parent w actor Ha)
    as (w1 & Hrun1 & Ha1 & Hc1 & _).
  set (p := with_id (Some (randomID env (created w))) parent) in *.
  set (actor1 := with_effects (a_effects actor ++ [p]) actor) in *.
  (* the first sub-effect *)
  set (c1 := CAddEffect (createActiveEffect s1 o) uuid o None None).
  set (logged1 := {| actors := actors w1; notifications := notifications w1;
                     relayed := relayed w1 ++ [c1]; created := created w1 |}).
  assert (Hl1 : getActorByUuid logged1 uuid = Some actor1) by exact Ha1.
  destruct (prepared_fields env None actor1 (createActiveEffect s1 o) Hk)
    as (H1n & H1o & H1a & H1c & H1s).
  destruct (addEffect_leaf env fuel (createActiveEffect s1 o) uuid o None
              logged1 actor1 Hl1)
    as (w2 & Hrun2 & Ha2 & Hc2 & _).
  { rewrite H1s. exact (proj2 (proj2 Hs1)). }
  set (i1 := with_id (Some (randomID env (created logged1)))
               (prepared env None actor1 (createActiveEffect s1 o))) in *.
  set (actor2 := with_effects (a_effects actor1 ++ [i1]) actor1) in *.
  (* the second sub-effect *)
  set (c2 := CAddEffect (createActiveEffect s2 o) uuid o None None).
  set (logged2 := {| actors := actors w2; notifications := notifications w2;
                     relayed := relayed w2 ++ [c2]; created := created w2 |}).
  assert (Hl2 : getActorByUuid logged2 uuid = Some actor2) by exact Ha2.
  destruct (prepared_fields env None actor2 (createActiveEffect s2 o) Hk)
    as (H2n & H2o & H2a & H2c & H2s).
  destruct (addEffect_leaf env fuel (createActiveEffect s2 o) uuid o None
              logged2 actor2 Hl2)
    as (w3 & Hrun3 & Ha3 & Hc3 & _).
  { rewrite H2s. exact (proj2 (proj2 Hs2)). }
  set (i2 := with_id (Some (randomID env (created logged2)))
               (prepared env None actor2 (createActiveEffect s2 o))) in *.
  assert (Hfinal : getActorByUuid w3 uuid
                   = Some (with_effects (a_effects actor ++ [p; i1; i2]) actor)).
  { rewrite Ha3. unfold actor2, actor1. simpl.
    rewrite <- !app_assoc. reflexivity. }
  exists w3, p, i1, i2.
  split.
  { unfold bind. rewrite Hrun1, Hps, Hsubs, for_of_two.
    rewrite (addEffectWith_plain env _ s1 uuid o w1 actor1 Hs1 Ha1).
    unfold executeAsGM. fold c1. fold logged1. rewrite Hrun2.
    rewrite (addEffectWith_plain env _ s2 uuid o w2 actor2 Hs2 Ha2).
    unfold executeAsGM. fold c2. fold logged2. rewrite Hrun3.
    reflexivity. }
  split; [exact Hfinal|].
  split; [repeat split; simpl; assumption|].
  split; [split; simpl; [rewrite H1o | rewrite H2o]; reflexivity|].
  split; [split; unfold isConvenient; simpl; [rewrite H1c | rewrite H2c];
          reflexivity|].
  intros (Hconv & Hact & Hact1 & Hact2 & Hn1 & Hn2 & Hn12 & Hfree).
  assert (Hidp : e__id p = Some (randomID env (0 + created w)))
    by reflexivity.
  assert (Hidi1 : e__id i1 = Some (randomID env (1 + created w)))
    by (unfold i1; simpl; rewrite Hc1; reflexivity).
  assert (Hidi2 : e__id i2 = Some (randomID env (2 + created w)))
    by (unfold i2; simpl; rewrite Hc2; simpl; rewrite Hc1; reflexivity).
  assert (Hcand : forall name x k e',
            x = with_id (Some (randomID env (k + created w))) e' ->
            e_active e' = true -> isConvenient e' = true ->
            In name [e_name effect; e_name s1; e_name s2] ->
            candidate (Some name) None x = str_eq (e_name e') name).
  { intros name x k e' -> Hae Hce Hin.
    apply candidate_instance; auto. apply (Hfree name Hin). }
  assert (Hp : forall name, In name [e_name effect; e_name s1; e_name s2] ->
                 candidate (Some name) None p = str_eq (e_name effect) name).
  { intros name Hin. rewrite <- Hpn.
    apply (Hcand name p 0%nat parent);
      [ reflexivity
      | rewrite Hpa; exact Hact
      | unfold isConvenient in *; rewrite Hpc; exact Hconv
      | exact Hin ]. }
  assert (Hi1 : forall name, In name [e_name effect; e_name s1; e_name s2] ->
                  candidate (Some name) None i1 = str_eq (e_name s1) name).
  { intros name Hin.
    change (e_name s1) with (e_name (createActiveEffect s1 o)).
    rewrite <- H1n.
    apply (Hcand name i1 1%nat
             (prepared env None actor1 (createActiveEffect s1 o)));
      [ unfold i1; simpl; rewrite Hc1; reflexivity
      | rewrite H1a; exact Hact1
      | unfold isConvenient; rewrite H1c; reflexivity
      | exact Hin ]. }
  assert (Hi2 : forall name, In name [e_name effect; e_name s1; e_name s2] ->
                  candidate (Some name) None i2 = str_eq (e_name s2) name).
  { intros name Hin.
    change (e_name s2) with (e_name (createActiveEffect s2 o)).
    rewrite <- H2n.
    apply (Hcand name i2 2%nat
             (prepared env None actor2 (createActiveEffect s2 o)));
      [ unfold i2; simpl; rewrite Hc2; simpl; rewrite Hc1; reflexivity
      | rewrite H2a; exact Hact2
      | unfold isConvenient; rewrite H2c; reflexivity
      | exact Hin ]. }
  assert (Hremove : forall name rest,
            In name [e_name effect; e_name s1; e_name s2] ->
            remove_first (candidate (Some name) None) [p; i1; i2] = rest ->
            existsb (candidate (Some name) None) [p; i1; i2] = true ->
            EffectHandler_removeEffect (Some name) uuid None w3
            = Returned tt (replace_effects uuid (a_effects actor ++ rest) w3)).
  { intros name rest Hin Hrest Hex.
    rewrite (removeEffect_removes_first w3 uuid _ (Some name) None Hfinal).
    - simpl a_effects.
      rewrite remove_first_app by (apply (Hfree name Hin)).
      rewrite Hrest. reflexivity.
    - simpl a_effects. rewrite existsb_app, Hex. apply orb_true_r. }
  assert (Hin0 : In (e_name effect) [e_name effect; e_name s1; e_name s2])
    by (simpl; auto).
  assert (Hin1 : In (e_name s1) [e_name effect; e_name s1; e_name s2])
    by (simpl; auto).
  assert (Hin2 : In (e_name s2) [e_name effect; e_name s1; e_name s2])
    by (simpl; auto).
  assert (Hnp : e_name p = e_name effect) by exact Hpn.
  assert (Hni1 : e_name i1 = e_name s1) by exact H1n.
  assert (Hni2 : e_name i2 = e_name s2) by exact H2n.
  rewrite Hnp, Hni1, Hni2.
  split; [|split].
  - apply Hremove; [exact Hin0 | |]; simpl;
      rewrite (Hp _ Hin0), str_eq_refl; reflexivity.
  - apply Hremove; [exact Hin1 | |]; simpl;
      rewrite (Hp _ Hin1), (Hi1 _ Hin1), (str_eq_ne _ _ Hn1), str_eq_refl;
      reflexivity.
  - apply Hremove; [exact Hin2 | |]; simpl;
      rewrite (Hp _ Hin2), (Hi1 _ Hin2), (Hi2 _ Hin2), (str_eq_ne _ _ Hn2),
        (str_eq_ne _ _ Hn12), str_eq_refl;
      reflexivity.
Qed.

Lemma dnd5e_expansion_keeps : expansion_keeps dnd5e.
Proof. intros effect actor. repeat split. Qed.

Lemma dnd5e_plain_sub name :
  isStatusEffect dnd5e (js name) = Ok None ->
  plain_sub dnd5e (definition name None).
Proof.
  intros H. split; [right; exact H|].
  split; [reflexivity | left; reflexivity].
Qed.

Lemma dnd5e_randomID_head k name :
  hd 0%N (js name) <> 105%N -> randomID dnd5e k <> js name.
Proof. intros H Heq. apply H. rewrite <- Heq. reflexivity. Qed.

Lemma heroism_distinguishable :
  distinguishable dnd5e (scene []) (hero [])
    (definition "Heroism"
       (Some [definition "Courage" None; definition "Vigor" None]))
    (definition "Courage" None) (definition "Vigor" None).
Proof.
  unfold distinguishable.
  do 4 (split; [reflexivity|]). do 3 (split; [discriminate|]).
  intros name [<- | [<- | [<- | []]]];
    (split; [reflexivity | intros k; apply dnd5e_randomID_head; discriminate]).
Qed.

Lemma composite_adds_parent_and_sub_effects_witness :
  exists w' p i1 i2,
    EffectHandler_addEffect dnd5e 1
      (definition "Heroism"
         (Some [definition "Courage" None; definition "Vigor" None]))
      hero_uuid None None None (scene []) = Returned tt w'
    /\ getActorByUuid w' hero_uuid
       = Some (with_effects ([] ++ [p; i1; i2]) (hero []))
    /\ EffectHandler_removeEffect (Some (e_name i1)) hero_uuid None w'
       = Returned tt (replace_effects hero_uuid ([] ++ [p; i2]) w').
Proof.
  destruct (composite_adds_parent_and_sub_effects dnd5e 0 (scene []) hero_uuid
              (hero [])
              (definition "Heroism"
                 (Some [definition "Courage" None; definition "Vigor" None]))
              (definition "Courage" None) (definition "Vigor" None) None None
              eq_refl dnd5e_expansion_keeps eq_refl
              (dnd5e_plain_sub "Courage" eq_refl)
              (dnd5e_plain_sub "Vigor" eq_refl))
    as (w' & p & i1 & i2 & Hrun & Hactor & _ & _ & _ & Hremove).
  exists w', p, i1, i2.
  split; [exact Hrun|]. split; [exact Hactor|].
  exact (proj1 (proj2 (Hremove heroism_distinguishable))).
Defined.

(** "Heroism" with its two sub-effects on an actor without effects. *)
Example heroism_adds_three :
  exists w,
    EffectHandler_addEffect dnd5e 1
      (definition "Heroism"
         (Some [definition "Courage" None; definition "Vigor" None]))
      hero_uuid None None None (scene []) = Returned tt w
    /\ map e_name (hero_effects w) = [js "Heroism"; js "Courage"; js "Vigor"]
    /\ map e_origin (hero_effects w)
       = [None; Some (js "Convenient Effect: Heroism");
          Some (js "Convenient Effect: Heroism")].
Proof. eexists. split; [vm_compute; reflexivity|]. split; reflexivity. Qed.

(** * Further properties of the code *)

(** ** Lookup in the catalogs *)

Lemma find_first {A : Type} (p : A -> bool) l x :
  find p l = Some x ->
  exists before after,
    l = before ++ x :: after /\ p x = true
    /\ forall y, In y before -> p y = false.
Proof.
  induction l as [|y l IH]; simpl; [discriminate|].
  destruct (p y) eqn:Hy.
  - intros [= <-]. exists [], l. repeat split; auto. intros ? [].
  - intros H. destruct (IH H) as (before & after & -> & Hx & Hb).
    exists (y :: before), after. repeat split; auto.
    intros z [<- | Hz]; auto.
Qed.

Lemma find_none_all {A : Type} (p : A -> bool) l :
  find p l = None -> forall y, In y l -> p y = false.
Proof.
  induction l as [|y l IH]; simpl; [intros _ ? []|].
  destruct (p y) eqn:Hy; [discriminate|].
  intros H z [<- | Hz]; auto.
Qed.

Lemma findEffectByName_name env effectName effect :
  findEffectByName env effectName = Some effect -> e_name effect = effectName.
Proof.
  unfold findEffectByName, findCustomEffectByName.
  destruct (find _ (getCustomEffects env)) as [c|] eqn:Hc.
  - intros [= <-]. apply find_some in Hc as [_ Hc]. apply str_eq_true, Hc.
  - intros H. apply find_some in H as [_ H]. apply str_eq_true, H.
Qed.

(** X1. [findEffectByName] returns the first custom effect of that name,
    and only when there is none the first built-in effect of that name; it
    returns nothing exactly when neither catalog has an effect of that
    name. *)
Theorem findEffectByName_prefers_custom (env : Env) (effectName : jsstring) :
  match findEffectByName env effectName with
  | Some effect =>
      e_name effect = effectName
      /\ ((exists before after,
             getCustomEffects env = before ++ effect :: after
             /\ forall c, In c before -> e_name c <> effectName)
          \/ ((forall c, In c (getCustomEffects env) -> e_name c <> effectName)
              /\ exists before after,
                   effects_all env = before ++ effect :: after
                   /\ forall b, In b before -> e_name b <> effectName))
  | None =>
      forall e,
        In e (getCustomEffects env ++ effects_all env) ->
        e_name e <> effectName
  end.
Proof.
  assert (Hne : forall e : Effect,
            str_eq (e_name e) effectName = false -> e_name e <> effectName).
  { intros e H Heq. apply str_eq_true in Heq. congruence. }
  destruct (findEffectByName env effectName) as [effect|] eqn:Hfind.
  - split; [apply (findEffectByName_name env), Hfind|].
    unfold findEffectByName, findCustomEffectByName in Hfind.
    destruct (find _ (getCustomEffects env)) as [c|] eqn:Hc.
    + injection Hfind as <-. left.
      destruct (find_first _ _ _ Hc) as (before & after & Hl & _ & Hb).
      exists before, after. split; [exact Hl|]. intros x Hx. apply Hne, Hb, Hx.
    + right. split.
      * intros x Hx. apply Hne. apply (find_none_all _ _ Hc), Hx.
      * destruct (find_first _ _ _ Hfind) as (before & after & Hl & _ & Hb).
        exists before, after. split; [exact Hl|].
        intros x Hx. apply Hne, Hb, Hx.
  - unfold findEffectByName, findCustomEffectByName in Hfind.
    destruct (find _ (getCustomEffects env)) as [c|] eqn:Hc; [discriminate|].
    intros e [He | He]%in_app_or; apply Hne.
    + apply (find_none_all _ _ Hc), He.
    + apply (find_none_all _ _ Hfind), He.
Qed.

(** ** The selection among nested effects *)

Lemma In_omap {A B : Type} (f : A -> option B) l y :
  In y (omap f l) -> exists x, In x l /\ f x = Some y.
Proof.
  induction l as [|x l IH]; simpl; [intros []|].
  destruct (f x) as [z|] eqn:Hx.
  - intros [<- | H]; [eauto|]. destruct (IH H) as (x' & ? & ?). eauto.
  - intros H. destruct (IH H) as (x' & ? & ?). eauto.
Qed.

(** X2. The effect that [_getNestedEffectSelection] returns is the effect
    that the catalogs give for the user's choice, and its name is one of
    the nested names of the parent: a name chosen outside the list, a name
    that the catalogs do not have, and a closed dialog all give nothing. *)
Theorem nested_selection_is_offered (env : Env) (effect chosen : Effect) :
  _getNestedEffectSelection env effect = Some chosen ->
  In (e_name chosen) (default [] (f_nestedEffects effect))
  /\ findEffectByName env (e_name chosen) = Some chosen
  /\ promptChoice env effect
       (omap (findEffectByName env) (default [] (f_nestedEffects effect)))
     = Some (e_name chosen).
Proof.
  unfold _getNestedEffectSelection. intros H.
  apply find_some in H as [Hin Hchoice].
  apply bool_decide_eq_true in Hchoice.
  apply In_omap in Hin as (name & Hname & Hfound).
  assert (e_name chosen = name) as <-
    by (apply (findEffectByName_name env), Hfound).
  auto.
Qed.

Lemma nested_selection_is_offered_witness :
  In (js "Reduce") [js "Enlarge"; js "Reduce"]
  /\ findEffectByName dnd5e_choosing (js "Reduce")
     = Some (definition "Reduce" None).
Proof.
  destruct (nested_selection_is_offered dnd5e_choosing
              (mkEffect None (js "Enlarge/Reduce") true None [] ∅ true false
                 None (Some [js "Enlarge"; js "Reduce"]) None None None)
              (definition "Reduce" None) eq_refl)
    as (Hin & Hfound & _).
  split; [exact Hin | exact Hfound].
Defined.

(** ** Whether an effect is applied *)

Lemma existsb_applied (p : Effect -> bool) l : forall g : nat -> nat,
  existsb (fun d => p d.2)
    (List.filter (fun d => e_active d.2) (imap (fun i e => (g i, e)) l))
  = existsb (fun e => e_active e && p e) l.
Proof.
  induction l as [|e l IH]; intros g; simpl; [reflexivity|].
  destruct (e_active e) eqn:Ha; simpl.
  - f_equal. apply (IH (g ∘ S)).
  - apply (IH (g ∘ S)).
Qed.

Lemma hasEffectApplied_existsb effectName uuid w actor :
  getActorByUuid w uuid = Some actor ->
  EffectHandler_hasEffectApplied effectName uuid w
  = Some (existsb (fun e => e_active e
                            && (isConvenient e
                                && str_eq (e_name e) effectName))
            (a_effects actor)).
Proof.
  intros Ha. unfold EffectHandler_hasEffectApplied, appliedEffects.
  rewrite Ha. f_equal.
  apply (existsb_applied
           (fun e => isConvenient e && str_eq (e_name e) effectName)
           (a_effects actor) id).
Qed.

(** X3. [hasEffectApplied] is [undefined] exactly when the UUID resolves to
    no actor; on an actor it is [true] exactly when one of its effects is
    active, carries the marker flag and has that name, so an effect that is
    disabled or that another source has created never counts. Whenever it
    is [true], [removeEffect] with that name as identifier deletes one
    effect of the actor. *)
Theorem hasEffectApplied_active_marked_named (effectName uuid : jsstring)
    (w : World) :
  (EffectHandler_hasEffectApplied effectName uuid w = None
   <-> getActorByUuid w uuid = None)
  /\ (EffectHandler_hasEffectApplied effectName uuid w = Some true
      <-> exists actor effect,
            getActorByUuid w uuid = Some actor
            /\ In effect (a_effects actor)
            /\ e_active effect = true /\ isConvenient effect = true
            /\ e_name effect = effectName)
  /\ (EffectHandler_hasEffectApplied effectName uuid w = Some true ->
      exists w' actor actor',
        EffectHandler_removeEffect (Some effectName) uuid None w
        = Returned tt w'
        /\ getActorByUuid w uuid = Some actor
        /\ getActorByUuid w' uuid = Some actor'
        /\ length (a_effects actor) = S (length (a_effects actor'))).
Proof.
  destruct (getActorByUuid w uuid) as [actor|] eqn:Ha.
  2:{ unfold EffectHandler_hasEffectApplied. rewrite Ha.
      split; [tauto|]. split; [|discriminate].
      split; [discriminate | intros (? & ? & ? & _); discriminate]. }
  rewrite (hasEffectApplied_existsb effectName uuid w actor Ha).
  split; [split; discriminate|].
  assert (Hiff : existsb (fun e => e_active e
                            && (isConvenient e
                                && str_eq (e_name e) effectName))
                   (a_effects actor) = true
                 <-> exists effect,
                       In effect (a_effects actor)
                       /\ e_active effect = true /\ isConvenient effect = true
                       /\ e_name effect = effectName).
  { rewrite existsb_exists. split.
    - intros (e & Hin & [Hact [Hc Hn]%andb_true_iff]%andb_true_iff).
      exists e. apply str_eq_true in Hn. auto.
    - intros (e & Hin & Hact & Hc & Hn). exists e. split; [exact Hin|].
      rewrite Hact, Hc. simpl. apply str_eq_true, Hn. }
  split.
  - split.
    + intros [= H]. apply Hiff in H as (e & ?). exists actor, e. auto.
    + intros (actor0 & e & [= <-] & H). f_equal. apply Hiff. eauto.
  - intros [= H]. apply Hiff in H as (e & Hin & Hact & Hc & Hn).
    destruct (removeEffect_outcome w uuid actor (Some effectName) None Ha)
      as [[Hnone _] | (before & x & after & Hl & _ & _ & Hrun)].
    + exfalso.
      assert (Hcand : candidate (Some effectName) None e = true).
      { rewrite candidate_by_name, Hact, Hc.
        assert (str_eq (e_name e) effectName = true) as ->
          by (apply str_eq_true, Hn).
        simpl. apply orb_true_r. }
      assert (existsb (candidate (Some effectName) None) (a_effects actor)
              = true)
        by (apply existsb_exists; eauto).
      congruence.
    + exists (replace_effects uuid (before ++ after) w), actor,
        (with_effects (before ++ after) actor).
      split; [exact Hrun|]. split; [reflexivity|].
      split; [apply getActorByUuid_replace, Ha|].
      simpl. rewrite Hl, !length_app. simpl. lia.
Qed.

(** ** What an operation leaves alone *)

Lemma with_effects_twice l1 l2 a :
  with_effects l2 (with_effects l1 a) = with_effects l2 a.
Proof. reflexivity. Qed.

Lemma with_effects_own (a : Actor) : a = with_effects (a_effects a) a.
Proof. destruct a. reflexivity. Qed.

Lemma only_effects_of_refl uuid w : only_effects_of uuid w w.
Proof.
  repeat split; auto. intros actor' H. exists actor'.
  split; [exact H | apply with_effects_own].
Qed.

Lemma only_effects_of_trans uuid w1 w2 w3 :
  only_effects_of uuid w1 w2 -> only_effects_of uuid w2 w3 ->
  only_effects_of uuid w1 w3.
Proof.
  intros (Ho1 & Hr1 & Ha1 & Hn1 & Hc1) (Ho2 & Hr2 & Ha2 & Hn2 & Hc2).
  split; [intros u Hu; rewrite (Ho2 u Hu); apply Ho1, Hu|].
  split; [intros u; rewrite Hr2; apply Hr1|].
  split; [|split; congruence].
  intros a3 H3. destruct (Ha2 a3 H3) as (a2 & H2 & E3).
  destruct (Ha1 a2 H2) as (a1 & H1 & E2). exists a1. split; [exact H1|].
  rewrite E3, E2. reflexivity.
Qed.

(** A state that differs in the actors at [uuid] only, through [alter]. *)
Lemma only_effects_of_alter uuid (f : list Effect -> list Effect) w c :
  only_effects_of uuid w
    {| actors := alter (fun a => with_effects (f (a_effects a)) a) uuid
                   (actors w);
       notifications := notifications w; relayed := relayed w;
       created := c |}.
Proof.
  split; [|split; [|split; [|split; reflexivity]]].
  - intros u Hu. unfold getActorByUuid. simpl.
    apply lookup_alter_ne. congruence.
  - intros u. apply resolves_alter.
  - intros actor'. unfold getActorByUuid. simpl.
    rewrite lookup_alter_eq.
    destruct (actors w !! uuid) as [a|]; simpl; [|discriminate].
    intros [= <-]. exists a. split; reflexivity.
Qed.

Lemma only_effects_of_replace uuid l w actor :
  getActorByUuid w uuid = Some actor ->
  only_effects_of uuid w (replace_effects uuid l w).
Proof.
  intros _. apply (only_effects_of_alter uuid (fun _ => l) w (created w)).
Qed.

Lemma out_of_reach_app l1 l2 :
  out_of_reach (l1 ++ l2) = out_of_reach l1 ++ out_of_reach l2.
Proof. unfold out_of_reach. apply List.filter_app. Qed.

Lemma out_of_reach_candidate effectID origin e l :
  candidate effectID origin e = true ->
  out_of_reach (e :: l) = out_of_reach l.
Proof.
  unfold candidate, out_of_reach. simpl.
  intros [[[-> ->]%andb_true_iff _]%andb_true_iff _]%andb_true_iff.
  reflexivity.
Qed.

(** X4. Whatever its arguments and its outcome, the privileged
    [removeEffect] changes nothing but the effects of the actor it is given:
    the other actors, the notifications, the commands relayed and the
    identity tokens drawn stay as they are. On that actor the effects
    without marker flag and the effects that are not active all stay, in
    their order, and at most one effect leaves. *)
Theorem removeEffect_frame (effectID : option jsstring) (uuid : jsstring)
    (origin : option jsstring) (w w' : World) :
  final (EffectHandler_removeEffect effectID uuid origin w) = Some w' ->
  only_effects_of uuid w w'
  /\ created w' = created w
  /\ forall actor actor',
       getActorByUuid w uuid = Some actor ->
       getActorByUuid w' uuid = Some actor' ->
       out_of_reach (a_effects actor') = out_of_reach (a_effects actor)
       /\ (length (a_effects actor') <= length (a_effects actor)
           <= S (length (a_effects actor')))%nat.
Proof.
  destruct (getActorByUuid w uuid) as [actor|] eqn:Ha.
  - destruct (removeEffect_outcome w uuid actor effectID origin Ha)
      as [[_ ->] | (before & e & after & Hl & He & _ & ->)];
      intros [= <-].
    + split; [apply only_effects_of_refl|]. split; [reflexivity|].
      intros a a' [= <-] Ha'. rewrite Ha in Ha'. injection Ha' as <-.
      split; [reflexivity | lia].
    + split; [apply (only_effects_of_replace uuid _ w actor Ha)|].
      split; [reflexivity|].
      intros a a' [= <-] Ha'.
      rewrite (getActorByUuid_replace uuid _ w actor Ha) in Ha'.
      injection Ha' as <-. simpl. rewrite Hl, !out_of_reach_app.
      rewrite (out_of_reach_candidate effectID origin e after He).
      split; [reflexivity|]. rewrite !length_app. simpl. lia.
  - unfold EffectHandler_removeEffect, bind, get_world. rewrite Ha.
    intros [= <-]. split; [apply only_effects_of_refl|].
    split; [reflexivity|]. intros a a' H. discriminate.
Qed.

Lemma removeEffect_frame_witness :
  only_effects_of hero_uuid
    (scene [instance "a1" "Bless" true false None ∅;
            instance "a2" "Bless" true true None ∅])
    (scene [instance "a1" "Bless" true false None ∅]).
Proof.
  apply (removeEffect_frame (Some (js "Bless")) hero_uuid None
           (scene [instance "a1" "Bless" true false None ∅;
                   instance "a2" "Bless" true true None ∅])
           (scene [instance "a1" "Bless" true false None ∅])).
  vm_compute. reflexivity.
Defined.

(** ** Targets of the toggle that resolve to no actor *)

Lemma addEffect_handler_without_actor env fuel effect uuid origin overlay
    isStatusEffect w :
  getActorByUuid w uuid = None ->
  EffectHandler_addEffect env fuel effect uuid origin overlay isStatusEffect w
  = Threw w.
Proof.
  intros Ha. destruct fuel; simpl; unfold bind, get_world; rewrite Ha;
    reflexivity.
Qed.

(** X5. In the branch of the catalog effects, a target UUID that resolves
    to no actor makes the privileged [toggleEffect] throw before it changes
    anything, whether or not the catalogs have the effect: the targets
    listed after it are not reached. *)
Theorem toggle_catalog_stops_at_unresolved (env : Env) (fuel : nat)
    (effectName : jsstring) (overlay : option bool) (uuid : jsstring)
    (uuids : list jsstring) (active : option bool) (w : World) :
  getActorByUuid w uuid = None ->
  EffectHandler_toggleEffect env fuel effectName overlay (uuid :: uuids) None
    active w = Threw w.
Proof.
  intros Ha.
  rewrite (toggle_cons env fuel effectName overlay uuid uuids None active w).
  unfold EffectHandler_toggleEffect, for_of, bind, get_world.
  unfold EffectHandler_hasEffectApplied. rewrite Ha. simpl.
  destruct (findEffectByName env effectName) as [effect|]; [|reflexivity].
  rewrite (addEffect_handler_without_actor env fuel effect uuid None overlay
             None w Ha).
  reflexivity.
Qed.

Lemma toggle_catalog_stops_at_unresolved_witness :
  EffectHandler_toggleEffect dnd5e 0 (js "Bless") None
    [js "Actor.nobody"; hero_uuid] None None (scene [])
  = Threw (scene []).
Proof.
  apply (toggle_catalog_stops_at_unresolved dnd5e 0 (js "Bless") None
           (js "Actor.nobody") [hero_uuid] None (scene [])).
  reflexivity.
Defined.

(** ** The level of exhaustion stays in range *)

(** The suffix that a descriptor carries is an integer literal. *)
Lemma isStatusEffect_delta_integer env effectName sd d :
  isStatusEffect env effectName = Ok (Some sd) ->
  sd_isExhaustion sd = IsDelta d -> integer d.
Proof.
  unfold isStatusEffect. destruct (negb _); [discriminate|].
  destruct (Regex.match_ effectName) as [[base suffix]|] eqn:Hm; simpl.
  - destruct (find _ _); [|discriminate].
    destruct (find _ _); [|discriminate].
    intros [= <-]. simpl. destruct (opt_eq _ _); [|discriminate].
    destruct suffix as [n|]; [|discriminate]. intros [= <-].
    apply match_spec in Hm as (ws & _ & _ & _ & Hi & _). exact Hi.
  - destruct (find _ _); [|discriminate].
    destruct (find _ _); [|discriminate].
    intros [= <-]. simpl. destruct (opt_eq _ _); discriminate.
Qed.

Lemma clamp_in_range v hi : 0 <= hi -> 0 <= clamp v 0 hi <= hi.
Proof. unfold clamp. lia. Qed.

Lemma newExhaustionLevel_integer current maxLevel d :
  0 <= maxLevel -> integer d ->
  exists level,
    newExhaustionLevel current (Some d) (Some maxLevel) = Some level
    /\ 0 <= level <= maxLevel.
Proof.
  intros Hmax (sign & digits & -> & Hs & Hne & Hd).
  destruct Hs as [-> | [-> | ->]]; eexists; (split; [|apply clamp_in_range, Hmax]).
  - apply (newExhaustionLevel_unsigned current maxLevel digits); assumption.
  - apply (newExhaustionLevel_plus current maxLevel digits); assumption.
  - apply (newExhaustionLevel_minus current maxLevel digits); assumption.
Qed.

(** X6. For every effect name that [isStatusEffect] classifies, every
    current level from [0] on and every number of levels from [0] on, the
    new level that [addEffect] computes from the descriptor is a number,
    never [NaN], between [0] and the number of levels: the suffix of the
    name can reach neither below nor beyond the scale. *)
Theorem newExhaustionLevel_in_range (env : Env) (effectName : jsstring)
    (sd : StatusDescriptor) (current maxLevel : Z) :
  isStatusEffect env effectName = Ok (Some sd) ->
  0 <= current -> 0 <= maxLevel ->
  exists level,
    newExhaustionLevel current (delta_of (sd_isExhaustion sd)) (Some maxLevel)
    = Some level
    /\ 0 <= level <= maxLevel.
Proof.
  intros His Hcur Hmax.
  destruct (sd_isExhaustion sd) as [| |d] eqn:Hsd; simpl.
  - exists (Z.min (current + 1) maxLevel). split; [reflexivity | lia].
  - exists (Z.min (current + 1) maxLevel). split; [reflexivity | lia].
  - apply newExhaustionLevel_integer; [exact Hmax|].
    apply (isStatusEffect_delta_integer env effectName sd d His Hsd).
Qed.

Lemma newExhaustionLevel_in_range_witness :
  exists level,
    newExhaustionLevel 4 (Some (js "+17")) (Some 6) = Some level
    /\ 0 <= level <= 6.
Proof.
  apply (newExhaustionLevel_in_range dnd5e (js "Exhaustion +17")
           (descriptor_of exhaustion (Some (js "+17"))) 4 6);
    [reflexivity | discriminate | discriminate].
Defined.

(** ** A vocabulary without exhaustion *)

Lemma find_is_Some {A : Type} (p : A -> bool) l x :
  In x l -> p x = true -> exists y, find p l = Some y.
Proof.
  intros Hin Hp. destruct (find p l) as [y|] eqn:Hf; [eauto|].
  rewrite (find_none_all p l Hf x Hin) in Hp. discriminate.
Qed.

(** X7. Under the setting "none", when [CONFIG.statusEffects] has no entry
    with id ['exhaustion'], [isStatusEffect] never returns a descriptor: it
    throws for every name whose word token is the name of a registered
    status, and returns [false] for every other name. *)
Theorem isStatusEffect_without_exhaustion_entry (env : Env)
    (effectName : jsstring) :
  modifyStatusEffects env = js "none" ->
  find (fun e => str_eq (se_id e) (js "exhaustion")) (statusEffects env)
  = None ->
  (isStatusEffect env effectName = Raised
   <-> exists base suffix entry,
         parses_greedily effectName base suffix
         /\ In entry (statusEffects env) /\ se_name entry = base)
  /\ (isStatusEffect env effectName = Raised
      \/ isStatusEffect env effectName = Ok None).
Proof.
  intros Hset Hexh. unfold isStatusEffect. rewrite Hset. simpl.
  destruct (Regex.match_ effectName) as [[base suffix]|] eqn:Hm; simpl.
  - rewrite (find_ext _ (fun e => str_eq (se_name e) base))
      by (intros; apply opt_eq_Some).
    destruct (find (fun e => str_eq (se_name e) base) (statusEffects env))
      as [entry|] eqn:Hfind.
    + rewrite Hexh. split; [|left; reflexivity].
      split; [intros _|reflexivity].
      apply find_some in Hfind as [Hin Hn]. apply str_eq_true in Hn.
      exists base, suffix, entry. split; [apply match_spec, Hm | auto].
    + split; [|right; reflexivity]. split; [discriminate|].
      intros (b & s & e & Hp & Hin & Hn). exfalso.
      apply match_spec in Hp. rewrite Hm in Hp. injection Hp as <- <-.
      apply (find_none_all _ _ Hfind) in Hin.
      apply str_eq_true in Hn. congruence.
  - rewrite find_never
      by (intros x; apply bool_decide_eq_false; discriminate).
    split; [|right; reflexivity]. split; [discriminate|].
    intros (b & s & e & Hp%match_spec & _). congruence.
Qed.

Lemma isStatusEffect_without_exhaustion_entry_witness :
  isStatusEffect no_exhaustion (js "Prone") = Raised.
Proof.
  apply (isStatusEffect_without_exhaustion_entry no_exhaustion (js "Prone"));
    [reflexivity | reflexivity |].
  exists (js "Prone"), None, prone.
  split; [apply match_spec; reflexivity | split; [left|]; reflexivity].
Defined.

(** ** A status name through the issuer's toggle *)

(** The status of a descriptor is one that the factory knows. *)
Lemma isStatusEffect_known_to_factory env effectName sd :
  isStatusEffect env effectName = Ok (Some sd) ->
  fromStatusEffect env (sd_id sd) <> Raised.
Proof.
  unfold isStatusEffect. destruct (negb _); [discriminate|]. cbv zeta.
  destruct (find _ _) as [entry|] eqn:Hfind; [|discriminate].
  destruct (find (fun effect => str_eq (se_id effect) (js "exhaustion")) _);
    [|discriminate].
  intros [= <-]. simpl. apply find_some in Hfind as [Hin _].
  unfold fromStatusEffect.
  destruct (find_is_Some (fun s => str_eq (se_id s) (se_id entry))
              (statusEffects env) entry Hin) as (y & ->);
    [apply str_eq_refl | discriminate].
Qed.

Lemma toggle_status_returns env fuel effectName overlay uuids sd active :
  fromStatusEffect env (sd_id sd) <> Raised ->
  forall w,
  exists w',
    EffectHandler_toggleEffect env fuel effectName overlay uuids (Some sd)
      active w = Returned tt w'
    /\ same_channels w w'.
Proof.
  intros Hf. induction uuids as [|uuid uuids IH]; intros w.
  - exists w. split; [reflexivity | apply same_channels_refl].
  - rewrite (toggle_cons env fuel effectName overlay uuid uuids).
    destruct (toggle_status_one env fuel effectName overlay uuid sd active w)
      as [_ [(w1 & -> & Hw1) | [_ Hr]]]; [|congruence].
    destruct (IH w1) as (w' & Hrun & Hw'). exists w'.
    split; [exact Hrun | apply (same_channels_trans _ w1); assumption].
Qed.

(** X8. For a name that [isStatusEffect] classifies as a status and a list
    of targets that is not empty (the UUIDs given or, without any, the
    selected ones), the issuer's [toggleEffect] relays one command, the
    toggle under the name as given with the descriptor, and returns: no
    exception escapes on either side, whatever the targets, and nothing is
    notified. *)
Theorem toggleEffect_status_relays_once (env : Env) (fuel : nat)
    (effectName : jsstring) (overlay : option bool) (uuids : list jsstring)
    (sd : StatusDescriptor) (w : World) :
  isStatusEffect env effectName = Ok (Some sd) ->
  match uuids with [] => getActorUuids env | _ => uuids end <> [] ->
  exists w',
    EffectInterface_toggleEffect env fuel effectName overlay uuids w
    = Returned tt w'
    /\ relayed w'
       = relayed w
         ++ [CToggleEffect effectName overlay
               match uuids with [] => getActorUuids env | _ => uuids end
               (Some sd)]
    /\ notifications w' = notifications w
    /\ forall uuid, resolves w' uuid = resolves w uuid.
Proof.
  intros His Htargets. unfold EffectInterface_toggleEffect.
  set (targets := match uuids with [] => getActorUuids env | _ => uuids end)
    in *.
  destruct targets as [|t rest] eqn:Ht; [congruence|].
  unfold bind, lift. rewrite His. unfold executeAsGM.
  match goal with
  | |- context [EffectHandler_toggleEffect _ _ _ _ _ _ _ ?logged] =>
      destruct (toggle_status_returns env fuel effectName overlay
                  (t :: rest) sd None
                  (isStatusEffect_known_to_factory env effectName sd His)
                  logged)
        as (w' & Hrun & Hn & Hr & Hres)
  end.
  exists w'. split; [exact Hrun|]. split; [exact Hr|].
  split; [exact Hn | exact Hres].
Qed.

Lemma toggleEffect_status_relays_once_witness :
  exists w',
    EffectInterface_toggleEffect dnd5e 0 (js "Prone") None
      [js "Actor.nobody"; hero_uuid] (scene []) = Returned tt w'
    /\ relayed w'
       = relayed (scene [])
         ++ [CToggleEffect (js "Prone") None [js "Actor.nobody"; hero_uuid]
               (Some (descriptor_of prone None))]
    /\ notifications w' = notifications (scene [])
    /\ forall uuid, resolves w' uuid = resolves (scene []) uuid.
Proof.
  apply (toggleEffect_status_relays_once dnd5e 0 (js "Prone") None
           [js "Actor.nobody"; hero_uuid] (descriptor_of prone None)
           (scene []));
    [reflexivity | discriminate].
Defined.

(** ** The names that the issuer relays *)

Lemma nested_selection_found env effect chosen :
  _getNestedEffectSelection env effect = Some chosen ->
  findEffectByName env (e_name chosen) = Some chosen.
Proof.
  unfold _getNestedEffectSelection. intros H.
  apply find_some in H as [Hin _].
  apply In_omap in Hin as (name & _ & Hfound).
  rewrite (findEffectByName_name env name chosen Hfound). exact Hfound.
Qed.

Lemma findEffectByName_own_name env effectName effect :
  findEffectByName env effectName = Some effect ->
  findEffectByName env (e_name effect) = Some effect.
Proof.
  intros H. rewrite (findEffectByName_name env effectName effect H). exact H.
Qed.

(** ** Adding a catalog effect, and removing it *)

(** The issuer's [addEffect] on a catalog effect that is added as one
    instance: the instance comes last, under a new identity token, with the
    name, the origin, the activity and the marker flag of the definition. *)
Lemma addEffect_single env fuel effectName uuid origin overlay w actor effect :
  getActorByUuid w uuid = Some actor ->
  expansion_keeps env ->
  single_effect env effectName effect ->
  exists w1 inst,
    EffectInterface_addEffect env fuel effectName uuid origin overlay w
    = Returned tt w1
    /\ getActorByUuid w1 uuid
       = Some (with_effects (a_effects actor ++ [inst]) actor)
    /\ inst = with_id (Some (randomID env (created w)))
                (prepared env overlay actor effect)
    /\ e_name inst = effectName
    /\ e_origin inst = e_origin effect
    /\ e_active inst = e_active effect
    /\ isConvenient inst = isConvenient effect
    /\ notifications w1 = notifications w
    /\ relayed w1
       = relayed w ++ [CAddEffect effect uuid origin overlay None].
Proof.
  intros Ha Hk (His & Hfind & Hnested & Hsub).
  destruct (prepared_fields env overlay actor effect Hk)
    as (Hn & Ho & Hact & Hc & Hs).
  set (c := CAddEffect effect uuid origin overlay None).
  assert (Hl : getActorByUuid (logged c w) uuid = Some actor) by exact Ha.
  destruct (addEffect_leaf env fuel effect uuid origin overlay (logged c w)
              actor Hl)
    as (w1 & Hrun & Ha1 & _ & Hn1 & Hr1); [rewrite Hs; exact Hsub|].
  exists w1, (with_id (Some (randomID env (created w)))
                (prepared env overlay actor effect)).
  split.
  { unfold EffectInterface_addEffect, bind, get_world, lift.
    rewrite Ha, His, Hfind, Hnested. unfold executeAsGM.
    fold c. fold (logged c w). exact Hrun. }
  split; [exact Ha1|]. split; [reflexivity|].
  split; [simpl; rewrite Hn; apply (findEffectByName_name env), Hfind|].
  split; [exact Ho|]. split; [exact Hact|]. split; [exact Hc|].
  split; [exact Hn1 | exact Hr1].
Qed.

Lemma not_candidate_not_applied effectName e :
  candidate (Some effectName) None e = false ->
  e_active e && (isConvenient e && str_eq (e_name e) effectName) = false.
Proof.
  rewrite candidate_by_name.
  destruct (e_active e), (isConvenient e), (str_eq (e_name e) effectName);
    simpl; auto.
  rewrite orb_true_r. discriminate.
Qed.

Lemma existsb_false_ext {A : Type} (p q : A -> bool) l :
  (forall x, p x = false -> q x = false) ->
  existsb p l = false -> existsb q l = false.
Proof.
  intros H. induction l as [|x l IH]; simpl; [reflexivity|].
  intros [Hx Hl]%orb_false_iff. rewrite (H x Hx), (IH Hl). reflexivity.
Qed.

(** X11. A round trip through the issuer. When the name resolves to a
    catalog effect that is added as one instance, marked convenient and
    active, and no effect of the actor answers to the name yet, then
    [addEffect] followed by [removeEffect] with the same name returns the
    actor to what it was: in between [hasEffectApplied] is [true],
    afterwards it is [false], and nothing has been notified. *)
Theorem addEffect_removeEffect_round_trip (env : Env) (fuel : nat)
    (effectName uuid : jsstring) (origin : option jsstring)
    (overlay : option bool) (w : World) (actor : Actor) (effect : Effect) :
  getActorByUuid w uuid = Some actor ->
  expansion_keeps env ->
  single_effect env effectName effect ->
  isConvenient effect = true -> e_active effect = true ->
  existsb (candidate (Some effectName) None) (a_effects actor) = false ->
  randomID env (created w) <> effectName ->
  exists w1 w2,
    EffectInterface_addEffect env fuel effectName uuid origin overlay w
    = Returned tt w1
    /\ EffectHandler_hasEffectApplied effectName uuid w1 = Some true
    /\ EffectInterface_removeEffect env effectName uuid None w1
       = Returned tt w2
    /\ getActorByUuid w2 uuid = Some actor
    /\ EffectHandler_hasEffectApplied effectName uuid w2 = Some false
    /\ notifications w2 = notifications w.
Proof.
  intros Ha Hk Hsingle Hconv Hact Hfree Hid.
  destruct (addEffect_single env fuel effectName uuid origin overlay w actor
              effect Ha Hk Hsingle)
    as (w1 & inst & Hrun1 & Ha1 & Hinst & Hn & _ & Hia & Hic & Hnot1 & _).
  destruct Hsingle as (His & Hfind & Hnested & _).
  assert (Hcand : candidate (Some effectName) None inst = true).
  { rewrite Hinst, candidate_instance; try congruence.
    - rewrite <- Hn, Hinst. apply str_eq_refl.
    - rewrite Hinst in Hia. simpl in Hia. congruence.
    - rewrite Hinst in Hic. unfold isConvenient in *. simpl in Hic.
      congruence. }
  set (c := CRemoveEffect (Some (e_name effect)) uuid None).
  assert (Hl : getActorByUuid (logged c w1) uuid
               = Some (with_effects (a_effects actor ++ [inst]) actor))
    by exact Ha1.
  assert (Hname : e_name effect = effectName)
    by (apply (findEffectByName_name env), Hfind).
  exists w1, (replace_effects uuid (a_effects actor) (logged c w1)).
  split; [exact Hrun1|].
  split.
  { rewrite (hasEffectApplied_existsb effectName uuid w1 _ Ha1). f_equal.
    simpl a_effects. rewrite existsb_app. simpl.
    rewrite candidate_by_name in Hcand.
    apply andb_true_iff in Hcand as [[-> ->]%andb_true_iff Hm].
    simpl. rewrite <- Hn, str_eq_refl. simpl. apply orb_true_r. }
  split.
  { unfold EffectInterface_removeEffect, bind, get_world, lift.
    rewrite His, Hfind, Hnested, Ha1. unfold executeAsGM.
    fold c. fold (logged c w1).
    rewrite (removeEffect_removes_first (logged c w1) uuid _
               (Some (e_name effect)) None Hl);
      rewrite Hname; simpl a_effects.
    - rewrite (remove_first_app _ _ _ Hfree). simpl. rewrite Hcand.
      rewrite app_nil_r. reflexivity.
    - rewrite existsb_app. simpl. rewrite Hcand. simpl. apply orb_true_r. }
  split.
  { rewrite (getActorByUuid_replace uuid (a_effects actor) (logged c w1)
               (with_effects (a_effects actor ++ [inst]) actor) Hl).
    rewrite with_effects_twice. f_equal. symmetry. apply with_effects_own. }
  split.
  { rewrite (hasEffectApplied_existsb effectName uuid _
               (with_effects (a_effects actor)
                  (with_effects (a_effects actor ++ [inst]) actor))).
    - f_equal. simpl a_effects.
      apply (existsb_false_ext (candidate (Some effectName) None));
        [intros x; apply not_candidate_not_applied | exact Hfree].
    - apply (getActorByUuid_replace uuid (a_effects actor) (logged c w1)
               (with_effects (a_effects actor ++ [inst]) actor) Hl). }
  exact Hnot1.
Qed.

Lemma addEffect_removeEffect_round_trip_witness :
  exists w1 w2,
    EffectInterface_addEffect dnd5e 0 (js "Bless") hero_uuid None None
      (scene []) = Returned tt w1
    /\ EffectHandler_hasEffectApplied (js "Bless") hero_uuid w1 = Some true
    /\ EffectInterface_removeEffect dnd5e (js "Bless") hero_uuid None w1
       = Returned tt w2
    /\ getActorByUuid w2 hero_uuid = Some (hero [])
    /\ EffectHandler_hasEffectApplied (js "Bless") hero_uuid w2 = Some false
    /\ notifications w2 = notifications (scene []).
Proof.
  apply (addEffect_removeEffect_round_trip dnd5e 0 (js "Bless") hero_uuid None
           None (scene []) (hero []) (definition "Bless" None));
    try reflexivity.
  - exact dnd5e_expansion_keeps.
  - repeat split; try reflexivity. left; reflexivity.
  - apply dnd5e_randomID_head. discriminate.
Defined.

(** X12. The origin given to the issuer's [addEffect] for a catalog effect
    is relayed but not recorded: the instance keeps the origin of the
    definition. So when the definition has another origin, a
    [removeEffect] with the name and the very origin given to [addEffect]
    finds nothing to remove, and the effect stays applied. *)
Theorem addEffect_origin_not_recorded (env : Env) (fuel : nat)
    (effectName uuid origin : jsstring) (overlay : option bool) (w : World)
    (actor : Actor) (effect : Effect) :
  getActorByUuid w uuid = Some actor ->
  expansion_keeps env ->
  single_effect env effectName effect ->
  origin <> [] -> e_origin effect <> Some origin ->
  existsb (candidate (Some effectName) (Some origin)) (a_effects actor)
  = false ->
  exists w1 inst,
    EffectInterface_addEffect env fuel effectName uuid (Some origin) overlay w
    = Returned tt w1
    /\ getActorByUuid w1 uuid
       = Some (with_effects (a_effects actor ++ [inst]) actor)
    /\ e_origin inst = e_origin effect
    /\ EffectInterface_removeEffect env effectName uuid (Some origin) w1
       = Returned tt
           (logged (CRemoveEffect (Some effectName) uuid (Some origin)) w1).
Proof.
  intros Ha Hk Hsingle Hne Horigin Hfree.
  destruct (addEffect_single env fuel effectName uuid (Some origin) overlay w
              actor effect Ha Hk Hsingle)
    as (w1 & inst & Hrun1 & Ha1 & _ & _ & Ho & _).
  destruct Hsingle as (His & Hfind & Hnested & _).
  assert (Hname : e_name effect = effectName)
    by (apply (findEffectByName_name env), Hfind).
  exists w1, inst. split; [exact Hrun1|]. split; [exact Ha1|].
  split; [exact Ho|].
  unfold EffectInterface_removeEffect, bind, get_world, lift.
  rewrite His, Hfind, Hnested, Ha1, Hname. unfold executeAsGM.
  fold (logged (CRemoveEffect (Some effectName) uuid (Some origin)) w1).
  set (w1' := logged (CRemoveEffect (Some effectName) uuid (Some origin)) w1).
  assert (Hl : getActorByUuid w1' uuid
               = Some (with_effects (a_effects actor ++ [inst]) actor))
    by exact Ha1.
  destruct (removeEffect_outcome w1' uuid _ (Some effectName) (Some origin) Hl)
    as [[_ Hrun] | (before & e & after & Hsplit & He & Hb & _)];
    [exact Hrun|].
  exfalso.
  assert (Hex : existsb (candidate (Some effectName) (Some origin))
                  (a_effects actor ++ [inst]) = true).
  { simpl a_effects in Hsplit. rewrite Hsplit, existsb_app. simpl.
    rewrite He. simpl. apply orb_true_r. }
  rewrite existsb_app, Hfree in Hex. simpl in Hex.
  rewrite orb_false_r in Hex. unfold candidate in Hex.
  assert (Ht : truthy_str (Some origin) = true)
    by (destruct origin; [congruence | reflexivity]).
  rewrite Ht in Hex. apply andb_true_iff in Hex as [_ Hex].
  apply bool_decide_eq_true in Hex. congruence.
Qed.

Lemma addEffect_origin_not_recorded_witness :
  exists w1 inst,
    EffectInterface_addEffect dnd5e 0 (js "Bless") hero_uuid
      (Some (js "Item.scroll")) None (scene []) = Returned tt w1
    /\ getActorByUuid w1 hero_uuid
       = Some (with_effects (a_effects (hero []) ++ [inst]) (hero []))
    /\ e_origin inst = e_origin (definition "Bless" None)
    /\ EffectInterface_removeEffect dnd5e (js "Bless") hero_uuid
         (Some (js "Item.scroll")) w1
       = Returned tt
           (logged (CRemoveEffect (Some (js "Bless")) hero_uuid
                      (Some (js "Item.scroll"))) w1).
Proof.
  apply (addEffect_origin_not_recorded dnd5e 0 (js "Bless") hero_uuid
           (js "Item.scroll") None (scene []) (hero [])
           (definition "Bless" None));
    try reflexivity; try discriminate.
  - exact dnd5e_expansion_keeps.
  - repeat split; try reflexivity. left; reflexivity.
Defined.

(** ** Adding a status *)

Lemma left_after_refl n l : left_after n l l.
Proof. split; [reflexivity | lia]. Qed.

Lemma left_after_trans n m l1 l2 l3 :
  left_after n l1 l2 -> left_after m l2 l3 -> left_after (n + m) l1 l3.
Proof. intros [E1 L1] [E2 L2]. split; [congruence | lia]. Qed.

Lemma replace_effects_own uuid w actor :
  getActorByUuid w uuid = Some actor ->
  replace_effects uuid (a_effects actor) w = w.
Proof.
  intros Ha. unfold replace_effects. destruct w as [m n r c].
  simpl. f_equal. apply map_eq. intros u.
  unfold getActorByUuid in Ha. simpl in Ha.
  destruct (decide (uuid = u)) as [<- | Hne].
  - rewrite lookup_alter_eq, Ha. simpl. f_equal. symmetry.
    apply with_effects_own.
  - apply lookup_alter_ne, Hne.
Qed.

(** One call of [removeEffect] on an actor: what the state is afterwards. *)
Lemma removeEffect_leaves w uuid actor effectID origin :
  getActorByUuid w uuid = Some actor ->
  exists kept,
    EffectHandler_removeEffect effectID uuid origin w
    = Returned tt (replace_effects uuid kept w)
    /\ left_after 1 (a_effects actor) kept
    /\ (existsb (candidate effectID origin) (a_effects actor) = true ->
        length (a_effects actor) = S (length kept)).
Proof.
  intros Ha.
  destruct (removeEffect_outcome w uuid actor effectID origin Ha)
    as [[Hnone Hrun] | (before & e & after & Hl & He & _ & Hrun)].
  - exists (a_effects actor).
    rewrite (replace_effects_own uuid w actor Ha).
    split; [exact Hrun|]. split; [apply left_after_refl | congruence].
  - exists (before ++ after). split; [exact Hrun|]. split.
    + split.
      * rewrite Hl, !out_of_reach_app.
        rewrite (out_of_reach_candidate effectID origin e after He).
        reflexivity.
      * rewrite Hl, !length_app. simpl. lia.
    + intros _. rewrite Hl, !length_app. simpl. lia.
Qed.

(** The identity token under which [create] with [keepId] stores an effect. *)
Lemma create_keepId_run env uuid effect w actor :
  getActorByUuid w uuid = Some actor ->
  exists w' inst,
    create_keepId env uuid effect w = Returned tt w'
    /\ getActorByUuid w' uuid
       = Some (with_effects (a_effects actor ++ [inst]) actor)
    /\ inst = with_id (match e__id effect with
                       | Some i => Some i
                       | None => Some (randomID env (created w))
                       end) effect
    /\ only_effects_of uuid w w'.
Proof.
  intros Ha. unfold create_keepId. destruct (e__id effect) as [i|] eqn:Hi.
  - rewrite (set_effects_replace uuid _ w actor Ha).
    eexists; exists effect. split; [reflexivity|].
    split; [apply getActorByUuid_replace, Ha|].
    split; [destruct effect; unfold with_id; simpl in *; congruence|].
    apply (only_effects_of_replace uuid _ w actor Ha).
  - destruct (createEmbeddedDocuments_run env uuid effect w actor Ha)
      as (w' & Hrun & Ha' & _).
    exists w'. eexists. split; [exact Hrun|]. split; [exact Ha'|].
    split; [reflexivity|].
    injection Hrun as <-.
    apply (only_effects_of_alter uuid
             (fun l => l ++ [with_id (Some (randomID env (created w))) effect])
             w (S (created w))).
Qed.

(** The status branch of the privileged [addEffect] on an actor with a
    token on the scene. *)
Lemma addEffect_status_branch env fuel effect uuid origin overlay sd w actor :
  getActorByUuid w uuid = Some actor ->
  hasActiveHUD actor <> Raised ->
  exists w' kept inst,
    EffectHandler_addEffect env fuel effect uuid origin overlay (Some sd) w
    = Returned tt w'
    /\ getActorByUuid w' uuid = Some (with_effects (kept ++ [inst]) actor)
    /\ left_after 1 (a_effects actor) kept
    /\ inst = with_id (match e__id effect with
                       | Some i => Some i
                       | None => Some (randomID env (created w))
                       end) effect
    /\ only_effects_of uuid w w'.
Proof.
  intros Ha Hhud.
  assert (Hbody :
    EffectHandler_addEffect env fuel effect uuid origin overlay (Some sd) w
    = (match find (fun eff => opt_eq (e__id eff.2) (e__id effect))
               (appliedEffects actor) with
       | Some eff => EffectHandler_removeEffect (e__id eff.2) uuid None
       | None => ret tt
       end ;;
       do _ <- lift (hasActiveHUD actor);
       create_keepId env uuid effect) w).
  { destruct fuel; simpl; unfold bind, get_world; rewrite Ha; reflexivity. }
  rewrite Hbody. clear Hbody. unfold bind at 1.
  assert (Hfirst : exists kept,
            match find (fun eff => opt_eq (e__id eff.2) (e__id effect))
                    (appliedEffects actor) with
            | Some eff => EffectHandler_removeEffect (e__id eff.2) uuid None
            | None => ret tt
            end w = Returned tt (replace_effects uuid kept w)
            /\ left_after 1 (a_effects actor) kept).
  { destruct (find _ _) as [eff|].
    - destruct (removeEffect_leaves w uuid actor (e__id eff.2) None Ha)
        as (kept & Hrun & Hkept & _).
      eauto.
    - exists (a_effects actor).
      rewrite (replace_effects_own uuid w actor Ha).
      split; [reflexivity | apply left_after_refl]. }
  destruct Hfirst as (kept & -> & Hkept).
  unfold bind, lift. destruct (hasActiveHUD actor); [|congruence].
  set (w1 := replace_effects uuid kept w).
  assert (Ha1 : getActorByUuid w1 uuid = Some (with_effects kept actor))
    by (apply getActorByUuid_replace, Ha).
  destruct (create_keepId_run env uuid effect w1 _ Ha1)
    as (w' & inst & Hrun & Ha' & Hinst & Hframe).
  exists w', kept, inst. split; [exact Hrun|].
  split; [exact Ha'|]. split; [exact Hkept|]. split; [exact Hinst|].
  apply (only_effects_of_trans uuid w w1 w');
    [apply (only_effects_of_replace uuid kept w actor Ha) | exact Hframe].
Qed.

(** What the status factory gives. *)
Lemma fromStatusEffect_fields env statusId effect :
  fromStatusEffect env statusId = Ok effect ->
  e_active effect = true /\ e_statuses effect = {[ statusId ]}
  /\ f_isConvenient effect = false
  /\ f_exhaustionLevel effect = None
  /\ exists entry,
       In entry (statusEffects env) /\ se_id entry = statusId
       /\ e__id effect = se__id entry /\ e_name effect = se_name entry.
Proof.
  unfold fromStatusEffect.
  destruct (find _ _) as [entry|] eqn:Hfind; [|discriminate].
  intros [= <-]. simpl. do 4 (split; [reflexivity|]).
  exists entry. apply find_some in Hfind as [Hin Hid].
  apply str_eq_true in Hid. auto.
Qed.

(** The removal that the issuer's [addEffect] relays when it has found an
    effect with the static identity token. *)
Lemma relay_remove_found uuid w actor (found : option (nat * Effect)) :
  getActorByUuid w uuid = Some actor ->
  exists w1 kept,
    match found with
    | Some effect =>
        executeAsGM (CRemoveEffect (e__id effect.2) uuid None)
          (EffectHandler_removeEffect (e__id effect.2) uuid None)
    | None => ret tt
    end w = Returned tt w1
    /\ getActorByUuid w1 uuid = Some (with_effects kept actor)
    /\ left_after 1 (a_effects actor) kept
    /\ notifications w1 = notifications w
    /\ created w1 = created w
    /\ forall u, u <> uuid -> getActorByUuid w1 u = getActorByUuid w u.
Proof.
  intros Ha. destruct found as [effect|].
  - unfold executeAsGM.
    fold (logged (CRemoveEffect (e__id effect.2) uuid None) w).
    set (wl := logged (CRemoveEffect (e__id effect.2) uuid None) w).
    assert (Hal : getActorByUuid wl uuid = Some actor) by exact Ha.
    destruct (removeEffect_leaves wl uuid actor (e__id effect.2) None Hal)
      as (kept & Hrun & Hkept & _).
    exists (replace_effects uuid kept wl), kept.
    split; [exact Hrun|].
    split; [apply getActorByUuid_replace, Hal|].
    split; [exact Hkept|]. split; [reflexivity|]. split; [reflexivity|].
    intros u Hu.
    apply (only_effects_of_replace uuid kept wl actor Hal). exact Hu.
  - exists w, (a_effects actor). split; [reflexivity|].
    split; [rewrite Ha; f_equal; apply with_effects_own|].
    split; [apply left_after_refl|]. auto.
Qed.

(** The issuer's [addEffect] from the relayed removal on, for a status. *)
Lemma addEffect_status_tail env fuel uuid origin overlay sd w actor
    (found : option (nat * Effect)) effect k :
  getActorByUuid w uuid = Some actor ->
  hasActiveHUD actor <> Raised ->
  fromStatusEffect env (sd_id sd) = Ok effect ->
  exists w' kept token,
    (match found with
     | Some effect =>
         executeAsGM (CRemoveEffect (e__id effect.2) uuid None)
           (EffectHandler_removeEffect (e__id effect.2) uuid None)
     | None => ret tt
     end ;;
     do effect <- lift (fromStatusEffect env (sd_id sd));
     executeAsGM (CAddEffect (k effect) uuid origin overlay (Some sd))
       (EffectHandler_addEffect env fuel (k effect) uuid origin overlay
          (Some sd))) w
    = Returned tt w'
    /\ getActorByUuid w' uuid
       = Some (with_effects (kept ++ [with_id token (k effect)]) actor)
    /\ left_after 2 (a_effects actor) kept
    /\ notifications w' = notifications w
    /\ forall u, u <> uuid -> getActorByUuid w' u = getActorByUuid w u.
Proof.
  intros Ha Hhud Hfactory.
  destruct (relay_remove_found uuid w actor found Ha)
    as (w1 & kept1 & Hrun1 & Ha1 & Hkept1 & Hn1 & _ & Hothers1).
  unfold bind at 1. rewrite Hrun1. rewrite Hfactory.
  unfold bind, lift, executeAsGM.
  fold (logged (CAddEffect (k effect) uuid origin overlay (Some sd)) w1).
  set (wl := logged (CAddEffect (k effect) uuid origin overlay (Some sd)) w1).
  assert (Hal : getActorByUuid wl uuid = Some (with_effects kept1 actor))
    by exact Ha1.
  destruct (addEffect_status_branch env fuel (k effect) uuid origin overlay sd
              wl _ Hal Hhud)
    as (w' & kept & inst & Hrun & Ha' & Hkept & -> & Hframe).
  exists w', kept. eexists. split; [exact Hrun|].
  split; [rewrite Ha', with_effects_twice; reflexivity|].
  split; [apply (left_after_trans 1 1 _ _ _ Hkept1 Hkept)|].
  destruct Hframe as (Hothers & _ & _ & Hn & _).
  split; [rewrite Hn; exact Hn1|].
  intros u Hu. rewrite (Hothers u Hu). apply Hothers1, Hu.
Qed.

(** X13. For every name that [isStatusEffect] classifies as a status other
    than exhaustion, and every actor with a token on the scene, the issuer's
    [addEffect] returns; the actor's effects are then what at most two
    removals have left of them (the effects without marker flag and those
    that are not active are all there), followed by one new instance, which
    is active, carries the marker flag and has exactly this status; nothing
    is notified and no other actor changes. *)
Theorem addEffect_status_ends_marked env fuel effectName uuid origin overlay
    sd w actor :
  getActorByUuid w uuid = Some actor ->
  hasActiveHUD actor <> Raised ->
  isStatusEffect env effectName = Ok (Some sd) ->
  sd_isExhaustion sd = IsFalse ->
  exists w' kept inst,
    EffectInterface_addEffect env fuel effectName uuid origin overlay w
    = Returned tt w'
    /\ getActorByUuid w' uuid = Some (with_effects (kept ++ [inst]) actor)
    /\ left_after 2 (a_effects actor) kept
    /\ isConvenient inst = true
    /\ e_active inst = true
    /\ e_statuses inst = {[ sd_id sd ]}
    /\ notifications w' = notifications w
    /\ forall u, u <> uuid -> getActorByUuid w' u = getActorByUuid w u.
Proof.
  intros Ha Hhud Hst Hexh.
  destruct (fromStatusEffect env (sd_id sd)) as [effect|] eqn:Hfactory;
    [|destruct (isStatusEffect_known_to_factory env effectName sd Hst Hfactory)].
  destruct (fromStatusEffect_fields env _ effect Hfactory)
    as (Hactive & Hstatuses & _).
  set (k := fun effect : Effect =>
              match match findEffectByName env effectName with
                    | Some found => e_changes found
                    | None => []
                    end with
              | [] => with_isConvenient true effect
              | _ :: _ =>
                  with_changes
                    match findEffectByName env effectName with
                    | Some found => e_changes found
                    | None => []
                    end (with_isConvenient true effect)
              end).
  destruct (addEffect_status_tail env fuel uuid origin overlay sd w actor
              (find (fun effect => opt_eq (e__id effect.2) (sd_staticID sd))
                 (appliedEffects actor))
              effect k Ha Hhud Hfactory)
    as (w' & kept & token & Hrun & Ha' & Hkept & Hn & Hothers).
  exists w', kept, (with_id token (k effect)).
  split.
  { unfold EffectInterface_addEffect, bind at 1, get_world. rewrite Ha.
    unfold bind at 1, lift at 1. rewrite Hst, Hexh. exact Hrun. }
  split; [exact Ha'|]. split; [exact Hkept|].
  assert (Hk : isConvenient (k effect) = true /\ e_active (k effect) = true
               /\ e_statuses (k effect) = {[ sd_id sd ]}).
  { unfold k. destruct (match findEffectByName env effectName with
                        | Some found => e_changes found
                        | None => []
                        end); simpl; auto. }
  destruct Hk as (H1 & H2 & H3). auto.
Qed.

Lemma addEffect_status_ends_marked_witness :
  exists w' kept inst,
    EffectInterface_addEffect dnd5e 0 (js "Prone") hero_uuid
      (Some (js "Item.scroll")) None
      (scene [instance "dnd5eprone000000" "Prone" true true None
                {[ js "prone" ]};
              instance "a1" "Bless" true false None ∅])
    = Returned tt w'
    /\ getActorByUuid w' hero_uuid
       = Some (with_effects (kept ++ [inst])
                 (hero [instance "dnd5eprone000000" "Prone" true true None
                          {[ js "prone" ]};
                        instance "a1" "Bless" true false None ∅]))
    /\ left_after 2
         [instance "dnd5eprone000000" "Prone" true true None {[ js "prone" ]};
          instance "a1" "Bless" true false None ∅] kept
    /\ isConvenient inst = true
    /\ e_active inst = true
    /\ e_statuses inst = {[ js "prone" ]}
    /\ notifications w' = []
    /\ forall u, u <> hero_uuid ->
         getActorByUuid w' u
         = getActorByUuid
             (scene [instance "dnd5eprone000000" "Prone" true true None
                       {[ js "prone" ]};
                     instance "a1" "Bless" true false None ∅]) u.
Proof.
  apply (addEffect_status_ends_marked dnd5e 0 (js "Prone") hero_uuid
           (Some (js "Item.scroll")) None (descriptor_of prone None)
           (scene [instance "dnd5eprone000000" "Prone" true true None
                     {[ js "prone" ]};
                   instance "a1" "Bless" true false None ∅])
           (hero [instance "dnd5eprone000000" "Prone" true true None
                    {[ js "prone" ]};
                  instance "a1" "Bless" true false None ∅]));
    [reflexivity | discriminate | vm_compute; reflexivity | reflexivity].
Defined.

(** X14. For every name that [isStatusEffect] classifies as exhaustion and
    every actor with a token on the scene, when the level that [addEffect]
    computes is not [0], the issuer's [addEffect] returns with one new
    instance last among the actor's effects: it is named after the
    exhaustion entry and the level, separated by a space, records the level
    and the actor's level before, carries the marker flag and the changes
    of the catalog effect of that name, if any. *)
Theorem addEffect_exhaustion_instance env fuel effectName uuid origin overlay
    sd w actor exh level :
  getActorByUuid w uuid = Some actor ->
  hasActiveHUD actor <> Raised ->
  isStatusEffect env effectName = Ok (Some sd) ->
  sd_isExhaustion sd <> IsFalse ->
  find (fun e => str_eq (se_id e) (js "exhaustion")) (statusEffects env)
  = Some exh ->
  newExhaustionLevel (default 0 (a_exhaustion actor))
    (delta_of (sd_isExhaustion sd)) (se_levels exh) = Some level ->
  level <> 0 ->
  exists w' kept inst,
    EffectInterface_addEffect env fuel effectName uuid origin overlay w
    = Returned tt w'
    /\ getActorByUuid w' uuid = Some (with_effects (kept ++ [inst]) actor)
    /\ left_after 2 (a_effects actor) kept
    /\ e_name inst = se_name exh ++ js " " ++ number_text level
    /\ f_exhaustionLevel inst = Some level
    /\ f_originalExhaustion inst = Some (default 0 (a_exhaustion actor))
    /\ isConvenient inst = true
    /\ e_statuses inst = {[ sd_id sd ]}
    /\ e_changes inst
       = match findEffectByName env (e_name inst) with
         | Some found => e_changes found
         | None => []
         end
    /\ notifications w' = notifications w.
Proof.
  intros Ha Hhud Hst Hexh Hfind Hlevel Hne.
  destruct (fromStatusEffect env (sd_id sd)) as [effect|] eqn:Hfactory;
    [|destruct (isStatusEffect_known_to_factory env effectName sd Hst Hfactory)].
  destruct (fromStatusEffect_fields env _ effect Hfactory)
    as (Hactive & Hstatuses & _).
  set (name := se_name exh ++ js " " ++ number_text level).
  set (k := fun effect : Effect =>
              with_name name
                (with_changes
                   match findEffectByName env name with
                   | Some found => e_changes found
                   | None => []
                   end
                   (with_exhaustion (Some level)
                      (Some (default 0 (a_exhaustion actor)))
                      (with_isConvenient true effect)))).
  destruct (addEffect_status_tail env fuel uuid origin overlay sd w actor
              (find (fun effect => opt_eq (e__id effect.2) (sd_staticID sd))
                 (appliedEffects actor))
              effect k Ha Hhud Hfactory)
    as (w' & kept & token & Hrun & Ha' & Hkept & Hn & Hothers).
  exists w', kept, (with_id token (k effect)).
  split.
  { unfold EffectInterface_addEffect, bind at 1, get_world. rewrite Ha.
    unfold bind at 1, lift at 1. rewrite Hst.
    destruct (sd_isExhaustion sd) eqn:Hsd; [congruence| |];
      unfold bind at 1, lift at 1; rewrite Hfind; cbv beta iota zeta;
      unfold delta_of in Hlevel; rewrite Hlevel;
      (destruct level; [congruence | |]); cbv beta iota zeta;
      unfold num_falsy; cbv beta iota zeta.
    all: exact Hrun. }
  split; [exact Ha'|]. split; [exact Hkept|].
  simpl. auto 10.
Qed.

Lemma addEffect_exhaustion_instance_witness :
  exists w' kept inst,
    EffectInterface_addEffect dnd5e 0 (js "Exhaustion +2") hero_uuid None None
      (scene []) = Returned tt w'
    /\ getActorByUuid w' hero_uuid
       = Some (with_effects (kept ++ [inst]) (hero []))
    /\ left_after 2 [] kept
    /\ e_name inst = js "Exhaustion 5"
    /\ f_exhaustionLevel inst = Some 5
    /\ f_originalExhaustion inst = Some 3
    /\ isConvenient inst = true
    /\ e_statuses inst = {[ js "exhaustion" ]}
    /\ e_changes inst
       = match findEffectByName dnd5e (e_name inst) with
         | Some found => e_changes found
         | None => []
         end
    /\ notifications w' = [].
Proof.
  apply (addEffect_exhaustion_instance dnd5e 0 (js "Exhaustion +2") hero_uuid
           None None (descriptor_of exhaustion (Some (js "+2"))) (scene [])
           (hero []) exhaustion 5);
    [reflexivity | discriminate | vm_compute; reflexivity | discriminate
    | reflexivity | vm_compute; reflexivity | discriminate].
Defined.

(** ** An actor without token on the scene *)

(** X15. On an actor for which the test of the token's display raises (no
    token document and no active token), the privileged [addEffect] of a
    status throws for every effect, after the removal of the instance it
    replaces: whenever an active effect with the marker flag has the identity
    token of the effect, one effect has left the actor and none has joined;
    in every case the effects out of reach of [removeEffect] are all
    there, and nothing else of the state changes. *)
Theorem addEffect_status_without_token env fuel effect uuid origin overlay sd
    w actor :
  getActorByUuid w uuid = Some actor ->
  hasActiveHUD actor = Raised ->
  exists kept,
    EffectHandler_addEffect env fuel effect uuid origin overlay (Some sd) w
    = Threw (replace_effects uuid kept w)
    /\ left_after 1 (a_effects actor) kept
    /\ (existsb (fun e => e_active e && isConvenient e
                          && opt_eq (e__id e) (e__id effect))
          (a_effects actor) = true ->
        length (a_effects actor) = S (length kept)).
Proof.
  intros Ha Hhud.
  assert (Hbody :
    EffectHandler_addEffect env fuel effect uuid origin overlay (Some sd) w
    = (match find (fun eff => opt_eq (e__id eff.2) (e__id effect))
               (appliedEffects actor) with
       | Some eff => EffectHandler_removeEffect (e__id eff.2) uuid None
       | None => ret tt
       end ;;
       do _ <- lift (hasActiveHUD actor);
       create_keepId env uuid effect) w).
  { destruct fuel; simpl; unfold bind, get_world; rewrite Ha; reflexivity. }
  rewrite Hbody, Hhud. clear Hbody. unfold bind at 1.
  unfold appliedEffects.
  destruct (find _ _) as [eff|] eqn:Hfound.
  - apply (find_applied_Some (fun e => opt_eq (e__id e) (e__id effect))
             (a_effects actor) id) in Hfound
      as (i & before & after & _ & Hl & _ & Hp & _).
    apply andb_true_iff in Hp as [_ Hid].
    apply bool_decide_eq_true in Hid. rewrite Hid.
    destruct (removeEffect_leaves w uuid actor (e__id effect) None Ha)
      as (kept & Hrun & Hkept & Hone).
    exists kept. rewrite Hrun. split; [reflexivity|]. split; [exact Hkept|].
    intros Hex. apply Hone. apply existsb_exists in Hex as (e & Hin & He).
    apply existsb_exists. exists e. split; [exact Hin|].
    apply andb_true_iff in He as [He Heq].
    unfold candidate, matches_effectID. rewrite He, Heq. reflexivity.
  - exists (a_effects actor).
    rewrite (replace_effects_own uuid w actor Ha).
    split; [reflexivity|]. split; [apply left_after_refl|].
    intros Hex.
    apply (find_applied_None (fun e => opt_eq (e__id e) (e__id effect))
             (a_effects actor) id) in Hfound.
    apply existsb_exists in Hex as (e & Hin & He).
    assert (Hno : e_active e && opt_eq (e__id e) (e__id effect) = false).
    { destruct (e_active e && opt_eq (e__id e) (e__id effect)) eqn:Hc;
        [|reflexivity].
      rewrite <- Hfound. symmetry. apply existsb_exists. eauto. }
    destruct (e_active e), (isConvenient e), (opt_eq (e__id e) (e__id effect));
      discriminate.
Qed.

Lemma addEffect_status_without_token_witness :
  exists kept,
    EffectHandler_addEffect dnd5e 0
      (instance "dnd5eprone000000" "Prone" true true None {[ js "prone" ]})
      (js "Actor.offstage") None None (Some (descriptor_of prone None))
      (scene_with_offstage
         [instance "dnd5eprone000000" "Prone" true true None {[ js "prone" ]}])
    = Threw (replace_effects (js "Actor.offstage") kept
               (scene_with_offstage
                  [instance "dnd5eprone000000" "Prone" true true None
                     {[ js "prone" ]}]))
    /\ left_after 1
         [instance "dnd5eprone000000" "Prone" true true None {[ js "prone" ]}]
         kept
    /\ (existsb (fun e => e_active e && isConvenient e
                          && opt_eq (e__id e) (Some (js "dnd5eprone000000")))
          [instance "dnd5eprone000000" "Prone" true true None {[ js "prone" ]}]
        = true ->
        length [instance "dnd5eprone000000" "Prone" true true None
                  {[ js "prone" ]}] = S (length kept)).
Proof.
  apply (addEffect_status_without_token dnd5e 0
           (instance "dnd5eprone000000" "Prone" true true None {[ js "prone" ]})
           (js "Actor.offstage") None None (descriptor_of prone None)
           (scene_with_offstage
              [instance "dnd5eprone000000" "Prone" true true None
                 {[ js "prone" ]}])
           (offstage
              [instance "dnd5eprone000000" "Prone" true true None
                 {[ js "prone" ]}]));
    [vm_compute; reflexivity | reflexivity].
Defined.

(** ** The actors that an operation touches *)

Lemma touches_only_refl uuids w : touches_only uuids w w.
Proof.
  intros u. destruct (getActorByUuid w u); [|trivial].
  split; [apply with_effects_own | reflexivity].
Qed.

Lemma touches_only_trans uuids w1 w2 w3 :
  touches_only uuids w1 w2 -> touches_only uuids w2 w3 ->
  touches_only uuids w1 w3.
Proof.
  intros H1 H2 u. specialize (H1 u). specialize (H2 u).
  destruct (getActorByUuid w1 u) as [a1|], (getActorByUuid w2 u) as [a2|],
    (getActorByUuid w3 u) as [a3|]; try tauto.
  destruct H1 as [E1 N1], H2 as [E2 N2]. split.
  - rewrite E2 at 1. rewrite E1. reflexivity.
  - intros Hn. rewrite (N2 Hn). apply N1, Hn.
Qed.

Lemma touches_only_incl us vs w w' :
  (forall u, In u us -> In u vs) ->
  touches_only us w w' -> touches_only vs w w'.
Proof.
  intros Hincl H u. specialize (H u).
  destruct (getActorByUuid w u), (getActorByUuid w' u); try tauto.
  destruct H as [E N]. split; [exact E|]. intros Hn. apply N.
  intros Hin. apply Hn, Hincl, Hin.
Qed.

Lemma touches_only_actors uuids w w' :
  actors w' = actors w -> touches_only uuids w w'.
Proof.
  intros H u. unfold getActorByUuid. rewrite H.
  destruct (actors w !! u); [|trivial].
  split; [apply with_effects_own | reflexivity].
Qed.

Lemma touches_only_alter uuid (f : Actor -> list Effect) w w' :
  actors w' = alter (fun a => with_effects (f a) a) uuid (actors w) ->
  touches_only [uuid] w w'.
Proof.
  intros H u. unfold getActorByUuid. rewrite H.
  destruct (decide (u = uuid)) as [-> | Hne].
  - rewrite lookup_alter_eq. destruct (actors w !! uuid); simpl; [|trivial].
    split; [reflexivity|]. intros Hn. exfalso. apply Hn. left. reflexivity.
  - rewrite lookup_alter_ne by congruence.
    destruct (actors w !! u); [|trivial].
    split; [apply with_effects_own | reflexivity].
Qed.

Section Keeps.

Variable uuids : list jsstring.

Let R := touches_only uuids.

Lemma keeps_ret {A : Type} (a : A) : keeps R (ret a).
Proof. intros w. apply touches_only_refl. Qed.

Lemma keeps_throw {A : Type} : keeps R (@throw A).
Proof. intros w. apply touches_only_refl. Qed.

Lemma keeps_lift {A : Type} (r : Result A) : keeps R (lift r).
Proof. intros w. destruct r; apply touches_only_refl. Qed.

Lemma keeps_get_world : keeps R get_world.
Proof. intros w. apply touches_only_refl. Qed.

Lemma keeps_out_of_fuel {A : Type} : keeps R (fun _ => @OutOfFuel A).
Proof. intros w. exact I. Qed.

Lemma keeps_notify message : keeps R (notify message).
Proof. intros w. apply touches_only_actors. reflexivity. Qed.

Lemma keeps_bind {A B : Type} (m : M A) (k : A -> M B) :
  keeps R m -> (forall a, keeps R (k a)) -> keeps R (bind m k).
Proof.
  intros Hm Hk w. unfold bind. specialize (Hm w).
  destruct (m w) as [a w1 | w1 |]; simpl in *; [|exact Hm | exact I].
  specialize (Hk a w1). destruct (final (k a w1)); [|exact I].
  apply (touches_only_trans uuids w w1); assumption.
Qed.

Lemma keeps_executeAsGM c handler :
  keeps R handler -> keeps R (executeAsGM c handler).
Proof.
  intros H w. unfold executeAsGM. fold (logged c w).
  specialize (H (logged c w)). destruct (final _); [|exact I].
  apply (touches_only_trans uuids w (logged c w)); [|exact H].
  apply touches_only_actors. reflexivity.
Qed.

Lemma keeps_for_of {A : Type} (l : list A) (body : A -> M unit) :
  (forall x, In x l -> keeps R (body x)) -> keeps R (for_of l body).
Proof.
  induction l as [|x l IH]; intros H; simpl; [apply keeps_ret|].
  apply keeps_bind; [apply H; left; reflexivity|].
  intros _. apply IH. intros y Hy. apply H. right. exact Hy.
Qed.

End Keeps.

Lemma keeps_incl {A : Type} us vs (m : M A) :
  (forall u, In u us -> In u vs) ->
  keeps (touches_only us) m -> keeps (touches_only vs) m.
Proof.
  intros Hincl H w. specialize (H w). destruct (final (m w)); [|exact I].
  apply (touches_only_incl us vs); assumption.
Qed.

Lemma keeps_set_effects uuid f :
  keeps (touches_only [uuid]) (set_effects uuid f).
Proof.
  intros w. apply (touches_only_alter uuid (fun a => f (a_effects a))).
  reflexivity.
Qed.

Lemma keeps_createEmbeddedDocuments env uuid effect :
  keeps (touches_only [uuid]) (createEmbeddedDocuments env uuid effect).
Proof.
  intros w.
  apply (touches_only_alter uuid
           (fun a => a_effects a
                     ++ [with_id (Some (randomID env (created w))) effect])).
  reflexivity.
Qed.

Lemma keeps_create_keepId env uuid effect :
  keeps (touches_only [uuid]) (create_keepId env uuid effect).
Proof.
  unfold create_keepId. destruct (e__id effect);
    [apply keeps_set_effects | apply keeps_createEmbeddedDocuments].
Qed.

Lemma keeps_removeEffect effectID uuid origin :
  keeps (touches_only [uuid]) (EffectHandler_removeEffect effectID uuid origin).
Proof.
  unfold EffectHandler_removeEffect.
  apply keeps_bind; [apply keeps_get_world|]. intros w0.
  destruct (getActorByUuid w0 uuid); [|apply keeps_throw]. cbv zeta.
  destruct (if truthy_str origin then _ else _);
    [apply keeps_set_effects | apply keeps_ret].
Qed.

(** One step through an operation: the first lemma that fits, or a case
    distinction on what the operation branches on. *)
Ltac keeps_step :=
  first
    [ apply keeps_ret | apply keeps_throw | apply keeps_lift
    | apply keeps_get_world | apply keeps_notify | apply keeps_out_of_fuel
    | apply keeps_removeEffect | apply keeps_create_keepId
    | apply keeps_createEmbeddedDocuments | apply keeps_set_effects
    | apply keeps_executeAsGM
    | apply keeps_bind; [|intros ?]
    | match goal with
      | |- keeps _ (match ?x with _ => _ end) => destruct x
      end ].

Lemma keeps_addEffectWith_over env (relay_addEffect : AddEffect) uuid :
  (forall effect origin overlay isStatusEffect,
     keeps (touches_only [uuid])
       (relay_addEffect effect uuid origin overlay isStatusEffect)) ->
  forall effectData origin overlay,
    keeps (touches_only [uuid])
      (addEffectWith_over env relay_addEffect effectData uuid origin overlay).
Proof.
  intros Hrelay effectData origin overlay. unfold addEffectWith_over.
  destruct effectData as [effectData|]; [|apply keeps_notify]. cbv zeta.
  repeat keeps_step; apply Hrelay.
Qed.

Lemma keeps_addEffect env uuid fuel :
  forall effect origin overlay isStatusEffect,
    keeps (touches_only [uuid])
      (EffectHandler_addEffect env fuel effect uuid origin overlay
         isStatusEffect).
Proof.
  induction fuel as [|fuel IH]; intros effect origin overlay isStatusEffect;
    simpl; cbv zeta.
  - apply keeps_bind; [apply keeps_get_world|]. intros w0.
    destruct (getActorByUuid w0 uuid) as [actor|]; [|apply keeps_throw].
    destruct isStatusEffect as [sd|]; [repeat keeps_step|].
    apply keeps_bind; [apply keeps_createEmbeddedDocuments|]. intros _.
    destruct (f_subEffects _); [|apply keeps_ret].
    apply keeps_for_of. intros sub _. apply keeps_out_of_fuel.
  - apply keeps_bind; [apply keeps_get_world|]. intros w0.
    destruct (getActorByUuid w0 uuid) as [actor|]; [|apply keeps_throw].
    destruct isStatusEffect as [sd|]; [repeat keeps_step|].
    apply keeps_bind; [apply keeps_createEmbeddedDocuments|]. intros _.
    destruct (f_subEffects _); [|apply keeps_ret].
    apply keeps_for_of. intros sub _.
    exact (keeps_addEffectWith_over env (EffectHandler_addEffect env fuel)
             uuid IH (Some sub) _ None).
Qed.

Lemma keeps_toggle env fuel effectName overlay uuids isStatusEffect active :
  keeps (touches_only uuids)
    (EffectHandler_toggleEffect env fuel effectName overlay uuids
       isStatusEffect active).
Proof.
  unfold EffectHandler_toggleEffect. apply keeps_for_of. intros uuid Hin.
  apply (keeps_incl [uuid] uuids); [intros ? [<- | []]; exact Hin|].
  destruct isStatusEffect as [sd|].
  - apply keeps_bind; [apply keeps_get_world|]. intros w0.
    destruct (getActorByUuid w0 uuid) as [actor|]; [|apply keeps_ret].
    cbv zeta. destruct (if truthy_str (sd__id sd) then _ else _).
    + destruct active as [[|]|]; repeat keeps_step.
    + destruct (truthy active); [apply keeps_ret|].
      unfold deleteEmbeddedDocuments. apply keeps_set_effects.
  - apply keeps_bind; [apply keeps_get_world|]. intros w0.
    destruct (default false _); [apply keeps_removeEffect|].
    destruct (findEffectByName env effectName); [|apply keeps_throw].
    apply keeps_addEffect.
Qed.

Ltac keeps_ops :=
  first [apply keeps_toggle | apply keeps_addEffect | keeps_step].

(** X16. Whether they return or throw, and for every depth of sub-effects,
    [addEffect], [addEffectWith] and [removeEffect] of the issuer and
    [addEffect] of the privileged side make no actor appear or disappear,
    leave every actor its data apart from its effects, and leave every
    actor but the one they are aimed at its effects too. *)
Theorem add_and_remove_touch_only_target env fuel uuid :
  (forall effectName origin overlay,
     keeps (touches_only [uuid])
       (EffectInterface_addEffect env fuel effectName uuid origin overlay))
  /\ (forall effectData origin overlay,
        keeps (touches_only [uuid])
          (EffectInterface_addEffectWith env fuel effectData uuid origin
             overlay))
  /\ (forall effectName origin,
        keeps (touches_only [uuid])
          (EffectInterface_removeEffect env effectName uuid origin))
  /\ (forall effect origin overlay isStatusEffect,
        keeps (touches_only [uuid])
          (EffectHandler_addEffect env fuel effect uuid origin overlay
             isStatusEffect)).
Proof.
  split; [|split; [|split]].
  - intros effectName origin overlay. unfold EffectInterface_addEffect.
    apply keeps_bind; [apply keeps_get_world|]. intros w0.
    destruct (getActorByUuid w0 uuid) as [actor|]; [|apply keeps_throw].
    apply keeps_bind; [apply keeps_lift|]. intros isStatusEffect. cbv zeta.
    repeat keeps_ops.
  - intros effectData origin overlay. unfold EffectInterface_addEffectWith.
    apply keeps_addEffectWith_over. apply keeps_addEffect.
  - intros effectName origin. unfold EffectInterface_removeEffect.
    apply keeps_bind; [apply keeps_lift|]. intros isStatusEffect. cbv zeta.
    repeat keeps_step.
  - apply keeps_addEffect.
Qed.

(** X17. Whether it returns or throws, the issuer's [toggleEffect] changes
    nothing of the actors but the effects of its targets (the UUIDs given
    or, without any, those of [getActorUuids()]), and the privileged
    [toggleEffect] nothing of the actors but the effects of the UUIDs it is
    given, for every descriptor and every value of [active]. *)
Theorem toggleEffect_touches_only_targets env fuel effectName overlay uuids :
  keeps (touches_only (targets_of env uuids))
    (EffectInterface_toggleEffect env fuel effectName overlay uuids)
  /\ forall isStatusEffect active,
       keeps (touches_only uuids)
         (EffectHandler_toggleEffect env fuel effectName overlay uuids
            isStatusEffect active).
Proof.
  split; [|intros; apply keeps_toggle].
  unfold EffectInterface_toggleEffect, targets_of. cbv zeta.
  destruct (match uuids with [] => getActorUuids env | _ => uuids end)
    as [|uuid targets]; [apply keeps_notify|].
  apply keeps_bind; [apply keeps_lift|]. intros isStatusEffect.
  repeat keeps_ops.
Qed.

(** ** The status branch of the privileged toggle *)

Lemma filter_none {A : Type} (p : A -> bool) l :
  existsb p l = false <-> List.filter p l = [].
Proof.
  induction l as [|x l IH]; simpl; [tauto|].
  destruct (p x); simpl; [split; discriminate | exact IH].
Qed.

Lemma filter_all {A : Type} (p : A -> bool) l :
  (forall x, In x l -> p x = true) -> List.filter p l = l.
Proof.
  induction l as [|x l IH]; intros H; simpl; [reflexivity|].
  rewrite (H x) by (left; reflexivity). f_equal. apply IH.
  intros y Hy. apply H. right. exact Hy.
Qed.

(** The toggle of a status on one actor, for a descriptor without [_id]. *)
Lemma toggle_status_body env fuel effectName overlay uuid sd active w actor :
  getActorByUuid w uuid = Some actor ->
  truthy_str (sd__id sd) = false ->
  EffectHandler_toggleEffect env fuel effectName overlay [uuid] (Some sd)
    active w
  = match map e__id (List.filter (single_status (sd_id sd)) (a_effects actor))
    with
    | [] =>
        match active with
        | Some false => Returned tt w
        | _ =>
            (do effect <- lift (fromStatusEffect env (sd_id sd));
             create_keepId env uuid
               (if truthy overlay then with_overlay (Some true) effect
                else effect)) w
        end
    | existing =>
        if truthy active then Returned tt w
        else deleteEmbeddedDocuments uuid existing w
    end.
Proof.
  intros Ha Hid.
  unfold EffectHandler_toggleEffect, for_of, bind at 1, bind at 1, get_world.
  rewrite Ha, Hid. cbv zeta.
  fold (single_status (sd_id sd)).
  destruct (map e__id _) as [|i ids].
  - destruct active as [[|]|]; try reflexivity;
      match goal with
      | |- match ?m w with _ => _ end = _ =>
          destruct (m w) as [[] ?| |]; reflexivity
      end.
  - destruct (truthy active); [reflexivity|].
    destruct (deleteEmbeddedDocuments uuid (i :: ids) w) as [[] ?| |];
      reflexivity.
Qed.

Lemma single_status_singleton statusId effect :
  e_statuses effect = {[ statusId ]} -> single_status statusId effect = true.
Proof.
  intros H. unfold single_status. rewrite H.
  apply andb_true_iff. split; apply bool_decide_eq_true;
    [apply size_singleton | apply elem_of_singleton; reflexivity].
Qed.

(** X18. For a descriptor without [_id], as [isStatusEffect] builds them,
    and an actor none of whose effects has this status alone, nor the
    identity token of the instance to come: the privileged [toggleEffect]
    returns with one instance more, last, that has this status alone; a
    second [toggleEffect] returns with the actor as it was at the start,
    and the two together have changed nothing else of the state but the
    number of identity tokens drawn. *)
Theorem toggle_status_twice_restores env fuel effectName overlay uuid sd w
    actor effect :
  getActorByUuid w uuid = Some actor ->
  truthy_str (sd__id sd) = false ->
  fromStatusEffect env (sd_id sd) = Ok effect ->
  existsb (single_status (sd_id sd)) (a_effects actor) = false ->
  (forall e, In e (a_effects actor) ->
     e__id e <> match e__id effect with
                | Some i => Some i
                | None => Some (randomID env (created w))
                end) ->
  exists w1 w2 inst,
    EffectHandler_toggleEffect env fuel effectName overlay [uuid] (Some sd)
      None w = Returned tt w1
    /\ getActorByUuid w1 uuid
       = Some (with_effects (a_effects actor ++ [inst]) actor)
    /\ single_status (sd_id sd) inst = true
    /\ EffectHandler_toggleEffect env fuel effectName overlay [uuid] (Some sd)
         None w1 = Returned tt w2
    /\ getActorByUuid w2 uuid = Some actor
    /\ only_effects_of uuid w w2.
Proof.
  intros Ha Hid Hfactory Hnone Hids.
  destruct (fromStatusEffect_fields env _ effect Hfactory)
    as (_ & Hstatuses & _).
  set (effect' := if truthy overlay then with_overlay (Some true) effect
                  else effect).
  assert (Heff : e__id effect' = e__id effect
                 /\ e_statuses effect' = {[ sd_id sd ]})
    by (unfold effect'; destruct (truthy overlay); auto).
  destruct Heff as [Hid' Hst'].
  destruct (create_keepId_run env uuid effect' w actor Ha)
    as (w1 & inst & Hrun1 & Ha1 & Hinst & Hframe1).
  assert (Hsingle : single_status (sd_id sd) inst = true)
    by (apply single_status_singleton; rewrite Hinst; exact Hst').
  assert (Htoken : e__id inst = match e__id effect with
                                | Some i => Some i
                                | None => Some (randomID env (created w))
                                end)
    by (rewrite Hinst, <- Hid'; reflexivity).
  set (kept := List.filter
                 (fun e => negb (existsb (opt_eq (e__id e)) [e__id inst]))
                 (a_effects actor ++ [inst])).
  exists w1, (replace_effects uuid kept w1), inst.
  split.
  { rewrite (toggle_status_body env fuel effectName overlay uuid sd None w
               actor Ha Hid).
    apply filter_none in Hnone. rewrite Hnone. simpl.
    unfold bind, lift. rewrite Hfactory. exact Hrun1. }
  split; [exact Ha1|]. split; [exact Hsingle|].
  assert (Hkept : kept = a_effects actor).
  { unfold kept. rewrite List.filter_app. simpl.
    replace (opt_eq (e__id inst) (e__id inst)) with true
      by (symmetry; apply bool_decide_eq_true; reflexivity).
    simpl. rewrite app_nil_r. apply filter_all. intros e Hin.
    replace (opt_eq (e__id e) (e__id inst)) with false; [reflexivity|].
    symmetry. apply bool_decide_eq_false. rewrite Htoken.
    apply Hids, Hin. }
  split.
  { rewrite (toggle_status_body env fuel effectName overlay uuid sd None w1
               _ Ha1 Hid).
    simpl a_effects. rewrite List.filter_app. apply filter_none in Hnone.
    rewrite Hnone. simpl. rewrite Hsingle. simpl.
    unfold deleteEmbeddedDocuments.
    rewrite (set_effects_replace uuid _ w1 _ Ha1). reflexivity. }
  split.
  { rewrite (getActorByUuid_replace uuid kept w1 _ Ha1), Hkept.
    rewrite with_effects_twice. f_equal. symmetry. apply with_effects_own. }
  apply (only_effects_of_trans uuid w w1); [exact Hframe1|].
  apply (only_effects_of_replace uuid kept w1 _ Ha1).
Qed.

Lemma toggle_status_twice_restores_witness :
  exists w1 w2 inst,
    EffectHandler_toggleEffect dnd5e 0 (js "Prone") None [hero_uuid]
      (Some (descriptor_of prone None)) None
      (scene [instance "a1" "Bless" true true None ∅]) = Returned tt w1
    /\ getActorByUuid w1 hero_uuid
       = Some (with_effects
                 ([instance "a1" "Bless" true true None ∅] ++ [inst])
                 (hero [instance "a1" "Bless" true true None ∅]))
    /\ single_status (js "prone") inst = true
    /\ EffectHandler_toggleEffect dnd5e 0 (js "Prone") None [hero_uuid]
         (Some (descriptor_of prone None)) None w1 = Returned tt w2
    /\ getActorByUuid w2 hero_uuid
       = Some (hero [instance "a1" "Bless" true true None ∅])
    /\ only_effects_of hero_uuid
         (scene [instance "a1" "Bless" true true None ∅]) w2.
Proof.
  apply (toggle_status_twice_restores dnd5e 0 (js "Prone") None hero_uuid
           (descriptor_of prone None)
           (scene [instance "a1" "Bless" true true None ∅])
           (hero [instance "a1" "Bless" true true None ∅])
           (mkEffect (Some (js "dnd5eprone000000")) (js "Prone") true None []
              {[ js "prone" ]} false false None None None None None));
    [reflexivity | reflexivity | reflexivity | vm_compute; reflexivity |].
  intros e [<- | []]. vm_compute. discriminate.
Defined.

(** X19. For a descriptor without [_id], the privileged [toggleEffect]
    with [active] pinned reaches the state asked for or throws. With
    [active: false] it returns, every effect left on the actor was there
    before, and none of them has this status alone. With [active: true]
    it removes nothing: it throws, on an actor without such an effect,
    when the status factory does not know the status, and otherwise
    returns with at most one effect more, the actor having an effect with
    this status alone. *)
Theorem toggle_status_pinned env fuel effectName overlay uuid sd w actor :
  getActorByUuid w uuid = Some actor ->
  truthy_str (sd__id sd) = false ->
  (exists kept,
     EffectHandler_toggleEffect env fuel effectName overlay [uuid] (Some sd)
       (Some false) w = Returned tt (replace_effects uuid kept w)
     /\ (forall e, In e kept -> In e (a_effects actor))
     /\ existsb (single_status (sd_id sd)) kept = false)
  /\ ((EffectHandler_toggleEffect env fuel effectName overlay [uuid] (Some sd)
         (Some true) w = Threw w
       /\ fromStatusEffect env (sd_id sd) = Raised
       /\ existsb (single_status (sd_id sd)) (a_effects actor) = false)
      \/ exists w' rest,
           EffectHandler_toggleEffect env fuel effectName overlay [uuid]
             (Some sd) (Some true) w = Returned tt w'
           /\ getActorByUuid w' uuid
              = Some (with_effects (a_effects actor ++ rest) actor)
           /\ (length rest <= 1)%nat
           /\ existsb (single_status (sd_id sd)) (a_effects actor ++ rest)
              = true
           /\ only_effects_of uuid w w').
Proof.
  intros Ha Hid.
  rewrite !(toggle_status_body env fuel effectName overlay uuid sd _ w actor
              Ha Hid).
  destruct (List.filter (single_status (sd_id sd)) (a_effects actor))
    as [|x xs] eqn:Hfilter.
  - apply filter_none in Hfilter. simpl. split.
    + exists (a_effects actor).
      rewrite (replace_effects_own uuid w actor Ha). auto.
    + unfold bind, lift.
      destruct (fromStatusEffect env (sd_id sd)) as [effect|] eqn:Hfactory;
        [right | left; auto].
      destruct (fromStatusEffect_fields env _ effect Hfactory)
        as (_ & Hstatuses & _).
      destruct (create_keepId_run env uuid
                  (if truthy overlay then with_overlay (Some true) effect
                   else effect) w actor Ha)
        as (w' & inst & Hrun & Ha' & Hinst & Hframe).
      exists w', [inst]. split; [exact Hrun|]. split; [exact Ha'|].
      split; [simpl; lia|]. split; [|exact Hframe].
      rewrite existsb_app. apply orb_true_iff. right. simpl.
      rewrite single_status_singleton; [reflexivity|].
      rewrite Hinst. destruct (truthy overlay); exact Hstatuses.
  - assert (Hx : In x (a_effects actor) /\ single_status (sd_id sd) x = true)
      by (apply filter_In; rewrite Hfilter; left; reflexivity).
    simpl map. cbv iota. split.
    + simpl truthy. cbv iota. unfold deleteEmbeddedDocuments.
      rewrite (set_effects_replace uuid _ w actor Ha).
      eexists. split; [reflexivity|]. split.
      * intros e He. apply filter_In in He. tauto.
      * destruct (existsb _ _) eqn:Hex; [|reflexivity]. exfalso.
        apply existsb_exists in Hex as (e & He & Hsingle).
        apply filter_In in He as [Hin Hkeep].
        apply negb_true_iff in Hkeep.
        assert (Hids : existsb (opt_eq (e__id e))
                         (e__id x :: map e__id xs) = true).
        { apply existsb_exists. exists (e__id e).
          split; [|apply bool_decide_eq_true; reflexivity].
          change (e__id x :: map e__id xs) with (map e__id (x :: xs)).
          rewrite <- Hfilter. apply in_map, filter_In. auto. }
        congruence.
    + right. exists w, []. simpl truthy. cbv iota.
      split; [reflexivity|]. rewrite app_nil_r.
      split; [rewrite Ha; f_equal; apply with_effects_own|].
      split; [simpl; lia|]. split; [|apply only_effects_of_refl].
      apply existsb_exists. exists x. exact Hx.
Qed.

Lemma toggle_status_pinned_witness :
  (exists kept,
     EffectHandler_toggleEffect dnd5e 0 (js "Prone") None [hero_uuid]
       (Some (descriptor_of prone None)) (Some false)
       (scene [instance "p1" "Prone" true false None {[ js "prone" ]}])
     = Returned tt
         (replace_effects hero_uuid kept
            (scene [instance "p1" "Prone" true false None {[ js "prone" ]}]))
     /\ (forall e, In e kept ->
           In e [instance "p1" "Prone" true false None {[ js "prone" ]}])
     /\ existsb (single_status (js "prone")) kept = false)
  /\ ((EffectHandler_toggleEffect dnd5e 0 (js "Prone") None [hero_uuid]
         (Some (descriptor_of prone None)) (Some true)
         (scene [instance "p1" "Prone" true false None {[ js "prone" ]}])
       = Threw (scene [instance "p1" "Prone" true false None {[ js "prone" ]}])
       /\ fromStatusEffect dnd5e (js "prone") = Raised
       /\ existsb (single_status (js "prone"))
            [instance "p1" "Prone" true false None {[ js "prone" ]}] = false)
      \/ exists w' rest,
           EffectHandler_toggleEffect dnd5e 0 (js "Prone") None [hero_uuid]
             (Some (descriptor_of prone None)) (Some true)
             (scene [instance "p1" "Prone" true false None {[ js "prone" ]}])
           = Returned tt w'
           /\ getActorByUuid w' hero_uuid
              = Some (with_effects
                        ([instance "p1" "Prone" true false None
                            {[ js "prone" ]}] ++ rest)
                        (hero [instance "p1" "Prone" true false None
                                 {[ js "prone" ]}]))
           /\ (length rest <= 1)%nat
           /\ existsb (single_status (js "prone"))
                ([instance "p1" "Prone" true false None {[ js "prone" ]}]
                 ++ rest) = true
           /\ only_effects_of hero_uuid
                (scene [instance "p1" "Prone" true false None
                          {[ js "prone" ]}]) w').
Proof.
  apply (toggle_status_pinned dnd5e 0 (js "Prone") None hero_uuid
           (descriptor_of prone None)
           (scene [instance "p1" "Prone" true false None {[ js "prone" ]}])
           (hero [instance "p1" "Prone" true false None {[ js "prone" ]}]));
    reflexivity.
Defined.

(** ** [_removeAllExhaustionEffects] *)

(** X20. On an actor whose effects all have an identity token,
    [_removeAllExhaustionEffects] returns and removes nothing, whatever
    the effects are named: each of its five calls gives [removeEffect] an
    [effectName], and [removeEffect] reads [effectID]. *)
Theorem removeAllExhaustionEffects_removes_nothing uuid w actor :
  getActorByUuid w uuid = Some actor ->
  (forall e, In e (a_effects actor) -> e__id e <> None) ->
  EffectHandler__removeAllExhaustionEffects uuid w = Returned tt w.
Proof.
  intros Ha Hids. unfold EffectHandler__removeAllExhaustionEffects, bind.
  rewrite !(removeEffect_without_effectID w uuid actor None Ha Hids).
  reflexivity.
Qed.

Lemma removeAllExhaustionEffects_removes_nothing_witness :
  EffectHandler__removeAllExhaustionEffects hero_uuid
    (scene [instance "x3" "Exhaustion 3" true true None {[ js "exhaustion" ]}])
  = Returned tt
      (scene [instance "x3" "Exhaustion 3" true true None
                {[ js "exhaustion" ]}]).
Proof.
  apply (removeAllExhaustionEffects_removes_nothing hero_uuid
           (scene [instance "x3" "Exhaustion 3" true true None
                     {[ js "exhaustion" ]}])
           (hero [instance "x3" "Exhaustion 3" true true None
                    {[ js "exhaustion" ]}]));
    [reflexivity|].
  intros e [<- | []]. discriminate.
Defined.

(** ** [addEffectWith] on data that is no status *)

(** Data that is plain reaches the test of the actor as one effect built by
    [createActiveEffect]. *)
Lemma addEffectWith_reaches_actor env relay effectData uuid origin overlay w :
  plain_sub env effectData ->
  addEffectWith_over env relay (Some effectData) uuid origin overlay w
  = match getActorByUuid w uuid with
    | None => notify (js "Actor " ++ uuid ++ js " could not be found") w
    | Some _ =>
        executeAsGM
          (CAddEffect (createActiveEffect effectData origin) uuid origin
             overlay None)
          (relay (createActiveEffect effectData origin) uuid origin overlay
             None) w
    end.
Proof.
  intros (Hname & Hnested & _). unfold addEffectWith_over, bind, lift.
  assert (Hstatus : match e_name effectData with
                    | [] => Ok None
                    | _ :: _ => isStatusEffect env (e_name effectData)
                    end = Ok None).
  { destruct Hname as [-> | Hs]; [reflexivity|].
    destruct (e_name effectData); [reflexivity | exact Hs]. }
  rewrite Hstatus.
  assert (hasNestedEffects (createActiveEffect effectData origin) = false)
    as -> by exact Hnested.
  unfold ret, get_world. destruct (getActorByUuid w uuid); reflexivity.
Qed.

(** X21. For data that is plain (the name is no status name under the
    current setting, no nested alternatives, no sub-effects) and an actor
    that exists, [addEffectWith] returns with one instance more, last among
    the actor's effects: it has the origin given in the call, whatever
    origin the data had, and carries the marker flag, whether or not the
    data did; one command has been relayed and nothing notified. *)
Theorem addEffectWith_records_origin env fuel effectData uuid origin overlay
    w actor :
  getActorByUuid w uuid = Some actor ->
  expansion_keeps env ->
  plain_sub env effectData ->
  exists w1 inst,
    EffectInterface_addEffectWith env fuel (Some effectData) uuid origin
      overlay w = Returned tt w1
    /\ getActorByUuid w1 uuid
       = Some (with_effects (a_effects actor ++ [inst]) actor)
    /\ e_origin inst = origin
    /\ isConvenient inst = true
    /\ e_name inst = e_name effectData
    /\ e_active inst = e_active effectData
    /\ notifications w1 = notifications w
    /\ relayed w1
       = relayed w
         ++ [CAddEffect (createActiveEffect effectData origin) uuid origin
               overlay None].
Proof.
  intros Ha Hk Hplain.
  set (effect := createActiveEffect effectData origin).
  destruct (prepared_fields env overlay actor effect Hk)
    as (Hn & Ho & Hact & Hc & Hs).
  set (c := CAddEffect effect uuid origin overlay None).
  assert (Hl : getActorByUuid (logged c w) uuid = Some actor) by exact Ha.
  destruct (addEffect_leaf env fuel effect uuid origin overlay (logged c w)
              actor Hl)
    as (w1 & Hrun & Ha1 & _ & Hn1 & Hr1).
  { rewrite Hs. destruct Hplain as (_ & _ & Hsub). exact Hsub. }
  exists w1, (with_id (Some (randomID env (created w)))
                (prepared env overlay actor effect)).
  split.
  { unfold EffectInterface_addEffectWith.
    rewrite (addEffectWith_reaches_actor env _ effectData uuid origin overlay
               w Hplain), Ha.
    exact Hrun. }
  split; [exact Ha1|].
  split; [exact Ho|]. split; [exact Hc|]. split; [exact Hn|].
  split; [exact Hact|]. split; [exact Hn1 | exact Hr1].
Qed.

Lemma addEffectWith_records_origin_witness :
  exists w1 inst,
    EffectInterface_addEffectWith dnd5e 0
      (Some (instance "b1" "Blessed" true false (Some (js "Item.wand")) ∅))
      hero_uuid (Some (js "Item.scroll")) None (scene []) = Returned tt w1
    /\ getActorByUuid w1 hero_uuid
       = Some (with_effects (a_effects (hero []) ++ [inst]) (hero []))
    /\ e_origin inst = Some (js "Item.scroll")
    /\ isConvenient inst = true
    /\ e_name inst = js "Blessed"
    /\ e_active inst = true
    /\ notifications w1 = []
    /\ relayed w1
       = [] ++ [CAddEffect
                  (createActiveEffect
                     (instance "b1" "Blessed" true false
                        (Some (js "Item.wand")) ∅)
                     (Some (js "Item.scroll")))
                  hero_uuid (Some (js "Item.scroll")) None None].
Proof.
  apply (addEffectWith_records_origin dnd5e 0
           (instance "b1" "Blessed" true false (Some (js "Item.wand")) ∅)
           hero_uuid (Some (js "Item.scroll")) None (scene []) (hero []));
    [reflexivity | apply dnd5e_expansion_keeps |].
  split; [right; vm_compute; reflexivity|].
  split; [reflexivity | left; reflexivity].
Defined.

(** X22. For data that is plain, [addEffectWith] on a UUID that resolves
    to no actor returns after one notification naming the UUID: nothing is
    relayed, and nothing is thrown. *)
Theorem addEffectWith_unknown_actor_notifies env fuel effectData uuid origin
    overlay w :
  plain_sub env effectData ->
  getActorByUuid w uuid = None ->
  EffectInterface_addEffectWith env fuel (Some effectData) uuid origin
    overlay w
  = Returned tt (notified (js "Actor " ++ uuid ++ js " could not be found") w).
Proof.
  intros Hplain Ha. unfold EffectInterface_addEffectWith.
  rewrite (addEffectWith_reaches_actor env _ effectData uuid origin overlay
             w Hplain), Ha.
  reflexivity.
Qed.

Lemma addEffectWith_unknown_actor_notifies_witness :
  EffectInterface_addEffectWith dnd5e 0 (Some (definition "Bless" None))
    (js "Actor.nobody") None None (scene [])
  = Returned tt
      (notified (js "Actor " ++ js "Actor.nobody" ++ js " could not be found")
         (scene [])).
Proof.
  apply (addEffectWith_unknown_actor_notifies dnd5e 0
           (definition "Bless" None) (js "Actor.nobody") None None (scene []));
    [|reflexivity].
  split; [right; vm_compute; reflexivity|].
  split; [reflexivity | left; reflexivity].
Defined.

(** ** The exhaustion level and what [addEffect] does with it *)

Lemma remove_first_none p l : existsb p l = false -> remove_first p l = l.
Proof.
  induction l as [|e l IH]; simpl; [reflexivity|].
  intros [-> Hl]%orb_false_iff. rewrite (IH Hl). reflexivity.
Qed.

(** The privileged [removeEffect] on an actor, in one equation. *)
Lemma removeEffect_run w uuid actor effectID origin :
  getActorByUuid w uuid = Some actor ->
  EffectHandler_removeEffect effectID uuid origin w
  = Returned tt
      (replace_effects uuid
         (remove_first (candidate effectID origin) (a_effects actor)) w).
Proof.
  intros Ha.
  destruct (existsb (candidate effectID origin) (a_effects actor)) eqn:Hex.
  - apply removeEffect_removes_first; assumption.
  - rewrite (remove_first_none _ _ Hex), (replace_effects_own uuid w actor Ha).
    destruct (removeEffect_outcome w uuid actor effectID origin Ha)
      as [[_ Hrun] | (before & e & after & Hl & He & _)]; [exact Hrun|].
    rewrite Hl, existsb_app in Hex. simpl in Hex. rewrite He in Hex.
    rewrite orb_true_r in Hex. discriminate.
Qed.

(** The identifier that the issuer's [addEffect] reads off the applied
    effect it has found by the static identity token. *)
Lemma found_token staticID actor :
  find (fun effect => opt_eq (e__id effect.2) staticID) (appliedEffects actor)
  ≫= (fun effect => e__id effect.2)
  = applied_token staticID actor.
Proof.
  unfold applied_token, appliedEffects.
  destruct (find _ _) as [d|] eqn:Hfound; simpl.
  - apply (find_applied_Some (fun e => opt_eq (e__id e) staticID)
             (a_effects actor) id) in Hfound
      as (i & before & after & _ & Hl & _ & Hp & _).
    assert (Hex : existsb (fun e => e_active e && opt_eq (e__id e) staticID)
                    (a_effects actor) = true).
    { apply existsb_exists. exists d.2. split; [|exact Hp].
      rewrite Hl. apply in_or_app. right. left. reflexivity. }
    rewrite Hex. apply andb_true_iff in Hp as [_ Hid].
    apply bool_decide_eq_true in Hid. exact Hid.
  - apply (find_applied_None (fun e => opt_eq (e__id e) staticID)
             (a_effects actor) id) in Hfound.
    rewrite Hfound. reflexivity.
Qed.

(** The exhaustion branch of the issuer's [addEffect], once the level is
    known. *)
Lemma addEffect_exhaustion_run env fuel effectName uuid origin overlay sd w
    actor exh level :
  getActorByUuid w uuid = Some actor ->
  isStatusEffect env effectName = Ok (Some sd) ->
  sd_isExhaustion sd <> IsFalse ->
  find (fun e => str_eq (se_id e) (js "exhaustion")) (statusEffects env)
  = Some exh ->
  newExhaustionLevel (default 0 (a_exhaustion actor))
    (delta_of (sd_isExhaustion sd)) (se_levels exh) = Some level ->
  let found :=
    find (fun effect => opt_eq (e__id effect.2) (sd_staticID sd))
      (appliedEffects actor) in
  let name := se_name exh ++ js " " ++ number_text level in
  let changes :=
    match findEffectByName env name with
    | Some found => e_changes found
    | None => []
    end in
  EffectInterface_addEffect env fuel effectName uuid origin overlay w
  = (if num_falsy (Some level) then
       executeAsGM
         (CRemoveEffect (found ≫= fun effect => e__id effect.2) uuid None)
         (EffectHandler_removeEffect (found ≫= fun effect => e__id effect.2)
            uuid None)
     else
       (match found with
        | Some effect =>
            executeAsGM (CRemoveEffect (e__id effect.2) uuid None)
              (EffectHandler_removeEffect (e__id effect.2) uuid None)
        | None => ret tt
        end ;;
        do effect <- lift (fromStatusEffect env (sd_id sd));
        executeAsGM
          (CAddEffect
             (with_name name
                (with_changes changes
                   (with_exhaustion (Some level)
                      (Some (default 0 (a_exhaustion actor)))
                      (with_isConvenient true effect))))
             uuid origin overlay (Some sd))
          (EffectHandler_addEffect env fuel
             (with_name name
                (with_changes changes
                   (with_exhaustion (Some level)
                      (Some (default 0 (a_exhaustion actor)))
                      (with_isConvenient true effect))))
             uuid origin overlay (Some sd)))) w.
Proof.
  intros Ha Hst Hexh Hfind Hlevel. cbv zeta.
  unfold EffectInterface_addEffect, bind at 1, get_world. rewrite Ha.
  unfold bind at 1, lift at 1. rewrite Hst.
  destruct (sd_isExhaustion sd) eqn:Hsd; [congruence| |];
    unfold bind at 1, lift at 1; rewrite Hfind; cbv beta iota zeta;
    unfold delta_of in Hlevel; rewrite Hlevel;
    destruct level; reflexivity.
Qed.

(** C4. The exhaustion target level: a bare "Exhaustion" gives
    [min(current + 1, maxLevel)]; a delta with an explicit sign gives
    [clamp(current + signedValue, 0, maxLevel)]; an unsigned delta gives
    [clamp(value, 0, maxLevel)]. This is the level that the issuer's
    [addEffect] acts on. Whenever it is [0], the operation issues a removal
    instead of a creation: it relays one removal command, which names the
    static identity token of the exhaustion status when an applied effect of
    the actor has it (and nothing otherwise); the first active effect with
    the marker flag that answers to this identifier leaves the actor, and
    nothing is created, relayed besides or notified. Whenever it is not
    [0], on an actor with a token on the scene, the operation creates one
    instance, last among the actor's effects, that records this level and
    the current one and is named after the level. The current level of an
    actor that has none is [0]. In particular (2, "+2") gives 4, (5, null)
    with 5 levels gives 5, and (3, "-5") gives 0. The statement holds for
    every current level, the non-negative ones included. *)
Theorem exhaustion_target_level (current maxLevel : Z) (digits : jsstring) :
  0 <= maxLevel ->
  digits <> [] -> forallb Regex.is_digit digits = true ->
  newExhaustionLevel current None (Some maxLevel)
  = Some (Z.min (current + 1) maxLevel)
  /\ newExhaustionLevel current (Some (js "+" ++ digits)) (Some maxLevel)
     = Some (clamp (current + decimal_value digits) 0 maxLevel)
  /\ newExhaustionLevel current (Some (js "-" ++ digits)) (Some maxLevel)
     = Some (clamp (current - decimal_value digits) 0 maxLevel)
  /\ newExhaustionLevel current (Some digits) (Some maxLevel)
     = Some (clamp (decimal_value digits) 0 maxLevel)
  /\ (forall env fuel w effectName uuid origin overlay actor sd exh,
        getActorByUuid w uuid = Some actor ->
        default 0 (a_exhaustion actor) = current ->
        isStatusEffect env effectName = Ok (Some sd) ->
        sd_isExhaustion sd <> IsFalse ->
        find (fun e => str_eq (se_id e) (js "exhaustion")) (statusEffects env)
        = Some exh ->
        se_levels exh = Some maxLevel ->
        newExhaustionLevel current (delta_of (sd_isExhaustion sd))
          (Some maxLevel) = Some 0 ->
        EffectInterface_addEffect env fuel effectName uuid origin overlay w
        = Returned tt
            (replace_effects uuid
               (remove_first
                  (candidate (applied_token (sd_staticID sd) actor) None)
                  (a_effects actor))
               (logged
                  (CRemoveEffect (applied_token (sd_staticID sd) actor) uuid
                     None) w)))
  /\ (forall env fuel w effectName uuid origin overlay actor sd exh level,
        getActorByUuid w uuid = Some actor ->
        default 0 (a_exhaustion actor) = current ->
        isStatusEffect env effectName = Ok (Some sd) ->
        sd_isExhaustion sd <> IsFalse ->
        find (fun e => str_eq (se_id e) (js "exhaustion")) (statusEffects env)
        = Some exh ->
        se_levels exh = Some maxLevel ->
        newExhaustionLevel current (delta_of (sd_isExhaustion sd))
          (Some maxLevel) = Some level ->
        level <> 0 ->
        hasActiveHUD actor <> Raised ->
        exists w' kept inst,
          EffectInterface_addEffect env fuel effectName uuid origin overlay w
          = Returned tt w'
          /\ getActorByUuid w' uuid
             = Some (with_effects (kept ++ [inst]) actor)
          /\ left_after 2 (a_effects actor) kept
          /\ f_exhaustionLevel inst = Some level
          /\ f_originalExhaustion inst = Some current
          /\ e_name inst = se_name exh ++ js " " ++ number_text level
          /\ isConvenient inst = true)
  /\ (4 <= maxLevel ->
      newExhaustionLevel 2 (Some (js "+2")) (Some maxLevel) = Some 4)
  /\ newExhaustionLevel 5 None (Some 5) = Some 5
  /\ newExhaustionLevel 3 (Some (js "-5")) (Some maxLevel) = Some 0.
Proof.
  intros Hmax Hne Hd.
  split; [apply newExhaustionLevel_bare|].
  split; [apply newExhaustionLevel_plus; assumption|].
  split; [apply newExhaustionLevel_minus; assumption|].
  split; [apply newExhaustionLevel_unsigned; assumption|].
  split.
  { intros env fuel w effectName uuid origin overlay actor sd exh
      Ha Hcur His Hex Hexh Hlev Hzero.
    rewrite (addEffect_exhaustion_run env fuel effectName uuid origin overlay
               sd w actor exh 0 Ha His Hex Hexh)
      by (rewrite Hcur, Hlev; exact Hzero).
    cbv beta iota delta [num_falsy]. rewrite found_token.
    unfold executeAsGM.
    fold (logged (CRemoveEffect (applied_token (sd_staticID sd) actor) uuid
                    None) w).
    apply removeEffect_run. exact Ha. }
  split.
  { intros env fuel w effectName uuid origin overlay actor sd exh level
      Ha Hcur His Hex Hexh Hlev Hlevel Hnz Hhud.
    rewrite (addEffect_exhaustion_run env fuel effectName uuid origin overlay
               sd w actor exh level Ha His Hex Hexh)
      by (rewrite Hcur, Hlev; exact Hlevel).
    replace (num_falsy (Some level)) with false
      by (destruct level; [congruence | reflexivity | reflexivity]).
    destruct (fromStatusEffect env (sd_id sd)) as [effect|] eqn:Hfactory;
      [|destruct (isStatusEffect_known_to_factory env effectName sd His
                    Hfactory)].
    set (name := se_name exh ++ js " " ++ number_text level).
    set (k := fun effect : Effect =>
                with_name name
                  (with_changes
                     match findEffectByName env name with
                     | Some found => e_changes found
                     | None => []
                     end
                     (with_exhaustion (Some level)
                        (Some (default 0 (a_exhaustion actor)))
                        (with_isConvenient true effect)))).
    destruct (addEffect_status_tail env fuel uuid origin overlay sd w actor
                (find (fun effect => opt_eq (e__id effect.2) (sd_staticID sd))
                   (appliedEffects actor))
                effect k Ha Hhud Hfactory)
      as (w' & kept & token & Hrun & Ha' & Hkept & _).
    exists w', kept, (with_id token (k effect)).
    rewrite <- Hfactory. split; [exact Hrun|].
    split; [exact Ha'|]. split; [exact Hkept|].
    simpl. rewrite Hcur. auto. }
  split.
  { intros H4.
    transitivity (Some (clamp (2 + decimal_value (js "2")) 0 maxLevel)).
    - apply (newExhaustionLevel_plus 2 maxLevel (js "2"));
        [assumption | discriminate | reflexivity].
    - unfold clamp. change (decimal_value (js "2")) with 2. f_equal. lia. }
  split; [reflexivity|].
  transitivity (Some (clamp (3 - decimal_value (js "5")) 0 maxLevel)).
  - apply (newExhaustionLevel_minus 3 maxLevel (js "5"));
      [assumption | discriminate | reflexivity].
  - unfold clamp. change (decimal_value (js "5")) with 5. f_equal. lia.
Qed.

Lemma exhaustion_target_level_witness :
  newExhaustionLevel 3 (Some (js "-" ++ js "5")) (Some 6)
  = Some (clamp (3 - decimal_value (js "5")) 0 6)
  /\ EffectInterface_addEffect dnd5e 0 (js "Exhaustion -5") hero_uuid None
       None
       (scene [instance "a1" "Bless" true true None ∅;
               instance "dnd5eexhaustion0" "Exhaustion 3" true true None
                 {[ js "exhaustion" ]}])
     = Returned tt
         (replace_effects hero_uuid [instance "a1" "Bless" true true None ∅]
            (logged
               (CRemoveEffect (Some (js "dnd5eexhaustion0")) hero_uuid None)
               (scene [instance "a1" "Bless" true true None ∅;
                       instance "dnd5eexhaustion0" "Exhaustion 3" true true
                         None {[ js "exhaustion" ]}])))
  /\ exists w' kept inst,
       EffectInterface_addEffect dnd5e 0 (js "Exhaustion -1") hero_uuid None
         None
         (scene [instance "dnd5eexhaustion0" "Exhaustion 3" true true None
                   {[ js "exhaustion" ]}])
       = Returned tt w'
       /\ getActorByUuid w' hero_uuid
          = Some (with_effects (kept ++ [inst])
                    (hero [instance "dnd5eexhaustion0" "Exhaustion 3" true
                             true None {[ js "exhaustion" ]}]))
       /\ left_after 2
            [instance "dnd5eexhaustion0" "Exhaustion 3" true true None
               {[ js "exhaustion" ]}] kept
       /\ f_exhaustionLevel inst = Some 2
       /\ f_originalExhaustion inst = Some 3
       /\ e_name inst = js "Exhaustion" ++ js " " ++ number_text 2
       /\ isConvenient inst = true.
Proof.
  destruct (exhaustion_target_level 3 6 (js "5"))
    as (_ & _ & Hminus & _ & Hremove & Hcreate & _);
    [discriminate | discriminate | reflexivity |].
  split; [exact Hminus|]. split.
  - apply (Hremove dnd5e 0%nat
             (scene [instance "a1" "Bless" true true None ∅;
                     instance "dnd5eexhaustion0" "Exhaustion 3" true true None
                       {[ js "exhaustion" ]}])
             (js "Exhaustion -5") hero_uuid None None
             (hero [instance "a1" "Bless" true true None ∅;
                    instance "dnd5eexhaustion0" "Exhaustion 3" true true None
                      {[ js "exhaustion" ]}])
             (descriptor_of exhaustion (Some (js "-5"))) exhaustion);
      first [reflexivity | discriminate].
  - apply (Hcreate dnd5e 0%nat
             (scene [instance "dnd5eexhaustion0" "Exhaustion 3" true true None
                       {[ js "exhaustion" ]}])
             (js "Exhaustion -1") hero_uuid None None
             (hero [instance "dnd5eexhaustion0" "Exhaustion 3" true true None
                      {[ js "exhaustion" ]}])
             (descriptor_of exhaustion (Some (js "-1"))) exhaustion 2);
      first [reflexivity | discriminate].
Defined.

(** ** The status branch of the toggle, target by target *)









(** ** The outcomes of the issuer's toggle and removal, each with its cause *)

(** X9. The issuer's [toggleEffect], for a name that is no status name.
    Without target it notifies once, that a token is to be selected, and
    does nothing else. With targets: when the catalogs do not have the
    name it notifies once, that the effect was not found, and does nothing
    else; when the effect has nested effects and the selection dialog is
    closed it changes nothing at all; and in every other case it relays one
    toggle for all the targets, under the name of the catalog effect, or of
    the nested effect chosen, and its outcome is the outcome of the
    privileged [toggleEffect] under that name. The name relayed is the name
    of an effect that the catalogs give back, so that the privileged side
    never looks up a name that is missing. *)
Theorem toggleEffect_catalog_outcomes (env : Env) (fuel : nat)
    (effectName : jsstring) (overlay : option bool) (uuids : list jsstring)
    (w : World) :
  (targets_of env uuids = [] ->
   EffectInterface_toggleEffect env fuel effectName overlay uuids w
   = Returned tt
       (notified (js "Please select or target a token to toggle "
                  ++ effectName) w))
  /\ (targets_of env uuids <> [] ->
      isStatusEffect env effectName = Ok None ->
      (findEffectByName env effectName = None ->
       EffectInterface_toggleEffect env fuel effectName overlay uuids w
       = Returned tt
           (notified (js "Effect " ++ effectName ++ js " was not found") w))
      /\ (forall effect,
            findEffectByName env effectName = Some effect ->
            hasNestedEffects effect = true ->
            _getNestedEffectSelection env effect = None ->
            EffectInterface_toggleEffect env fuel effectName overlay uuids w
            = Returned tt w)
      /\ (forall effect chosen,
            findEffectByName env effectName = Some effect ->
            (if hasNestedEffects effect
             then _getNestedEffectSelection env effect
             else Some effect) = Some chosen ->
            findEffectByName env (e_name chosen) = Some chosen
            /\ EffectInterface_toggleEffect env fuel effectName overlay uuids
                 w
               = EffectHandler_toggleEffect env fuel (e_name chosen) overlay
                   (targets_of env uuids) None None
                   (logged (CToggleEffect (e_name chosen) overlay
                              (targets_of env uuids) None) w))).
Proof.
  unfold EffectInterface_toggleEffect. fold (targets_of env uuids).
  destruct (targets_of env uuids) as [|t rest] eqn:Ht.
  - split; [reflexivity | congruence].
  - split; [discriminate|]. intros _ His.
    unfold bind, lift. rewrite His.
    split; [intros ->; reflexivity|]. split.
    + intros effect -> -> ->. reflexivity.
    + intros effect chosen Hfind Hsel. rewrite Hfind.
      destruct (hasNestedEffects effect).
      * rewrite Hsel.
        split; [apply (nested_selection_found env effect), Hsel|].
        reflexivity.
      * injection Hsel as <-.
        split; [apply (findEffectByName_own_name env effectName), Hfind|].
        reflexivity.
Qed.

Lemma toggleEffect_catalog_outcomes_witness :
  findEffectByName dnd5e_choosing (js "Reduce")
  = Some (definition "Reduce" None)
  /\ EffectInterface_toggleEffect dnd5e_choosing 0 (js "Enlarge/Reduce") None
       [hero_uuid] (scene [])
     = EffectHandler_toggleEffect dnd5e_choosing 0 (js "Reduce") None
         [hero_uuid] None None
         (logged (CToggleEffect (js "Reduce") None [hero_uuid] None)
            (scene [])).
Proof.
  destruct (toggleEffect_catalog_outcomes dnd5e_choosing 0
              (js "Enlarge/Reduce") None [hero_uuid] (scene []))
    as [_ H].
  destruct H as (_ & _ & Hrelay);
    [discriminate | vm_compute; reflexivity |].
  apply (Hrelay
           (mkEffect None (js "Enlarge/Reduce") true None [] ∅ true false None
              (Some [js "Enlarge"; js "Reduce"]) None None None)
           (definition "Reduce" None));
    vm_compute; reflexivity.
Defined.

(** X10. The issuer's [removeEffect], each outcome with its cause. When
    the classification of the name throws, so does the operation, before
    any change; in every other case it returns. For a name that is no
    status name: when the catalogs do not have it, the operation notifies
    once that the effect could not be found and does nothing else, whether
    or not the UUID resolves; when the effect has nested effects and the
    selection dialog is closed, it changes nothing at all. Otherwise there
    is an identifier to remove by (the static identity token of the status,
    the name of the catalog effect, or of the nested effect chosen): when
    the UUID resolves to no actor the operation notifies once that the
    actor could not be found and relays nothing; on an actor it relays one
    removal with this identifier and the origin given, after which the
    first active effect with the marker flag that answers to them has left
    the actor, and nothing else has changed. *)
Theorem removeEffect_issuer_outcomes (env : Env) (effectName uuid : jsstring)
    (origin : option jsstring) (w : World) :
  (isStatusEffect env effectName = Raised ->
   EffectInterface_removeEffect env effectName uuid origin w = Threw w)
  /\ (isStatusEffect env effectName <> Raised ->
      returns (EffectInterface_removeEffect env effectName uuid origin w)
      = true)
  /\ (isStatusEffect env effectName = Ok None ->
      findEffectByName env effectName = None ->
      EffectInterface_removeEffect env effectName uuid origin w
      = Returned tt
          (notified (js "Effect " ++ effectName ++ js " could not be found")
             w))
  /\ (forall effect,
        isStatusEffect env effectName = Ok None ->
        findEffectByName env effectName = Some effect ->
        hasNestedEffects effect = true ->
        _getNestedEffectSelection env effect = None ->
        EffectInterface_removeEffect env effectName uuid origin w
        = Returned tt w)
  /\ (forall effectID,
        removal_identifier env effectName effectID ->
        (getActorByUuid w uuid = None ->
         EffectInterface_removeEffect env effectName uuid origin w
         = Returned tt
             (notified (js "Actor " ++ uuid ++ js " could not be found") w))
        /\ (forall actor,
              getActorByUuid w uuid = Some actor ->
              EffectInterface_removeEffect env effectName uuid origin w
              = Returned tt
                  (replace_effects uuid
                     (remove_first (candidate effectID origin)
                        (a_effects actor))
                     (logged (CRemoveEffect effectID uuid origin) w)))).
Proof.
  assert (Hrelay : forall effectID,
            ((do w0 <- get_world;
              match getActorByUuid w0 uuid with
              | None =>
                  notify (js "Actor " ++ uuid ++ js " could not be found")
              | Some _ =>
                  executeAsGM (CRemoveEffect effectID uuid origin)
                    (EffectHandler_removeEffect effectID uuid origin)
              end) w
             = match getActorByUuid w uuid with
               | None =>
                   Returned tt
                     (notified
                        (js "Actor " ++ uuid ++ js " could not be found") w)
               | Some actor =>
                   Returned tt
                     (replace_effects uuid
                        (remove_first (candidate effectID origin)
                           (a_effects actor))
                        (logged (CRemoveEffect effectID uuid origin) w))
               end)).
  { intros effectID. unfold bind, get_world.
    destruct (getActorByUuid w uuid) as [actor|] eqn:Ha; [|reflexivity].
    unfold executeAsGM. fold (logged (CRemoveEffect effectID uuid origin) w).
    apply removeEffect_run. exact Ha. }
  set (relayed_as := fun effectID =>
         match getActorByUuid w uuid with
         | None =>
             Returned tt
               (notified (js "Actor " ++ uuid ++ js " could not be found") w)
         | Some actor =>
             Returned tt
               (replace_effects uuid
                  (remove_first (candidate effectID origin) (a_effects actor))
                  (logged (CRemoveEffect effectID uuid origin) w))
         end) in Hrelay.
  assert (Hrun :
    EffectInterface_removeEffect env effectName uuid origin w
    = match isStatusEffect env effectName with
      | Raised => Threw w
      | Ok (Some sd) => relayed_as (sd_staticID sd)
      | Ok None =>
          match findEffectByName env effectName with
          | None =>
              Returned tt
                (notified
                   (js "Effect " ++ effectName ++ js " could not be found") w)
          | Some effect =>
              match (if hasNestedEffects effect
                     then _getNestedEffectSelection env effect
                     else Some effect) with
              | None => Returned tt w
              | Some chosen => relayed_as (Some (e_name chosen))
              end
          end
      end).
  { unfold EffectInterface_removeEffect, bind at 1, lift.
    destruct (isStatusEffect env effectName) as [[sd|]|];
      cbv beta iota zeta; [apply Hrelay | | reflexivity].
    destruct (findEffectByName env effectName) as [effect|]; [|reflexivity].
    destruct (hasNestedEffects effect); [|apply Hrelay].
    destruct (_getNestedEffectSelection env effect);
      [apply Hrelay | reflexivity]. }
  rewrite Hrun. clear Hrun Hrelay. unfold removal_identifier.
  destruct (isStatusEffect env effectName) as [[sd|]|] eqn:His.
  - split; [discriminate|]. split.
    { intros _. unfold relayed_as.
      destruct (getActorByUuid w uuid); reflexivity. }
    split; [discriminate|]. split; [discriminate|].
    intros effectID ->. unfold relayed_as.
    split; [intros ->; reflexivity | intros actor ->; reflexivity].
  - split; [discriminate|]. split.
    { intros _. destruct (findEffectByName env effectName) as [effect|];
        [|reflexivity].
      destruct (if hasNestedEffects effect then _ else _); [|reflexivity].
      unfold relayed_as. destruct (getActorByUuid w uuid); reflexivity. }
    split; [intros _ ->; reflexivity|]. split.
    { intros effect _ -> -> ->. reflexivity. }
    intros effectID (effect & chosen & -> & -> & ->). unfold relayed_as.
    split; [intros ->; reflexivity | intros actor ->; reflexivity].
  - split; [reflexivity|]. split; [congruence|].
    split; [discriminate|]. split; [discriminate|]. intros effectID [].
Qed.

Lemma removeEffect_issuer_outcomes_witness :
  EffectInterface_removeEffect dnd5e (js "Bless") (js "Actor.nobody") None
    (scene [])
  = Returned tt
      (notified (js "Actor " ++ js "Actor.nobody" ++ js " could not be found")
         (scene []))
  /\ EffectInterface_removeEffect dnd5e (js "Bless") hero_uuid None
       (scene [instance "a0" "Bless" true false None ∅;
               instance "a1" "Bless" true true None ∅;
               instance "a2" "Bless" true true None ∅])
     = Returned tt
         (replace_effects hero_uuid
            [instance "a0" "Bless" true false None ∅;
             instance "a2" "Bless" true true None ∅]
            (logged (CRemoveEffect (Some (js "Bless")) hero_uuid None)
               (scene [instance "a0" "Bless" true false None ∅;
                       instance "a1" "Bless" true true None ∅;
                       instance "a2" "Bless" true true None ∅]))).
Proof.
  assert (Hid : removal_identifier dnd5e (js "Bless") (Some (js "Bless"))).
  { exists (definition "Bless" None), (definition "Bless" None).
    split; [reflexivity|]. split; reflexivity. }
  split.
  - destruct (removeEffect_issuer_outcomes dnd5e (js "Bless")
                (js "Actor.nobody") None (scene []))
      as (_ & _ & _ & _ & H).
    destruct (H (Some (js "Bless")) Hid) as [Hnone _].
    apply Hnone. reflexivity.
  - destruct (removeEffect_issuer_outcomes dnd5e (js "Bless") hero_uuid None
                (scene [instance "a0" "Bless" true false None ∅;
                        instance "a1" "Bless" true true None ∅;
                        instance "a2" "Bless" true true None ∅]))
      as (_ & _ & _ & _ & H).
    destruct (H (Some (js "Bless")) Hid) as [_ Hactor].
    apply (Hactor (hero [instance "a0" "Bless" true false None ∅;
                         instance "a1" "Bless" true true None ∅;
                         instance "a2" "Bless" true true None ∅])).
    reflexivity.
Defined.
